(** * SEO analytics core: normalization, merge and scoring

    A shallow embedding of [seo_analytics_mcp.core] (normalization.py,
    analysis.py, scoring.py).

    Python dictionaries are finite maps ([gmap]) from strings, a raised
    exception is the [None] of the option monad, and Python's [float] is an
    instance of the interface [Numeric].  Two instances are given:

    - [binary64]: IEEE 754 double precision on Rocq's primitive floats, the
      arithmetic CPython runs; used to execute the code on concrete inputs;
    - [exact]: the real numbers, where rounding of the arithmetic is
      idealised away; the general order and field arguments live here. *)

From Stdlib Require Import ZArith Reals Lra Lia Floats Ascii String.
From stdpp Require Import gmap strings list sorting.

#[local] Set Warnings "-inexact-float,-clear-no-such-hyp".

(** ** Numbers *)

(** What the code needs of Python's [float]: conversion from [int], the four
    operations, [abs], the comparisons and [round(x, ndigits)].  [fdiv] is the
    bare quotient; the [ZeroDivisionError] of Python's [/] is added by
    [py_div] below. *)
Class Numeric (F : Type) := {
  of_Z : Z → F;
  fadd : F → F → F;
  fsub : F → F → F;
  fmul : F → F → F;
  fdiv : F → F → F;
  fabs : F → F;
  feqb : F → F → bool;
  fltb : F → F → bool;
  fleb : F → F → bool;
  fround : nat → F → F;
}.

(** [math.log10], a C library call outside the repository. *)
Class Log10 (F : Type) := log10 : F → F.

Declare Scope num_scope.
Delimit Scope num_scope with num.
Infix "+" := fadd : num_scope.
Infix "-" := fsub : num_scope.
Infix "*" := fmul : num_scope.
Infix "==?" := feqb (at level 70) : num_scope.
Infix "<?" := fltb : num_scope.
Infix "<=?" := fleb : num_scope.
Notation "x >? y" := (fltb y x) (at level 70) : num_scope.
Notation "x >=? y" := (fleb y x) (at level 70) : num_scope.

Section NumericOps.
Context {F : Type} `{Numeric F}.

(** A decimal literal [n/d], e.g. [0.35] is [lit 35 100]: both instances
    round the quotient of two exactly represented integers correctly, which
    is how a literal is read. *)
Definition lit (n : Z) (d : positive) : F := fdiv (of_Z n) (of_Z (Z.pos d)).

Definition f0 : F := of_Z 0.

(** Python's [x / y]: raises [ZeroDivisionError] when [y == 0]. *)
Definition py_div (x y : F) : option F :=
  if (y ==? f0)%num then None else Some (fdiv x y).

(** The builtins [min(a, b)] and [max(a, b)]: the first argument is kept
    unless the second is strictly smaller (resp. larger). *)
Definition py_min (a b : F) : F := if (b <? a)%num then b else a.
Definition py_max (a b : F) : F := if (b >? a)%num then b else a.
End NumericOps.

(** *** Exact arithmetic *)

Module Exact.
Definition Rleb (x y : R) : bool := if Rle_dec x y then true else false.
Definition Rltb (x y : R) : bool := if Rlt_dec x y then true else false.
Definition Reqb (x y : R) : bool := if Req_dec_T x y then true else false.

(** Nearest integer, ties to the even one. *)
Definition round_half_even (x : R) : Z :=
  let n := Int_part x in
  let f := (x - IZR n)%R in
  if Rltb f (1/2) then n
  else if Rltb (1/2) f then (n + 1)%Z
  else if Z.even n then n else (n + 1)%Z.

Definition Rround (ndigits : nat) (x : R) : R :=
  (IZR (round_half_even (x * 10 ^ ndigits)) / 10 ^ ndigits)%R.

#[export] Instance exact : Numeric R := {|
  of_Z := IZR;
  fadd := Rplus; fsub := Rminus; fmul := Rmult; fdiv := Rdiv;
  fabs := Rabs;
  feqb := Reqb; fltb := Rltb; fleb := Rleb;
  fround := Rround;
|}.

#[export] Instance exact_log10 : Log10 R := λ x, (ln x / ln 10)%R.
End Exact.

(** *** IEEE 754 binary64 *)

Module B64.
(** Nearest integer to [n/d] for [0 ≤ n], ties to even. *)
Definition div_half_even (n : Z) (d : Z) : Z :=
  let q := (n / d)%Z in
  let r := (n mod d)%Z in
  if (2 * r <? d)%Z then q
  else if (d <? 2 * r)%Z then (q + 1)%Z
  else if Z.even q then q else (q + 1)%Z.

(** The double nearest to the rational [n/d] with [0 < n]: a 53-bit
    significand [m] and an exponent [e >= -1074] with [m * 2^e] the
    correctly rounded value. *)
Definition nearest_pos (n : Z) (d : positive) : float :=
  let e0 := (Z.log2 n - Z.log2 (Z.pos d) - 52)%Z in
  let scaled (e : Z) : Z * Z :=
    if (0 <=? e)%Z then (n, Z.pos d * 2 ^ e)%Z else (n * 2 ^ (- e), Z.pos d)%Z in
  let e1 := if (let '(a, b) := scaled e0 in a / b <? 2 ^ 52)%Z
            then (e0 - 1)%Z else e0 in
  let e := Z.max e1 (-1074) in
  let '(a, b) := scaled e in
  let m := div_half_even a b in
  if (1024 <? Z.log2 m + e + 1)%Z then infinity
  else Z.ldexp (of_uint63 (Uint63.of_Z m)) e.

Definition of_Q (n : Z) (d : positive) : float :=
  match n with
  | Z0 => 0%float
  | Z.pos _ => nearest_pos n d
  | Z.neg p => (- nearest_pos (Z.pos p) d)%float
  end.

(** [round(x, ndigits)]: non-finite values and zeros round to themselves;
    otherwise the exact value [m * 2^e] is rounded half-even to [ndigits]
    decimals and the decimal is read back as the nearest double, the sign
    being kept. *)
Definition round (ndigits : nat) (x : float) : float :=
  match Prim2SF x with
  | S754_finite s m e =>
      let p := (10 ^ Z.of_nat ndigits)%Z in
      let k :=
        if (0 <=? e)%Z then (Z.pos m * 2 ^ e * p)%Z
        else div_half_even (Z.pos m * p) (2 ^ (- e)) in
      let r := of_Q k (Z.to_pos p) in
      if s then (- r)%float else r
  | _ => x
  end.

#[export] Instance binary64 : Numeric float := {|
  of_Z := λ z, of_Q z 1;
  fadd := PrimFloat.add; fsub := PrimFloat.sub;
  fmul := PrimFloat.mul; fdiv := PrimFloat.div;
  fabs := PrimFloat.abs;
  feqb := PrimFloat.eqb; fltb := PrimFloat.ltb; fleb := PrimFloat.leb;
  fround := round;
|}.
End B64.

(** ** Python values and exceptions *)

(** The values a metrics dictionary holds: [float], [int], [str], [None]. *)
Inductive pyval (F : Type) : Type :=
  | VNum (x : F)
  | VInt (n : Z)
  | VStr (s : string)
  | VNone.
Arguments VNum {F} x.
Arguments VInt {F} n.
Arguments VStr {F} s.
Arguments VNone {F}.

#[export] Instance pyval_inhabited F : Inhabited (pyval F) := populate VNone.

(** [dict[str, Any]] *)
Abbreviation pydict F := (gmap string (pyval F)).

(** [d.update(e)]: the entries of [e] win. *)
Definition dict_update {A} (d e : gmap string A) : gmap string A := e ∪ d.

(** A loop over the values of a dictionary whose body may raise: the call
    raises if the body does for some entry. *)
Definition map_mapM {A B} (f : A → option B) (m : gmap string A)
    : option (gmap string B) :=
  if decide (map_Forall (λ _ a, is_Some (f a)) m) then Some (omap f m) else None.

Section PyValues.
Context {F : Type} `{Numeric F}.

(** [float(v)]: [TypeError] on [None]; a [str] is not among the values the
    pipeline stores under a metric name and is treated as a [ValueError]. *)
Definition py_float (v : pyval F) : option F :=
  match v with
  | VNum x => Some x
  | VInt n => Some (of_Z n)
  | VStr _ | VNone => None
  end.

(** [float(d.get(k, 0.0))] *)
Definition get_float (d : pydict F) (k : string) : option F :=
  match d !! k with
  | Some v => py_float v
  | None => Some f0
  end.

(** [isinstance(v, (int, float))], with the number when it holds *)
Definition as_number (v : option (pyval F)) : option F :=
  match v with
  | Some (VNum x) => Some x
  | Some (VInt n) => Some (of_Z n)
  | _ => None
  end.
End PyValues.

(** ** normalization.py *)

(** *** Strings *)

Section Strings.
Definition code (c : ascii) : N := N_of_ascii c.

(** [str.isspace] on ASCII. *)
Definition is_space (c : ascii) : bool :=
  let n := code c in
  ((9 <=? n) && (n <=? 13) || (28 <=? n) && (n <=? 32))%N.

Definition is_upper (c : ascii) : bool := ((65 <=? code c) && (code c <=? 90))%N.
Definition is_lower (c : ascii) : bool := ((97 <=? code c) && (code c <=? 122))%N.
Definition is_digit (c : ascii) : bool := ((48 <=? code c) && (code c <=? 57))%N.
Definition is_alpha (c : ascii) : bool := is_upper c || is_lower c.

Definition lower_char (c : ascii) : ascii :=
  if is_upper c then ascii_of_N (code c + 32) else c.

(** [s.lower()] *)
Fixpoint lower (s : string) : string :=
  match s with
  | EmptyString => EmptyString
  | String c s' => String (lower_char c) (lower s')
  end.

(** [s.lstrip(chars)], the set of characters given as a predicate *)
Fixpoint lstrip_by (p : ascii → bool) (s : string) : string :=
  match s with
  | String c s' => if p c then lstrip_by p s' else s
  | EmptyString => EmptyString
  end.

(** [s.rstrip(chars)] *)
Fixpoint rstrip_by (p : ascii → bool) (s : string) : string :=
  match s with
  | String c s' =>
      match rstrip_by p s' with
      | EmptyString => if p c then EmptyString else String c EmptyString
      | r => String c r
      end
  | EmptyString => EmptyString
  end.

(** [s.strip()] *)
Definition strip (s : string) : string := rstrip_by is_space (lstrip_by is_space s).

Definition is_slash (c : ascii) : bool := bool_decide (c = "/"%char).

(** [s.startswith(p)] *)
Fixpoint startswith (p s : string) : bool :=
  match p, s with
  | EmptyString, _ => true
  | String a p', String b s' => Ascii.eqb a b && startswith p' s'
  | String _ _, EmptyString => false
  end.

(** [s.endswith("/")] *)
Fixpoint ends_with_slash (s : string) : bool :=
  match s with
  | EmptyString => false
  | String c EmptyString => is_slash c
  | String _ s' => ends_with_slash s'
  end.

(** [s[:-1]] *)
Fixpoint drop_last (s : string) : string :=
  match s with
  | EmptyString => EmptyString
  | String _ EmptyString => EmptyString
  | String c s' => String c (drop_last s')
  end.

(** [s.replace(c, "")] for the characters satisfying [p] *)
Fixpoint remove_chars (p : ascii → bool) (s : string) : string :=
  match s with
  | EmptyString => EmptyString
  | String c s' => if p c then remove_chars p s' else String c (remove_chars p s')
  end.

(** [c in s] for the characters satisfying [p] *)
Fixpoint has_char (p : ascii → bool) (s : string) : bool :=
  match s with
  | EmptyString => false
  | String c s' => p c || has_char p s'
  end.

(** Splits at the first character satisfying [p]: the part before it and
    the part from it on (empty if there is none). *)
Fixpoint break_at (p : ascii → bool) (s : string) : string * string :=
  match s with
  | EmptyString => (EmptyString, EmptyString)
  | String c s' =>
      if p c then (EmptyString, s)
      else let '(a, b) := break_at p s' in (String c a, b)
  end.

(** [s.split(c, 1)] when [c] occurs in [s]: the parts around its first
    occurrence; [(s, "")] when it does not. *)
Definition split_first (p : ascii → bool) (s : string) : string * string :=
  match break_at p s with
  | (a, String _ b) => (a, b)
  | (a, EmptyString) => (a, EmptyString)
  end.
End Strings.

(** *** urllib.parse *)

(** [urlsplit] and [urlunsplit] of the Python standard library (CPython 3.11)
    on ASCII strings.  Two library calls are left as parameters of the
    development: the validation of a bracketed (IPv6) host and [urljoin].
    The last check of [urlsplit], [_checknetloc], returns at once when the
    netloc is ASCII and has no counterpart here: what is proved of
    [urlsplit] is proved of ASCII input. *)

Record SplitResult := {
  scheme : string;
  netloc : string;
  path : string;
  query : string;
  fragment : string;
}.

Definition is_char (a : ascii) (c : ascii) : bool := bool_decide (c = a).
Definition is_c0_or_space (c : ascii) : bool := (code c <=? 32)%N.
Definition is_unsafe (c : ascii) : bool :=
  is_char "009" c || is_char "013" c || is_char "010" c.
Definition is_scheme_char (c : ascii) : bool :=
  is_alpha c || is_digit c || is_char "+" c || is_char "-" c || is_char "." c.
Definition is_netloc_delim (c : ascii) : bool :=
  is_char "/" c || is_char "?" c || is_char "#" c.

Fixpoint all_chars (p : ascii → bool) (s : string) : bool :=
  match s with
  | EmptyString => true
  | String c s' => p c && all_chars p s'
  end.

(** [s.isascii()] *)
Definition isascii (s : string) : bool := all_chars (λ c, (code c <? 128)%N) s.

Definition uses_netloc : list string :=
  [""; "ftp"; "http"; "gopher"; "nntp"; "telnet"; "imap"; "wais"; "file";
   "mms"; "https"; "shttp"; "snews"; "prospero"; "rtsp"; "rtspu"; "rsync";
   "svn"; "svn+ssh"; "sftp"; "nfs"; "git"; "git+ssh"; "ws"; "wss"].

Section Urllib.
(** [_check_bracketed_netloc] does not raise *)
Variable valid_bracketed_host : string → bool.

Definition split_scheme (url : string) : string * string :=
  match url with
  | String c0 _ =>
      match break_at (is_char ":") url with
      | (a, String _ rest) =>
          if negb (bool_decide (a = "")) && is_alpha c0 && all_chars is_scheme_char a
          then (lower a, rest)
          else ("", url)
      | _ => ("", url)
      end
  | EmptyString => ("", url)
  end.

(** [_splitnetloc(url, 2)] when [url[:2] == '//'] *)
Definition split_netloc (url : string) : string * string :=
  match url with
  | String "/" (String "/" rest) => break_at is_netloc_delim rest
  | _ => ("", url)
  end.

(** [None] stands for the [ValueError] of an invalid IPv6 host. *)
Definition urlsplit (url : string) : option SplitResult :=
  let url := remove_chars is_unsafe (lstrip_by is_c0_or_space url) in
  let '(scheme, url) := split_scheme url in
  let '(netloc, url) := split_netloc url in
  let lb := has_char (is_char "[") netloc in
  let rb := has_char (is_char "]") netloc in
  if xorb lb rb then None
  else if lb && rb && negb (valid_bracketed_host netloc) then None
  else
    let '(url, fragment) := split_first (is_char "#") url in
    let '(url, query) := split_first (is_char "?") url in
    Some {| scheme := scheme; netloc := netloc; path := url;
            query := query; fragment := fragment |}.

Definition urlunsplit (c : SplitResult) : string :=
  let url := path c in
  let url :=
    if negb (bool_decide (netloc c = ""))
       || (negb (bool_decide (scheme c = ""))
           && bool_decide (scheme c ∈ uses_netloc)
           && negb (startswith "//" url))
    then
      let url :=
        if negb (bool_decide (url = "")) && negb (startswith "/" url)
        then "/" +:+ url else url in
      "//" +:+ netloc c +:+ url
    else url in
  let url := if bool_decide (scheme c = "") then url else scheme c +:+ ":" +:+ url in
  let url := if bool_decide (query c = "") then url else url +:+ "?" +:+ query c in
  if bool_decide (fragment c = "") then url else url +:+ "#" +:+ fragment c.

Variable urljoin : string → string → string.

(** *** normalize_url *)

(** Lines 38-39: a value without an http(s) prefix is resolved against the
    base, when one is given. *)
Definition resolve (text : string) (base_url : option string) : string :=
  match base_url with
  | Some base =>
      if negb (startswith "http://" text || startswith "https://" text)
         && negb (bool_decide (base = ""))
      then urljoin (rstrip_by is_slash base +:+ "/") (lstrip_by is_slash text)
      else text
  | None => text
  end.

(** Lines 43-53: the normalized components. *)
Definition canonical_parts (parts : SplitResult)
    (drop_query drop_fragment remove_www : bool) : SplitResult :=
  let scheme := if bool_decide (lower (scheme parts) = "") then "https"
                else lower (scheme parts) in
  let netloc := lower (netloc parts) in
  let netloc := if remove_www && startswith "www." netloc
                then String.substring 4 (String.length netloc - 4) netloc
                else netloc in
  let path := if bool_decide (path parts = "") then "/" else path parts in
  let path := if bool_decide (1 < String.length path)%nat && ends_with_slash path
              then drop_last path else path in
  let query := if drop_query then "" else query parts in
  let fragment := if drop_fragment then "" else fragment parts in
  {| scheme := scheme; netloc := netloc; path := path;
     query := query; fragment := fragment |}.

Definition normalize_url (value : string) (base_url : option string)
    (drop_query drop_fragment remove_www : bool) : option string :=
  let text := strip value in
  if bool_decide (text = "") then Some text
  else
    let text := resolve text base_url in
    parts ← urlsplit text;
    let c := canonical_parts parts drop_query drop_fragment remove_www in
    if bool_decide (netloc c = "") then Some (path c)
    else Some (urlunsplit c).
End Urllib.

(** *** Row aggregation *)

(** A raw metric as [to_float] sees it: the number [float(value)] yields, or
    nothing when the field is missing, [None] or not numeric. *)
Definition to_float {F} (value : option F) (default : F) : F :=
  match value with
  | Some x => x
  | None => default
  end.

(** A search-performance row: [row["keys"]] and its four metrics. *)
Record gsc_row (F : Type) := {
  keys : list string;
  clicks : option F;
  impressions : option F;
  ctr : option F;
  position : option F;
}.
Arguments keys {F}. Arguments clicks {F}. Arguments impressions {F}.
Arguments ctr {F}. Arguments position {F}.

(** The bucket entry the [defaultdict] factory creates. *)
Record gsc_item (F : Type) := {
  gsc_clicks : F;
  gsc_impressions : F;
  gsc_ctr_weighted : F;
  gsc_position_weighted : F;
  gsc_rows : Z;
}.
Arguments gsc_clicks {F}. Arguments gsc_impressions {F}.
Arguments gsc_ctr_weighted {F}. Arguments gsc_position_weighted {F}.
Arguments gsc_rows {F}.

(** A traffic row: its fields read as dimensions, and its six metrics. *)
Record ga4_row (F : Type) := {
  dims : gmap string string;
  sessions : option F;
  engagedSessions : option F;
  conversions : option F;
  totalUsers : option F;
  screenPageViews : option F;
  userEngagementDuration : option F;
}.
Arguments dims {F}. Arguments sessions {F}. Arguments engagedSessions {F}.
Arguments conversions {F}. Arguments totalUsers {F}.
Arguments screenPageViews {F}. Arguments userEngagementDuration {F}.

Record ga4_item (F : Type) := {
  ga4_sessions : F;
  ga4_engaged_sessions : F;
  ga4_conversions : F;
  ga4_total_users : F;
  ga4_screen_page_views : F;
  ga4_user_engagement_duration : F;
  ga4_rows : Z;
}.
Arguments ga4_sessions {F}. Arguments ga4_engaged_sessions {F}.
Arguments ga4_conversions {F}. Arguments ga4_total_users {F}.
Arguments ga4_screen_page_views {F}.
Arguments ga4_user_engagement_duration {F}. Arguments ga4_rows {F}.

(** [l.index(x)] when [x in l] *)
Fixpoint index_of (x : string) (l : list string) : option nat :=
  match l with
  | [] => None
  | y :: l' => if bool_decide (y = x) then Some 0%nat else S <$> index_of x l'
  end.

Section Aggregation.
Context {F : Type} `{Numeric F}.
Variable valid_bracketed_host : string → bool.
Variable urljoin : string → string → string.

Definition _weighted_average (sum_weighted sum_weight fallback : F) : option F :=
  if (sum_weight <=? f0)%num then Some fallback
  else py_div sum_weighted sum_weight.

Definition gsc_default : gsc_item F :=
  {| gsc_clicks := f0; gsc_impressions := f0; gsc_ctr_weighted := f0;
     gsc_position_weighted := f0; gsc_rows := 0 |}.

Definition gsc_page_index (dimensions : option (list string)) : nat :=
  let dimensions := match dimensions with
                    | Some (d :: ds) => d :: ds
                    | _ => ["page"]
                    end in
  default 0%nat (index_of "page" dimensions).

(** The accumulation of one row into its bucket entry. *)
Definition gsc_add (item : gsc_item F) (row : gsc_row F) : gsc_item F :=
  let clicks := to_float (clicks row) f0 in
  let impressions := to_float (impressions row) f0 in
  let ctr := to_float (ctr row) f0 in
  let position := to_float (position row) f0 in
  {| gsc_clicks := (gsc_clicks item + clicks)%num;
     gsc_impressions := (gsc_impressions item + impressions)%num;
     gsc_ctr_weighted := (gsc_ctr_weighted item + ctr * impressions)%num;
     gsc_position_weighted := (gsc_position_weighted item + position * impressions)%num;
     gsc_rows := gsc_rows item + 1 |}.

(** One iteration of the first loop. *)
Definition gsc_step (page_index : nat) (base_url : option string)
    (bucket : gmap string (gsc_item F)) (row : gsc_row F)
    : option (gmap string (gsc_item F)) :=
  match keys row !! page_index with
  | None => Some bucket
  | Some raw_url =>
      url ← normalize_url valid_bracketed_host urljoin raw_url base_url true true false;
      if bool_decide (url = "") then Some bucket
      else Some (<[url := gsc_add (default gsc_default (bucket !! url)) row]> bucket)
  end.

Fixpoint gsc_loop (page_index : nat) (base_url : option string)
    (rows : list (gsc_row F)) (bucket : gmap string (gsc_item F))
    : option (gmap string (gsc_item F)) :=
  match rows with
  | [] => Some bucket
  | row :: rows' =>
      bucket' ← gsc_step page_index base_url bucket row;
      gsc_loop page_index base_url rows' bucket'
  end.

(** The body of the second loop: the derived ratios replace the weighted
    sums. *)
Definition gsc_finish (item : gsc_item F) : option (pydict F) :=
  let impressions := gsc_impressions item in
  gsc_ctr ← _weighted_average (gsc_ctr_weighted item) impressions f0;
  gsc_position ← _weighted_average (gsc_position_weighted item) impressions f0;
  Some (<["gsc_clicks" := VNum (gsc_clicks item)]>
       (<["gsc_impressions" := VNum impressions]>
       (<["gsc_rows" := VInt (gsc_rows item)]>
       (<["gsc_ctr" := VNum gsc_ctr]>
       (<["gsc_position" := VNum gsc_position]> ∅))))).

Definition normalize_gsc_rows_by_page (rows : list (gsc_row F))
    (dimensions : option (list string)) (base_url : option string)
    : option (gmap string (pydict F)) :=
  bucket ← gsc_loop (gsc_page_index dimensions) base_url rows ∅;
  map_mapM gsc_finish bucket.

Definition ga4_default : ga4_item F :=
  {| ga4_sessions := f0; ga4_engaged_sessions := f0; ga4_conversions := f0;
     ga4_total_users := f0; ga4_screen_page_views := f0;
     ga4_user_engagement_duration := f0; ga4_rows := 0 |}.

Definition default_url_dimension_candidates : list string :=
  ["landingPagePlusQueryString"; "landingPage"; "fullPageUrl";
   "pageLocation"; "pagePath"].

(** The inner loop: the first candidate field holding a non-empty value. *)
Fixpoint ga4_raw (candidates : list string) (row : ga4_row F) : option string :=
  match candidates with
  | [] => None
  | dim :: candidates' =>
      match dims row !! dim with
      | Some value =>
          if bool_decide (value = "") then ga4_raw candidates' row else Some value
      | None => ga4_raw candidates' row
      end
  end.

Definition ga4_add (item : ga4_item F) (row : ga4_row F) : ga4_item F :=
  {| ga4_sessions := (ga4_sessions item + to_float (sessions row) f0)%num;
     ga4_engaged_sessions :=
       (ga4_engaged_sessions item + to_float (engagedSessions row) f0)%num;
     ga4_conversions := (ga4_conversions item + to_float (conversions row) f0)%num;
     ga4_total_users := (ga4_total_users item + to_float (totalUsers row) f0)%num;
     ga4_screen_page_views :=
       (ga4_screen_page_views item + to_float (screenPageViews row) f0)%num;
     ga4_user_engagement_duration :=
       (ga4_user_engagement_duration item
        + to_float (userEngagementDuration row) f0)%num;
     ga4_rows := ga4_rows item + 1 |}.

Definition ga4_step (candidates : list string) (base_url : option string)
    (bucket : gmap string (ga4_item F)) (row : ga4_row F)
    : option (gmap string (ga4_item F)) :=
  match ga4_raw candidates row with
  | None => Some bucket
  | Some raw =>
      url ← normalize_url valid_bracketed_host urljoin raw base_url true true false;
      if bool_decide (url = "") then Some bucket
      else Some (<[url := ga4_add (default ga4_default (bucket !! url)) row]> bucket)
  end.

Fixpoint ga4_loop (candidates : list string) (base_url : option string)
    (rows : list (ga4_row F)) (bucket : gmap string (ga4_item F))
    : option (gmap string (ga4_item F)) :=
  match rows with
  | [] => Some bucket
  | row :: rows' =>
      bucket' ← ga4_step candidates base_url bucket row;
      ga4_loop candidates base_url rows' bucket'
  end.

Definition ga4_finish (item : ga4_item F) : option (pydict F) :=
  let sessions := ga4_sessions item in
  ga4_engagement_rate ←
    (if (sessions >? f0)%num then py_div (ga4_engaged_sessions item) sessions
     else Some f0);
  ga4_conversion_rate ←
    (if (sessions >? f0)%num then py_div (ga4_conversions item) sessions
     else Some f0);
  Some (<["ga4_sessions" := VNum sessions]>
       (<["ga4_engaged_sessions" := VNum (ga4_engaged_sessions item)]>
       (<["ga4_conversions" := VNum (ga4_conversions item)]>
       (<["ga4_total_users" := VNum (ga4_total_users item)]>
       (<["ga4_screen_page_views" := VNum (ga4_screen_page_views item)]>
       (<["ga4_user_engagement_duration" :=
            VNum (ga4_user_engagement_duration item)]>
       (<["ga4_rows" := VInt (ga4_rows item)]>
       (<["ga4_engagement_rate" := VNum ga4_engagement_rate]>
       (<["ga4_conversion_rate" := VNum ga4_conversion_rate]> ∅))))))))).

Definition normalize_ga4_rows_by_page (rows : list (ga4_row F))
    (base_url : option string) (url_dimension_candidates : option (list string))
    : option (gmap string (pydict F)) :=
  let candidates := match url_dimension_candidates with
                    | Some (c :: cs) => c :: cs
                    | _ => default_url_dimension_candidates
                    end in
  bucket ← ga4_loop candidates base_url rows ∅;
  map_mapM ga4_finish bucket.

(** [None] is an exception, [Some VNone] the result [None]. *)
Definition compute_delta_pct (current previous : F) : option (pyval F) :=
  if (previous <=? f0)%num then Some VNone
  else VNum <$> py_div (current - previous)%num previous.
End Aggregation.

(** ** analysis.py: the period merger *)

(** [sorted] on strings: code-point lexicographic order. *)
Definition str_le (s t : string) : Prop := String.leb s t = true.
#[export] Instance str_le_dec s t : Decision (str_le s t).
Proof. unfold str_le. apply _. Defined.

Definition sorted_strings (l : list string) : list string := merge_sort str_le l.

Section Merge.
Context {F : Type} `{Numeric F}.

Abbreviation aggregate := (gmap string (pydict F)).

(** Lines 41-43: the previous search values, when the entry is non-empty. *)
Definition add_previous_gsc (prev_g row : pydict F) : option (pydict F) :=
  if bool_decide (prev_g = ∅) then Some row
  else
    c ← get_float prev_g "gsc_clicks";
    i ← get_float prev_g "gsc_impressions";
    Some (<["gsc_prev_impressions" := VNum i]> (<["gsc_prev_clicks" := VNum c]> row)).

(** Lines 44-46: the previous traffic values. *)
Definition add_previous_ga4 (prev_a row : pydict F) : option (pydict F) :=
  if bool_decide (prev_a = ∅) then Some row
  else
    s ← get_float prev_a "ga4_sessions";
    c ← get_float prev_a "ga4_conversions";
    Some (<["ga4_prev_conversions" := VNum c]> (<["ga4_prev_sessions" := VNum s]> row)).

(** [row[key] = compute_delta_pct(float(row.get(current, 0.0)),
    float(row.get(previous, 0.0)))] *)
Definition add_delta (key current previous : string) (row : pydict F)
    : option (pydict F) :=
  c ← get_float row current;
  p ← get_float row previous;
  d ← compute_delta_pct c p;
  Some (<[key := d]> row).

(** The body of the loop of [merge_page_metrics]. *)
Definition merge_row (gsc_current ga4_current gsc_previous ga4_previous : aggregate)
    (url : string) : option (pydict F) :=
  let current_g := default ∅ (gsc_current !! url) in
  let current_a := default ∅ (ga4_current !! url) in
  let prev_g := default ∅ (gsc_previous !! url) in
  let prev_a := default ∅ (ga4_previous !! url) in
  let row : pydict F := {[ "url" := VStr url ]} in
  let row := dict_update row current_g in
  let row := dict_update row current_a in
  row ← add_previous_gsc prev_g row;
  row ← add_previous_ga4 prev_a row;
  row ← add_delta "gsc_clicks_delta_pct" "gsc_clicks" "gsc_prev_clicks" row;
  row ← add_delta "gsc_impressions_delta_pct" "gsc_impressions"
                  "gsc_prev_impressions" row;
  row ← add_delta "ga4_sessions_delta_pct" "ga4_sessions" "ga4_prev_sessions" row;
  row ← add_delta "ga4_conversions_delta_pct" "ga4_conversions"
                  "ga4_prev_conversions" row;
  Some row.

(** The URL universe, sorted. *)
Definition merge_urls (gsc_current ga4_current gsc_previous ga4_previous : aggregate)
    : list string :=
  sorted_strings
    (elements (dom gsc_current ∪ dom ga4_current
               ∪ dom gsc_previous ∪ dom ga4_previous)).

Definition merge_page_metrics
    (gsc_current ga4_current gsc_previous ga4_previous : option aggregate)
    : option (list (pydict F)) :=
  let gsc_current := default ∅ gsc_current in
  let ga4_current := default ∅ ga4_current in
  let gsc_previous := default ∅ gsc_previous in
  let ga4_previous := default ∅ ga4_previous in
  mapM (merge_row gsc_current ga4_current gsc_previous ga4_previous)
       (merge_urls gsc_current ga4_current gsc_previous ga4_previous).
End Merge.

(** ** config.py: the settings the core reads *)

Record Settings (F : Type) := {
  min_impressions_for_ctr_action : Z;
  min_sessions_for_conversion_action : Z;
  target_ctr : F;
  target_conversion_rate : F;
  default_max_action_items : Z;
}.
Arguments min_impressions_for_ctr_action {F}.
Arguments min_sessions_for_conversion_action {F}.
Arguments target_ctr {F}. Arguments target_conversion_rate {F}.
Arguments default_max_action_items {F}.

(** ** scoring.py *)

Record ScoreResult (F : Type) := {
  score : F;
  categories : list string;
  reasons : list string;
  recommendations : list string;
  priority : string;
  expected_impact : string;
  effort : string;
  confidence : F;
}.
Arguments score {F}. Arguments categories {F}. Arguments reasons {F}.
Arguments recommendations {F}. Arguments priority {F}.
Arguments expected_impact {F}. Arguments effort {F}. Arguments confidence {F}.

(** [list(dict.fromkeys(l))]: duplicates dropped, first occurrences kept in
    order. *)
Definition unique_in_order (l : list string) : list string :=
  reverse (remove_dups (reverse l)).

(** The four accumulators of [score_page]. *)
Record score_acc (F : Type) := {
  acc_score : F;
  acc_categories : list string;
  acc_reasons : list string;
  acc_recommendations : list string;
}.
Arguments acc_score {F}. Arguments acc_categories {F}.
Arguments acc_reasons {F}. Arguments acc_recommendations {F}.

Section Scoring.
Context {F : Type} `{Numeric F} `{Log10 F}.

Definition _priority_from_score (score : F) : string :=
  if (score >=? lit 70 1)%num then "high"
  else if (score >=? lit 40 1)%num then "medium"
  else "low".

Definition _expected_impact (score : F) : string :=
  if (score >=? lit 70 1)%num then "high"
  else if (score >=? lit 45 1)%num then "medium"
  else "low".

Definition _effort (categories : list string) : string :=
  if bool_decide ("conversion_optimization" ∈ categories)
     && bool_decide ("content_refresh" ∈ categories) then "medium"
  else if bool_decide ("conversion_optimization" ∈ categories) then "medium"
  else "low".

Definition _log_scale (value multiplier : F) : F :=
  if (value <=? f0)%num then f0
  else py_min (lit 20 1) (log10 (value + lit 1 1) * multiplier)%num.

(** [score += s; categories.append(c); reasons.append(r);
    recommendations.extend(rs)] *)
Definition bump (a : score_acc F) (s : F) (cs : list string) (r : string)
    (rs : list string) : score_acc F :=
  {| acc_score := (acc_score a + s)%num;
     acc_categories := acc_categories a ++ cs;
     acc_reasons := acc_reasons a ++ [r];
     acc_recommendations := acc_recommendations a ++ rs |}.

(** The CTR-gap contribution (lines 71-72). *)
Definition ctr_score (settings : Settings F) (ctr impressions : F) : option F :=
  ctr_gap ← py_div (target_ctr settings - ctr)%num
                   (py_max (target_ctr settings) (lit 1 1000000));
  Some (py_min (lit 45 1) (ctr_gap * lit 45 1 + _log_scale impressions (lit 6 1))%num).

(** The conversion-gap contribution (lines 86-90). *)
Definition cr_score (settings : Settings F) (conversion_rate sessions : F)
    : option F :=
  cr_gap ← py_div (target_conversion_rate settings - conversion_rate)%num
                  (py_max (target_conversion_rate settings) (lit 1 1000000));
  Some (py_min (lit 45 1) (cr_gap * lit 42 1 + _log_scale sessions (lit 6 1))%num).

Definition ctr_rule (settings : Settings F) (impressions ctr : F) : bool :=
  (impressions >=? of_Z (min_impressions_for_ctr_action settings))%num
  && (ctr <? target_ctr settings)%num.

Definition cr_rule (settings : Settings F) (sessions conversion_rate : F) : bool :=
  (sessions >=? of_Z (min_sessions_for_conversion_action settings))%num
  && (conversion_rate <? target_conversion_rate settings)%num.

Definition decline_rule (delta : option F) : option F :=
  match delta with
  | Some d => if (d <=? lit (-2) 10)%num then Some d else None
  | None => None
  end.

Definition winner_rule (settings : Settings F)
    (impressions sessions ctr conversion_rate : F) : bool :=
  (impressions >=? of_Z (min_impressions_for_ctr_action settings))%num
  && (sessions >=? of_Z (min_sessions_for_conversion_action settings))%num
  && (ctr >=? target_ctr settings)%num
  && (conversion_rate >=? target_conversion_rate settings)%num.

Definition position_rule (position impressions : F) : bool :=
  (position >? lit 8 1)%num && (impressions >? f0)%num.

(** The confidence computed on lines 158-170, before rounding. *)
Definition raw_confidence (impressions sessions : F) : F :=
  let sources := 0%Z in
  let sources := if (impressions >? f0)%num then (sources + 1)%Z else sources in
  let sources := if (sessions >? f0)%num then (sources + 1)%Z else sources in
  let volume_factor := f0 in
  let volume_factor :=
    if (impressions >? f0)%num
    then (volume_factor
          + py_min (lit 25 100) (fdiv (log10 (impressions + of_Z 1)) (of_Z 10)))%num
    else volume_factor in
  let volume_factor :=
    if (sessions >? f0)%num
    then (volume_factor
          + py_min (lit 25 100) (fdiv (log10 (sessions + of_Z 1)) (of_Z 10)))%num
    else volume_factor in
  py_min (lit 1 1) (lit 35 100 + lit 2 10 * of_Z sources + volume_factor)%num.

Definition zero_result : ScoreResult F :=
  {| score := f0; categories := []; reasons := []; recommendations := [];
     priority := "low"; expected_impact := "low"; effort := "low";
     confidence := f0 |}.

(** Lines 70-140: the five rules and the position bonus, in order. *)
Definition accumulate (settings : Settings F)
    (impressions clicks ctr position sessions conversion_rate : F)
    (clicks_delta sessions_delta : option (pyval F)) : option (score_acc F) :=
  let a := {| acc_score := f0; acc_categories := []; acc_reasons := [];
              acc_recommendations := [] |} in
  a ←
    (if ctr_rule settings impressions ctr then
       s ← ctr_score settings ctr impressions;
       Some (bump a s ["ctr_optimization"]
         "High impressions with below-target CTR indicate snippet/title opportunity."
         ["Rewrite title and meta description to better match dominant queries.";
          "Test stronger value proposition in the first 60 title characters."])
     else Some a);
  a ←
    (if cr_rule settings sessions conversion_rate then
       s ← cr_score settings conversion_rate sessions;
       Some (bump a s ["conversion_optimization"]
         "Strong traffic with weak conversion efficiency suggests on-page UX/content friction."
         ["Strengthen above-the-fold CTA and internal next-step links.";
          "Add trust proof and tighten informational-to-commercial transition sections."])
     else Some a);
  let a :=
    match decline_rule (as_number clicks_delta) with
    | Some d =>
        bump a (py_min (lit 30 1) (fabs d * lit 60 1)%num) ["content_refresh"]
          "Organic clicks are declining versus the previous period."
          ["Refresh outdated sections and compare SERP competitors for intent drift."]
    | None => a
    end in
  let a :=
    match decline_rule (as_number sessions_delta) with
    | Some d =>
        bump a (py_min (lit 30 1) (fabs d * lit 55 1)%num) ["content_refresh"]
          "On-site sessions are declining versus the previous period."
          ["Audit UX changes, page speed, and content relevance for recent traffic loss."]
    | None => a
    end in
  let a :=
    if winner_rule settings impressions sessions ctr conversion_rate then
      bump a (py_min (lit 35 1) (_log_scale (clicks + sessions)%num (lit 7 1) + lit 10 1)%num)
        ["scale_winner"]
        "Page performs well in both acquisition and conversion."
        ["Expand topic cluster around this page's highest-performing query themes.";
         "Promote this page via internal links from adjacent intent pages."]
    else a in
  let a :=
    if position_rule position impressions then
      bump a (py_min (lit 12 1) ((position - lit 8 1) * lit 15 10)%num) []
        "Average position indicates page may be near page-one threshold." []
    else a in
  Some a.

(** Lines 142-181: the result built from the accumulators. *)
Definition finish (a : score_acc F) (impressions sessions : F) : ScoreResult F :=
  if bool_decide (acc_categories a = []) && (acc_score a <=? f0)%num
  then zero_result
  else
    let unique_categories := sorted_strings (remove_dups (acc_categories a)) in
    {| score := fround 2 (acc_score a);
       categories := unique_categories;
       reasons := unique_in_order (acc_reasons a);
       recommendations := unique_in_order (acc_recommendations a);
       priority := _priority_from_score (acc_score a);
       expected_impact := _expected_impact (acc_score a);
       effort := _effort unique_categories;
       confidence := fround 2 (raw_confidence impressions sessions) |}.

Definition score_page (page : pydict F) (settings : Settings F)
    : option (ScoreResult F) :=
  impressions ← get_float page "gsc_impressions";
  clicks ← get_float page "gsc_clicks";
  ctr ← get_float page "gsc_ctr";
  position ← get_float page "gsc_position";
  sessions ← get_float page "ga4_sessions";
  conversion_rate ← get_float page "ga4_conversion_rate";
  engagement_rate ← get_float page "ga4_engagement_rate";
  let clicks_delta := page !! "gsc_clicks_delta_pct" in
  let sessions_delta := page !! "ga4_sessions_delta_pct" in
  a ← accumulate settings impressions clicks ctr position sessions conversion_rate
                 clicks_delta sessions_delta;
  Some (finish a impressions sessions).

End Scoring.

(** ** analysis.py: action items *)

(** The ["evidence"] entry of an action item. *)
Record Evidence (F : Type) := {
  ev_gsc_impressions : F;
  ev_gsc_clicks : F;
  ev_gsc_ctr : F;
  ev_gsc_position : F;
  ev_ga4_sessions : F;
  ev_ga4_engagement_rate : F;
  ev_ga4_conversion_rate : F;
  ev_gsc_clicks_delta_pct : pyval F;
  ev_ga4_sessions_delta_pct : pyval F;
}.

(** An action item; field [item_x] is the entry ["x"] of the dictionary. *)
Record ActionItem (F : Type) := {
  item_url : pyval F;
  item_score : F;
  item_priority : string;
  item_category : string;
  item_categories : list string;
  item_expected_impact : string;
  item_effort : string;
  item_confidence : F;
  item_reasons : list string;
  item_recommended_actions : list string;
  item_evidence : Evidence F;
}.
Arguments item_url {F}. Arguments item_score {F}. Arguments item_priority {F}.
Arguments item_category {F}. Arguments item_categories {F}.
Arguments item_expected_impact {F}. Arguments item_effort {F}.
Arguments item_confidence {F}. Arguments item_reasons {F}.
Arguments item_recommended_actions {F}. Arguments item_evidence {F}.

Section ActionItems.
Context {F : Type} `{Numeric F} `{Log10 F}.

(** [(s1, c1) < (s2, c2)] on tuples: the first components decide unless
    they are equal. *)
Definition key_lt (k1 k2 : F * F) : bool :=
  if negb (k1.1 ==? k2.1)%num then (k1.1 <? k2.1)%num else (k1.2 <? k2.2)%num.

Definition sort_key (i : ActionItem F) : F * F := (item_score i, item_confidence i).

(** [items.sort(key=..., reverse=True)]: a stable sort into descending
    order; items with equal keys keep their relative order. *)
Fixpoint insert_desc (x : ActionItem F) (l : list (ActionItem F))
    : list (ActionItem F) :=
  match l with
  | [] => [x]
  | y :: l' =>
      if key_lt (sort_key x) (sort_key y) then y :: insert_desc x l' else x :: l
  end.

Fixpoint sort_desc (l : list (ActionItem F)) : list (ActionItem F) :=
  match l with
  | [] => []
  | x :: l' => insert_desc x (sort_desc l')
  end.

Definition evidence_of (page : pydict F) : option (Evidence F) :=
  gsc_impressions ← get_float page "gsc_impressions";
  gsc_clicks ← get_float page "gsc_clicks";
  gsc_ctr ← get_float page "gsc_ctr";
  gsc_position ← get_float page "gsc_position";
  ga4_sessions ← get_float page "ga4_sessions";
  ga4_engagement_rate ← get_float page "ga4_engagement_rate";
  ga4_conversion_rate ← get_float page "ga4_conversion_rate";
  Some {| ev_gsc_impressions := fround 2 gsc_impressions;
          ev_gsc_clicks := fround 2 gsc_clicks;
          ev_gsc_ctr := fround 4 gsc_ctr;
          ev_gsc_position := fround 2 gsc_position;
          ev_ga4_sessions := fround 2 ga4_sessions;
          ev_ga4_engagement_rate := fround 4 ga4_engagement_rate;
          ev_ga4_conversion_rate := fround 4 ga4_conversion_rate;
          ev_gsc_clicks_delta_pct := default VNone (page !! "gsc_clicks_delta_pct");
          ev_ga4_sessions_delta_pct :=
            default VNone (page !! "ga4_sessions_delta_pct") |}.

(** The item built for a page that survives; [page["url"]] raises
    [KeyError] when the entry is missing. *)
Definition action_item (page : pydict F) (result : ScoreResult F)
    : option (ActionItem F) :=
  url ← page !! "url";
  evidence ← evidence_of page;
  Some {| item_url := url;
          item_score := score result;
          item_priority := priority result;
          item_category := match categories result with
                           | c :: _ => c
                           | [] => "opportunity"
                           end;
          item_categories := categories result;
          item_expected_impact := expected_impact result;
          item_effort := effort result;
          item_confidence := confidence result;
          item_reasons := reasons result;
          item_recommended_actions := recommendations result;
          item_evidence := evidence |}.

(** The loop over the merged pages. *)
Fixpoint collect_items (merged_pages : list (pydict F)) (settings : Settings F)
    : option (list (ActionItem F)) :=
  match merged_pages with
  | [] => Some []
  | page :: pages' =>
      result ← score_page page settings;
      if (score result <=? f0)%num then collect_items pages' settings
      else
        item ← action_item page result;
        items ← collect_items pages' settings;
        Some (item :: items)
  end.

Definition generate_action_items (merged_pages : list (pydict F))
    (settings : Settings F) (max_items : option Z) : option (list (ActionItem F)) :=
  let limit := default (default_max_action_items settings) max_items in
  items ← collect_items merged_pages settings;
  Some (take (Z.to_nat (Z.max 1 limit)) (sort_desc items)).
End ActionItems.

(** ** analysis.py: the portfolio summary and the reports *)

(** The dictionary [summarize_portfolio] returns. *)
Record PortfolioSummary (F : Type) := {
  total_pages : Z;
  total_gsc_clicks : pyval F;
  total_gsc_impressions : pyval F;
  total_ga4_sessions : pyval F;
  total_ga4_conversions : pyval F;
  portfolio_ctr : F;
  portfolio_conversion_rate : F;
}.
Arguments total_pages {F}. Arguments total_gsc_clicks {F}.
Arguments total_gsc_impressions {F}. Arguments total_ga4_sessions {F}.
Arguments total_ga4_conversions {F}. Arguments portfolio_ctr {F}.
Arguments portfolio_conversion_rate {F}.

(** The dictionary [build_popularity_snapshot] returns. *)
Record PopularitySnapshot (F : Type) := {
  top_by_gsc_clicks : list (pydict F);
  top_by_gsc_impressions : list (pydict F);
  top_by_ga4_sessions : list (pydict F);
  top_by_ga4_conversions : list (pydict F);
}.
Arguments top_by_gsc_clicks {F}. Arguments top_by_gsc_impressions {F}.
Arguments top_by_ga4_sessions {F}. Arguments top_by_ga4_conversions {F}.

(** The dictionary [build_trend_report] returns. *)
Record TrendReport (F : Type) := {
  click_gainers : list (pydict F);
  click_decliners : list (pydict F);
  session_gainers : list (pydict F);
  session_decliners : list (pydict F);
}.
Arguments click_gainers {F}. Arguments click_decliners {F}.
Arguments session_gainers {F}. Arguments session_decliners {F}.

(** The dictionary [build_data_quality_report] returns, its ["counts"]
    entry flattened. *)
Record DataQualityReport (F : Type) := {
  total_merged_pages : nat;
  pages_with_gsc : nat;
  pages_with_ga4 : nat;
  pages_with_both : nat;
  gsc_only_pages : nat;
  ga4_only_pages : nat;
  top_gsc_only_pages : list (pydict F);
  top_ga4_only_pages : list (pydict F);
}.
Arguments total_merged_pages {F}. Arguments pages_with_gsc {F}.
Arguments pages_with_ga4 {F}. Arguments pages_with_both {F}.
Arguments gsc_only_pages {F}. Arguments ga4_only_pages {F}.
Arguments top_gsc_only_pages {F}. Arguments top_ga4_only_pages {F}.

(** [l[:n]]: a negative [n] counts from the end. *)
Definition py_slice_to {A} (n : Z) (l : list A) : list A :=
  if (0 <=? n)%Z then take (Z.to_nat n) l
  else take (length l - Z.to_nat (- n)) l.

(** [[x for x in l if cond(x)]] with a condition that may raise. *)
Fixpoint filterM {A} (cond : A → option bool) (l : list A) : option (list A) :=
  match l with
  | [] => Some []
  | x :: l' =>
      b ← cond x;
      r ← filterM cond l';
      Some (if b : bool then x :: r else r)
  end.

Section Reports.
Context {F : Type} `{Numeric F}.

(** [sum(xs)] on floats: the builtin starts from the [int] 0 and adds from
    left to right, so the sum of no number is the [int] 0.  (From CPython
    3.12 on the float additions are compensated: the total is the same in
    exact arithmetic and may differ in its last bits in binary64.) *)
Definition py_sum (xs : list F) : pyval F :=
  match xs with
  | [] => VInt 0
  | _ => VNum (foldl fadd (of_Z 0) xs)
  end.

(** [sum(float(p.get(field, 0.0)) for p in pages)] *)
Definition field_sum (field : string) (pages : list (pydict F)) : option (pyval F) :=
  xs ← mapM (λ p, get_float p field) pages;
  Some (py_sum xs).

(** [round(v, ndigits)]: an [int] is returned as it is. *)
Definition py_round (ndigits : nat) (v : pyval F) : pyval F :=
  match v with
  | VNum x => VNum (fround ndigits x)
  | _ => v
  end.

(** [v > 0] on a number *)
Definition is_positive (v : pyval F) : bool :=
  match v with
  | VNum x => (x >? f0)%num
  | VInt n => (0 <? n)%Z
  | _ => false
  end.

(** [num / den if den > 0 else 0.0] *)
Definition guarded_ratio (num den : pyval F) : option F :=
  if is_positive den then
    n ← py_float num;
    d ← py_float den;
    py_div n d
  else Some f0.

Definition summarize_portfolio (merged_pages : list (pydict F))
    : option (PortfolioSummary F) :=
  let total_pages := Z.of_nat (length merged_pages) in
  total_clicks ← field_sum "gsc_clicks" merged_pages;
  total_impressions ← field_sum "gsc_impressions" merged_pages;
  total_sessions ← field_sum "ga4_sessions" merged_pages;
  total_conversions ← field_sum "ga4_conversions" merged_pages;
  portfolio_ctr ← guarded_ratio total_clicks total_impressions;
  portfolio_conversion_rate ← guarded_ratio total_conversions total_sessions;
  Some {| total_pages := total_pages;
          total_gsc_clicks := py_round 2 total_clicks;
          total_gsc_impressions := py_round 2 total_impressions;
          total_ga4_sessions := py_round 2 total_sessions;
          total_ga4_conversions := py_round 2 total_conversions;
          portfolio_ctr := fround 4 portfolio_ctr;
          portfolio_conversion_rate := fround 4 portfolio_conversion_rate |}.

(** [sorted(l, key=..., reverse=True)] and [sorted(l, key=...)] on rows
    paired with their keys: stable sorts, rows with equal keys keep their
    relative order (keys are compared with [<] only; they are taken to be
    ordered by it, as all floats but [nan] are). *)
Fixpoint insert_by_desc {A} (x : F * A) (l : list (F * A)) : list (F * A) :=
  match l with
  | [] => [x]
  | y :: l' => if (x.1 <? y.1)%num then y :: insert_by_desc x l' else x :: l
  end.

Fixpoint sort_by_desc {A} (l : list (F * A)) : list (F * A) :=
  match l with
  | [] => []
  | x :: l' => insert_by_desc x (sort_by_desc l')
  end.

Fixpoint insert_by_asc {A} (x : F * A) (l : list (F * A)) : list (F * A) :=
  match l with
  | [] => [x]
  | y :: l' => if (y.1 <? x.1)%num then y :: insert_by_asc x l' else x :: l
  end.

Fixpoint sort_by_asc {A} (l : list (F * A)) : list (F * A) :=
  match l with
  | [] => []
  | x :: l' => insert_by_asc x (sort_by_asc l')
  end.

(** [sorted(pages, key=lambda p: float(p.get(field, 0.0)), reverse=reverse)]:
    the key of every page is computed first. *)
Definition sorted_by_field (field : string) (reverse : bool)
    (pages : list (pydict F)) : option (list (pydict F)) :=
  ks ← mapM (λ p, get_float p field) pages;
  let keyed := zip ks pages in
  Some ((if reverse then sort_by_desc keyed else sort_by_asc keyed).*2).

(** The entry [_top] builds for a row; in the dictionary display a later
    key replaces an equal earlier one. *)
Definition top_entry (field : string) (row : pydict F) : option (pydict F) :=
  url ← row !! "url";
  value ← get_float row field;
  gsc_clicks ← get_float row "gsc_clicks";
  ga4_sessions ← get_float row "ga4_sessions";
  ga4_conversions ← get_float row "ga4_conversions";
  Some (<["ga4_conversions" := VNum (fround 2 ga4_conversions)]>
       (<["ga4_sessions" := VNum (fround 2 ga4_sessions)]>
       (<["gsc_clicks" := VNum (fround 2 gsc_clicks)]>
       (<[field := VNum (fround 4 value)]>
       {[ "url" := url ]})))).

Definition _top (merged_pages : list (pydict F)) (field : string) (top_n : Z)
    : option (list (pydict F)) :=
  rows ← sorted_by_field field true merged_pages;
  mapM (top_entry field) (py_slice_to top_n rows).

Definition build_popularity_snapshot (merged_pages : list (pydict F)) (top_n : Z)
    : option (PopularitySnapshot F) :=
  by_clicks ← _top merged_pages "gsc_clicks" top_n;
  by_impressions ← _top merged_pages "gsc_impressions" top_n;
  by_sessions ← _top merged_pages "ga4_sessions" top_n;
  by_conversions ← _top merged_pages "ga4_conversions" top_n;
  Some {| top_by_gsc_clicks := by_clicks;
          top_by_gsc_impressions := by_impressions;
          top_by_ga4_sessions := by_sessions;
          top_by_ga4_conversions := by_conversions |}.

(** [isinstance(p.get(field), (int, float))] *)
Definition has_number (field : string) (p : pydict F) : bool :=
  bool_decide (is_Some (as_number (p !! field))).

(** [sorted([p for p in merged_pages if isinstance(...)], key=...,
    reverse=reverse)[:top_n]] *)
Definition movers (field : string) (reverse : bool) (top_n : Z)
    (merged_pages : list (pydict F)) : option (list (pydict F)) :=
  rows ← sorted_by_field field reverse (filter (λ p, has_number field p) merged_pages);
  Some (py_slice_to top_n rows).

(** An entry of [_pack]. *)
Definition pack_entry (delta_field : string) (row : pydict F) : option (pydict F) :=
  url ← row !! "url";
  delta ← get_float row delta_field;
  gsc_clicks ← get_float row "gsc_clicks";
  ga4_sessions ← get_float row "ga4_sessions";
  Some (<["ga4_sessions" := VNum (fround 2 ga4_sessions)]>
       (<["gsc_clicks" := VNum (fround 2 gsc_clicks)]>
       (<[delta_field := VNum (fround 4 delta)]>
       {[ "url" := url ]}))).

Definition _pack (rows : list (pydict F)) (delta_field : string)
    : option (list (pydict F)) :=
  mapM (pack_entry delta_field) rows.

Definition build_trend_report (merged_pages : list (pydict F)) (top_n : Z)
    : option (TrendReport F) :=
  click_gainers ← movers "gsc_clicks_delta_pct" true top_n merged_pages;
  click_decliners ← movers "gsc_clicks_delta_pct" false top_n merged_pages;
  session_gainers ← movers "ga4_sessions_delta_pct" true top_n merged_pages;
  session_decliners ← movers "ga4_sessions_delta_pct" false top_n merged_pages;
  click_gainers ← _pack click_gainers "gsc_clicks_delta_pct";
  click_decliners ← _pack click_decliners "gsc_clicks_delta_pct";
  session_gainers ← _pack session_gainers "ga4_sessions_delta_pct";
  session_decliners ← _pack session_decliners "ga4_sessions_delta_pct";
  Some {| click_gainers := click_gainers;
          click_decliners := click_decliners;
          session_gainers := session_gainers;
          session_decliners := session_decliners |}.

(** [float(p.get(field, 0.0)) > 0] and [float(p.get(field, 0.0)) <= 0] *)
Definition field_positive (field : string) (p : pydict F) : option bool :=
  x ← get_float p field; Some (x >? f0)%num.
Definition field_nonpositive (field : string) (p : pydict F) : option bool :=
  x ← get_float p field; Some (x <=? f0)%num.

(** [a and b]: [b] is evaluated only when [a] holds. *)
Definition and_then (a : option bool) (b : option bool) : option bool :=
  x ← a; if x : bool then b else Some false.

Definition gsc_only_entry (p : pydict F) : option (pydict F) :=
  url ← p !! "url";
  gsc_impressions ← get_float p "gsc_impressions";
  gsc_clicks ← get_float p "gsc_clicks";
  Some (<["gsc_clicks" := VNum (fround 2 gsc_clicks)]>
       (<["gsc_impressions" := VNum (fround 2 gsc_impressions)]>
       {[ "url" := url ]})).

Definition ga4_only_entry (p : pydict F) : option (pydict F) :=
  url ← p !! "url";
  ga4_sessions ← get_float p "ga4_sessions";
  ga4_conversions ← get_float p "ga4_conversions";
  Some (<["ga4_conversions" := VNum (fround 2 ga4_conversions)]>
       (<["ga4_sessions" := VNum (fround 2 ga4_sessions)]>
       {[ "url" := url ]})).

Definition build_data_quality_report (merged_pages : list (pydict F))
    (top_n_unmatched : Z) : option (DataQualityReport F) :=
  with_gsc ← filterM (field_positive "gsc_impressions") merged_pages;
  with_ga4 ← filterM (field_positive "ga4_sessions") merged_pages;
  with_both ← filterM (λ p, and_then (field_positive "gsc_impressions" p)
                                     (field_positive "ga4_sessions" p)) merged_pages;
  gsc_only ← filterM (λ p, and_then (field_positive "gsc_impressions" p)
                                    (field_nonpositive "ga4_sessions" p)) merged_pages;
  ga4_only ← filterM (λ p, and_then (field_positive "ga4_sessions" p)
                                    (field_nonpositive "gsc_impressions" p)) merged_pages;
  gsc_only_top ← sorted_by_field "gsc_impressions" true gsc_only;
  ga4_only_top ← sorted_by_field "ga4_sessions" true ga4_only;
  top_gsc ← mapM gsc_only_entry (py_slice_to top_n_unmatched gsc_only_top);
  top_ga4 ← mapM ga4_only_entry (py_slice_to top_n_unmatched ga4_only_top);
  Some {| total_merged_pages := length merged_pages;
          pages_with_gsc := length with_gsc;
          pages_with_ga4 := length with_ga4;
          pages_with_both := length with_both;
          gsc_only_pages := length gsc_only;
          ga4_only_pages := length ga4_only;
          top_gsc_only_pages := top_gsc;
          top_ga4_only_pages := top_ga4 |}.
End Reports.
(** ** config.py *)

(** [_parse_bool]: the default is used only when the variable is unset. *)
Definition _parse_bool (value : option string) (default : bool) : bool :=
  match value with
  | None => default
  | Some value => bool_decide (lower (strip value) ∈ ["1"; "true"; "yes"; "on"])
  end.

(** Dates are proleptic Gregorian ordinals, as [date.toordinal] numbers
    them: [date.min] is day 1 and [date.max] day 3652059.  [None] stands for
    the [OverflowError] of an operation leaving that range and for the
    [ValueError] of a string that is not a date. *)
Definition date_max : Z := 3652059.

Definition check_date (ordinal : Z) : option Z :=
  if bool_decide (1 ≤ ordinal ≤ date_max)%Z then Some ordinal else None.

(** [timedelta(days=n)]: at most 999999999 days either way. *)
Definition timedelta (days : Z) : option Z :=
  if bool_decide (-999999999 ≤ days ≤ 999999999)%Z then Some days else None.

(** [d - timedelta(days=n)] *)
Definition date_minus_days (d days : Z) : option Z :=
  delta ← timedelta days;
  check_date (d - delta).

Section Dates.
(** [datetime.strptime(value, "%Y-%m-%d").date()] and [date.isoformat], of
    the standard library. *)
Variable parse_date : string → option Z.
Variable isoformat : Z → string.

Definition as_date (value : option string) (fallback : Z) : option Z :=
  match value with
  | None => Some fallback
  | Some value => if bool_decide (value = "") then Some fallback else parse_date value
  end.

(** The two ranges as dates: [(start, end)] and [(prev_start, prev_end)];
    [today] is [date.today()]. *)
Definition ranges_as_dates (today : Z) (start_date end_date : option string)
    (lookback_days : Z) : option ((Z * Z) * (Z * Z)) :=
  yesterday ← date_minus_days today 1;
  end_ ← as_date end_date yesterday;
  start ←
    match start_date with
    | Some s => if bool_decide (s = "") then date_minus_days end_ (lookback_days - 1)
                else parse_date s
    | None => date_minus_days end_ (lookback_days - 1)
    end;
  let span_days := (end_ - start + 1)%Z in
  prev_end ← date_minus_days start 1;
  prev_start ← date_minus_days prev_end (span_days - 1);
  Some ((start, end_), (prev_start, prev_end)).

(** The dictionary returned: its ["current"] and ["previous"] entries. *)
Definition current_and_previous_ranges (today : Z)
    (start_date end_date : option string) (lookback_days : Z)
    : option ((string * string) * (string * string)) :=
  r ← ranges_as_dates today start_date end_date lookback_days;
  Some ((isoformat r.1.1, isoformat r.1.2), (isoformat r.2.1, isoformat r.2.2)).
End Dates.
(** ** connectors: paging through a report *)

(** The service is a function from the number of the call and the request
    (first row, row limit) to the response; the loops are given fuel, one
    unit per request. *)
Section Paging.
Context {Row : Type}.

(** [GSCConnector.search_analytics_all]: the ["rows"] of its result;
    [query i start_row row_limit] is [response.get("rows", [])] of the
    [i]-th request. *)
Fixpoint search_analytics_loop (query : nat → Z → Z → list Row) (fuel call : nat)
    (page_size max_rows start_row : Z) (all_rows : list Row) : option (list Row) :=
  match fuel with
  | O => None
  | S fuel =>
      if (start_row <? max_rows)%Z then
        let rows := query call start_row (Z.min page_size (max_rows - start_row)) in
        match rows with
        | [] => Some all_rows
        | _ =>
            let all_rows := all_rows ++ rows in
            if (Z.of_nat (length rows) <? page_size)%Z then Some all_rows
            else search_analytics_loop query fuel (S call) page_size max_rows
                   (start_row + Z.of_nat (length rows)) all_rows
        end
      else Some all_rows
  end.

Definition search_analytics_all (query : nat → Z → Z → list Row) (fuel : nat)
    (page_size max_rows : Z) : option (list Row) :=
  search_analytics_loop query fuel 0 page_size max_rows 0 [].

(** [GA4Connector.run_report_all]: the ["rows"] of its result;
    [report i offset limit] is the pair of [response["rows"]] and
    [response.get("row_count")] of the [i]-th request. *)
Fixpoint run_report_loop (report : nat → Z → Z → list Row * option Z)
    (fuel call : nat) (page_size max_rows offset : Z) (all_rows : list Row)
    : option (list Row) :=
  match fuel with
  | O => None
  | S fuel =>
      if (offset <? max_rows)%Z then
        let '(rows, row_count) :=
          report call offset (Z.min page_size (max_rows - offset)) in
        match rows with
        | [] => Some all_rows
        | _ =>
            let all_rows := all_rows ++ rows in
            if (Z.of_nat (length rows) <? page_size)%Z then Some all_rows
            else if match row_count with
                    | Some n => (n <=? Z.of_nat (length all_rows))%Z
                    | None => false
                    end
            then Some all_rows
            else run_report_loop report fuel (S call) page_size max_rows
                   (offset + Z.of_nat (length rows)) all_rows
        end
      else Some all_rows
  end.

Definition run_report_all (report : nat → Z → Z → list Row * option Z) (fuel : nat)
    (page_size max_rows : Z) : option (list Row) :=
  run_report_loop report fuel 0 page_size max_rows 0 [].
End Paging.
(** ** server.py: query/page opportunities *)

(** An entry of the ["opportunities"] list. *)
Record Opportunity (F : Type) := {
  opp_query : string;
  opp_page : string;
  opp_score : F;
  opp_clicks : F;
  opp_impressions : F;
  opp_ctr : F;
  opp_position : F;
  opp_ga4_sessions : F;
  opp_ga4_conversion_rate : F;
  opp_recommended_actions : list string;
}.
Arguments opp_query {F}. Arguments opp_page {F}. Arguments opp_score {F}.
Arguments opp_clicks {F}. Arguments opp_impressions {F}. Arguments opp_ctr {F}.
Arguments opp_position {F}. Arguments opp_ga4_sessions {F}.
Arguments opp_ga4_conversion_rate {F}. Arguments opp_recommended_actions {F}.

Section Opportunities.
Context {F : Type} `{Numeric F}.
Variable valid_bracketed_host : string → bool.
Variable urljoin : string → string → string.

(** [to_float((data or {}).get(key))] *)
Definition metric_or_zero (data : option (pydict F)) (key : string) : F :=
  match data with
  | Some d =>
      match d !! key with
      | Some v => default f0 (py_float v)
      | None => f0
      end
  | None => f0
  end.

(** [a.get(k1) or a.get(k2)] on a dictionary of dictionaries: an empty
    dictionary is false. *)
Definition get_or (pages : gmap string (pydict F)) (k1 k2 : string)
    : option (pydict F) :=
  match pages !! k1 with
  | Some d => if bool_decide (d = ∅) then pages !! k2 else Some d
  | None => pages !! k2
  end.

(** Lines 851-854 of [analytics_query_page_opportunities]. *)
Definition opportunity_score (target_ctr target_conversion_rate : F)
    (impressions ctr sessions conversion_rate : F) : option F :=
  ctr_gap ← py_div (py_max f0 (target_ctr - ctr)%num)
                   (py_max target_ctr (lit 1 1000000));
  let opp_score :=
    py_min (lit 100 1)
      (ctr_gap * of_Z 60 + fdiv impressions (of_Z 1000) * of_Z 4)%num in
  Some (if (sessions >? f0)%num && (conversion_rate <? target_conversion_rate)%num
        then (opp_score + of_Z 15)%num else opp_score).

(** The body of the loop over the query/page rows (lines 828-873): [None]
    when [normalize_url] raises, [Some None] for a row that is passed
    over. *)
Definition opportunity_of (settings : Settings F) (base_url : option string)
    (min_impressions : Z) (ga4_pages : gmap string (pydict F)) (row : gsc_row F)
    : option (option (Opportunity F)) :=
  match keys row with
  | query :: page :: _ =>
      normalized_page ← normalize_url valid_bracketed_host urljoin page base_url
                          true true false;
      let impressions := to_float (impressions row) f0 in
      let clicks := to_float (clicks row) f0 in
      let ctr := to_float (ctr row) f0 in
      let position := to_float (position row) f0 in
      if (impressions <? of_Z min_impressions)%num then Some None
      else if (ctr >=? target_ctr settings)%num then Some None
      else
        let ga4_data := get_or ga4_pages normalized_page page in
        let sessions := metric_or_zero ga4_data "ga4_sessions" in
        let conversion_rate := metric_or_zero ga4_data "ga4_conversion_rate" in
        opp_score ← opportunity_score (target_ctr settings)
                      (target_conversion_rate settings)
                      impressions ctr sessions conversion_rate;
        Some (Some {|
          opp_query := query; opp_page := page;
          opp_score := fround 2 opp_score;
          opp_clicks := fround 2 clicks;
          opp_impressions := fround 2 impressions;
          opp_ctr := fround 4 ctr;
          opp_position := fround 2 position;
          opp_ga4_sessions := fround 2 sessions;
          opp_ga4_conversion_rate := fround 4 conversion_rate;
          opp_recommended_actions :=
            ["Align title/H1 with the query intent and expected SERP promise.";
             "Add/strengthen content section directly answering this query.";
             "Improve internal links from related pages using intent-matching anchor text."]
        |})
  | _ => Some None
  end.

Fixpoint opportunities (settings : Settings F) (base_url : option string)
    (min_impressions : Z) (ga4_pages : gmap string (pydict F))
    (rows : list (gsc_row F)) : option (list (Opportunity F)) :=
  match rows with
  | [] => Some []
  | row :: rows' =>
      o ← opportunity_of settings base_url min_impressions ga4_pages row;
      rest ← opportunities settings base_url min_impressions ga4_pages rows';
      Some (match o with Some o => o :: rest | None => rest end)
  end.

(** Lines 826-883: ["total_opportunities"] and ["opportunities"] of the
    result, from the rows of the query/page report and the traffic
    aggregate. *)
Definition ranked_opportunities (settings : Settings F) (base_url : option string)
    (min_impressions top_n : Z) (ga4_pages : gmap string (pydict F))
    (rows : list (gsc_row F)) : option (nat * list (Opportunity F)) :=
  found ← opportunities settings base_url min_impressions ga4_pages rows;
  let sorted := (sort_by_desc (zip (opp_score <$> found) found)).*2 in
  Some (length found, py_slice_to (Z.max 1 top_n) sorted).
End Opportunities.

(** * Properties *)

(** ** Order laws shared by both arithmetics *)

(** The facts about the comparisons that the guards of the code rely on.
    They are implications between successful comparisons, so they also hold
    in binary64 where a [nan] compares false with everything. *)
Class NumericLaws (F : Type) `{Numeric F} : Prop := {
  lt_not_le (x y : F) : (x <? y)%num = true → (y <=? x)%num = false;
  eq_le (x y : F) : (x ==? y)%num = true → (x <=? y)%num = true;
  le_trans (x y z : F) :
    (x <=? y)%num = true → (y <=? z)%num = true → (x <=? z)%num = true;
  lt_le_trans (x y z : F) :
    (x <? y)%num = true → (y <=? z)%num = true → (x <? z)%num = true;
  le_lt_trans (x y z : F) :
    (x <=? y)%num = true → (y <? z)%num = true → (x <? z)%num = true;
}.

Module ExactFacts.
Import Exact.

Lemma Rleb_true x y : Rleb x y = true ↔ (x <= y)%R.
Proof. unfold Rleb. destruct (Rle_dec x y); split; auto; discriminate. Qed.
Lemma Rleb_false x y : Rleb x y = false ↔ (y < x)%R.
Proof. unfold Rleb. destruct (Rle_dec x y); split; auto; try discriminate; lra. Qed.
Lemma Rltb_true x y : Rltb x y = true ↔ (x < y)%R.
Proof. unfold Rltb. destruct (Rlt_dec x y); split; auto; discriminate. Qed.
Lemma Rltb_false x y : Rltb x y = false ↔ (y <= x)%R.
Proof. unfold Rltb. destruct (Rlt_dec x y); split; auto; try discriminate; lra. Qed.
Lemma Reqb_true x y : Reqb x y = true ↔ x = y.
Proof. unfold Reqb. destruct (Req_dec_T x y); split; auto; discriminate. Qed.

#[export] Instance exact_laws : NumericLaws R.
Proof.
  split; simpl; intros *;
    rewrite ?Rleb_true, ?Rleb_false, ?Rltb_true, ?Rltb_false, ?Reqb_true; lra.
Qed.

Lemma lit_exact n d : lit (F:=R) n d = (IZR n / IZR (Z.pos d))%R.
Proof. reflexivity. Qed.

Lemma f0_exact : f0 (F:=R) = 0%R.
Proof. reflexivity. Qed.

Lemma py_min_exact (a b : R) : py_min a b = Rmin a b.
Proof.
  unfold py_min, Rmin; simpl. unfold Rltb.
  destruct (Rlt_dec b a), (Rle_dec a b); try lra; reflexivity.
Qed.

Lemma py_max_exact (a b : R) : py_max a b = Rmax a b.
Proof.
  unfold py_max, Rmax; simpl. unfold Rltb.
  destruct (Rlt_dec a b), (Rle_dec a b); try lra; reflexivity.
Qed.

Lemma py_div_exact (x y : R) : y ≠ 0%R → py_div x y = Some (x / y)%R.
Proof.
  intros Hy. unfold py_div, f0; simpl.
  destruct (Reqb y 0) eqn:E; [|reflexivity].
  apply Reqb_true in E. contradiction.
Qed.
End ExactFacts.

Module B64Facts.
Import B64.

Ltac compare_cases :=
  repeat match goal with
  | |- context [PosDef.Pos.compare_cont Eq ?a ?b] =>
      change (PosDef.Pos.compare_cont Eq a b) with (Pos.compare a b)
  | H : context [PosDef.Pos.compare_cont Eq ?a ?b] |- _ =>
      change (PosDef.Pos.compare_cont Eq a b) with (Pos.compare a b) in H
  | |- context [Z.compare ?a ?b] => destruct (Z.compare_spec a b); subst; simpl
  | H : context [Z.compare ?a ?b] |- _ =>
      destruct (Z.compare_spec a b); subst; simpl in H
  | |- context [Pos.compare ?a ?b] => destruct (Pos.compare_spec a b); subst; simpl
  | H : context [Pos.compare ?a ?b] |- _ =>
      destruct (Pos.compare_spec a b); subst; simpl in H
  end.

Ltac spec_float_order :=
  unfold SFltb, SFleb, SFcompare;
  repeat match goal with
  | x : spec_float |- _ => destruct x as [[]|[]| |[] ? ?]
  end;
  simpl; try congruence; compare_cases; try congruence; try lia.

Lemma SF_lt_not_le x y : SFltb x y = true → SFleb y x = false.
Proof. spec_float_order. Qed.
Lemma SF_le_trans x y z : SFleb x y = true → SFleb y z = true → SFleb x z = true.
Proof. spec_float_order. Qed.
Lemma SF_lt_le_trans x y z : SFltb x y = true → SFleb y z = true → SFltb x z = true.
Proof. spec_float_order. Qed.
Lemma SF_le_lt_trans x y z : SFleb x y = true → SFltb y z = true → SFltb x z = true.
Proof. spec_float_order. Qed.
Lemma SF_eq_le x y : SFeqb x y = true → SFleb x y = true.
Proof. unfold SFeqb, SFleb. destruct (SFcompare x y) as [[]|]; congruence. Qed.

#[export] Instance binary64_laws : NumericLaws float.
Proof.
  split; simpl; intros *;
    rewrite ?FloatAxioms.ltb_spec, ?FloatAxioms.leb_spec, ?FloatAxioms.eqb_spec.
  - apply SF_lt_not_le.
  - apply SF_eq_le.
  - apply SF_le_trans.
  - apply SF_lt_le_trans.
  - apply SF_le_lt_trans.
Qed.
End B64Facts.

Import Exact B64 ExactFacts B64Facts.

Section Laws.
Context {F : Type} `{NumericLaws F}.

Lemma le_not_zero (x : F) : (x <=? f0)%num = false → (x ==? f0)%num = false.
Proof.
  intros Hle. destruct (x ==? f0)%num eqn:E; [|reflexivity].
  apply eq_le in E. congruence.
Qed.

Lemma gt_not_zero (x : F) : (x >? f0)%num = true → (x ==? f0)%num = false.
Proof. intros Hgt. apply le_not_zero. by apply lt_not_le. Qed.

Lemma py_div_guarded (x y : F) :
  (y <=? f0)%num = false → py_div x y = Some (fdiv x y).
Proof. intros Hy. unfold py_div. by rewrite le_not_zero. Qed.
End Laws.

(** ** Delta percentages (compute_delta_pct, merge_page_metrics) *)

(** The four delta fields of a merged record: the field, the current value it
    reads and the previous value it reads. *)
Definition delta_fields : list (string * string * string) :=
  [("gsc_clicks_delta_pct", "gsc_clicks", "gsc_prev_clicks");
   ("gsc_impressions_delta_pct", "gsc_impressions", "gsc_prev_impressions");
   ("ga4_sessions_delta_pct", "ga4_sessions", "ga4_prev_sessions");
   ("ga4_conversions_delta_pct", "ga4_conversions", "ga4_prev_conversions")].

Section DeltaFacts.
Context {F : Type} `{NumericLaws F}.

Lemma compute_delta_pct_positive (current previous : F) :
  (previous >? f0)%num = true →
  compute_delta_pct current previous
  = Some (VNum (fdiv (current - previous)%num previous)).
Proof.
  intros Hp. unfold compute_delta_pct.
  rewrite (lt_not_le _ _ Hp).
  rewrite py_div_guarded; [reflexivity|]. by apply lt_not_le.
Qed.

Lemma compute_delta_pct_nonpositive (current previous : F) :
  (previous <=? f0)%num = true → compute_delta_pct current previous = Some VNone.
Proof. intros Hp. unfold compute_delta_pct. by rewrite Hp. Qed.

Lemma compute_delta_pct_total (current previous : F) :
  is_Some (compute_delta_pct current previous).
Proof.
  unfold compute_delta_pct. destruct (previous <=? f0)%num eqn:E; [by eexists|].
  rewrite py_div_guarded by done. by eexists.
Qed.

Lemma add_delta_inv key current previous (row row' : pydict F) :
  add_delta key current previous row = Some row' →
  ∃ c p d, get_float row current = Some c ∧ get_float row previous = Some p
           ∧ compute_delta_pct c p = Some d ∧ row' = <[key := d]> row.
Proof.
  unfold add_delta. intros Hrow.
  apply bind_Some in Hrow as (c & Hc & Hrow).
  apply bind_Some in Hrow as (p & Hp & Hrow).
  apply bind_Some in Hrow as (d & Hd & Hrow).
  injection Hrow as <-. by exists c, p, d.
Qed.

Lemma get_float_insert_ne (row : pydict F) k k' v :
  k ≠ k' → get_float (<[k := v]> row) k' = get_float row k'.
Proof. intros Hne. unfold get_float. by rewrite lookup_insert_ne. Qed.

Lemma merge_row_deltas (gc ac gp ap : gmap string (pydict F)) url row :
  merge_row gc ac gp ap url = Some row →
  ∀ key current previous, (key, current, previous) ∈ delta_fields →
    ∃ c p, get_float row current = Some c ∧ get_float row previous = Some p
           ∧ row !! key = compute_delta_pct c p.
Proof.
  unfold merge_row. intros Hrow.
  apply bind_Some in Hrow as (r1 & _ & Hrow).
  apply bind_Some in Hrow as (r2 & _ & Hrow).
  apply bind_Some in Hrow as (r3 & H3 & Hrow).
  apply bind_Some in Hrow as (r4 & H4 & Hrow).
  apply bind_Some in Hrow as (r5 & H5 & Hrow).
  apply bind_Some in Hrow as (r6 & H6 & Hrow).
  injection Hrow as <-.
  apply add_delta_inv in H3 as (c3 & p3 & d3 & Hc3 & Hp3 & Hd3 & ->).
  apply add_delta_inv in H4 as (c4 & p4 & d4 & Hc4 & Hp4 & Hd4 & ->).
  apply add_delta_inv in H5 as (c5 & p5 & d5 & Hc5 & Hp5 & Hd5 & ->).
  apply add_delta_inv in H6 as (c6 & p6 & d6 & Hc6 & Hp6 & Hd6 & ->).
  rewrite !get_float_insert_ne in Hc4 by done.
  rewrite !get_float_insert_ne in Hp4 by done.
  rewrite !get_float_insert_ne in Hc5 by done.
  rewrite !get_float_insert_ne in Hp5 by done.
  rewrite !get_float_insert_ne in Hc6 by done.
  rewrite !get_float_insert_ne in Hp6 by done.
  intros key current previous Hin.
  unfold delta_fields in Hin.
  repeat (apply elem_of_cons in Hin as [[= -> -> ->]|Hin]);
    [exists c3, p3 | exists c4, p4 | exists c5, p5 | exists c6, p6
    | by apply elem_of_nil in Hin];
    rewrite !get_float_insert_ne by done;
    (split; [done|split; [done|]]);
    rewrite ?lookup_insert_eq, ?lookup_insert_ne by done;
    by rewrite ?lookup_insert_eq.
Qed.
End DeltaFacts.

Section MergeRows.
Context {F : Type} `{Numeric F}.

Lemma merge_page_metrics_rows (gc ac gp ap : option (gmap string (pydict F))) rows :
  merge_page_metrics gc ac gp ap = Some rows →
  Forall2 (λ url row,
             merge_row (default ∅ gc) (default ∅ ac) (default ∅ gp) (default ∅ ap) url
             = Some row)
          (merge_urls (default ∅ gc) (default ∅ ac) (default ∅ gp) (default ∅ ap))
          rows.
Proof. unfold merge_page_metrics. apply mapM_Some. Qed.

Lemma merge_page_metrics_row (gc ac gp ap : option (gmap string (pydict F))) rows row :
  merge_page_metrics gc ac gp ap = Some rows → row ∈ rows →
  ∃ url, merge_row (default ∅ gc) (default ∅ ac) (default ∅ gp) (default ∅ ap) url
         = Some row.
Proof.
  intros Hrows%merge_page_metrics_rows Hrow.
  apply list_elem_of_lookup in Hrow as [i Hi].
  destruct (Forall2_lookup_r _ _ _ _ _ Hrows Hi) as (url & _ & Hurl).
  by exists url.
Qed.
End MergeRows.

(** C3: the delta percentage is [(current - previous) / previous] when
    [previous > 0] and [None] whenever [previous <= 0], in every arithmetic
    obeying the order laws (binary64 and exact); and each of the four delta
    fields of every merged record holds [compute_delta_pct] of the record's
    own current and previous value of that metric, read with default 0. *)
Theorem delta_pct_null_safe {F : Type} `{NumericLaws F} :
  (∀ current previous : F,
     ((previous >? f0)%num = true →
      compute_delta_pct current previous
      = Some (VNum (fdiv (current - previous)%num previous)))
     ∧ ((previous <=? f0)%num = true →
        compute_delta_pct current previous = Some VNone))
  ∧ (∀ (gc ac gp ap : option (gmap string (pydict F))) rows,
       merge_page_metrics gc ac gp ap = Some rows →
       ∀ row, row ∈ rows →
       ∀ key current previous, (key, current, previous) ∈ delta_fields →
         ∃ c p, get_float row current = Some c ∧ get_float row previous = Some p
                ∧ row !! key = compute_delta_pct c p).
Proof.
  split.
  - intros current previous. split.
    + apply compute_delta_pct_positive.
    + apply compute_delta_pct_nonpositive.
  - intros gc ac gp ap rows Hrows row Hrow.
    destruct (merge_page_metrics_row _ _ _ _ _ _ Hrows Hrow) as [url Hurl].
    by apply merge_row_deltas with (1 := Hurl).
Qed.

Module DeltaExample.
#[local] Open Scope float_scope.

Definition current : gmap string (pydict float) :=
  {[ "https://ex.com/a" := {[ "gsc_clicks" := VNum 150 ]} ]}.
Definition previous : gmap string (pydict float) :=
  {[ "https://ex.com/a" := {[ "gsc_clicks" := VNum 100 ]} ]}.

Definition merged : pydict float :=
  <["url" := VStr "https://ex.com/a"]>
  (<["gsc_clicks" := VNum 150]>
  (<["gsc_prev_clicks" := VNum 100]>
  (<["gsc_prev_impressions" := VNum 0]>
  (<["gsc_clicks_delta_pct" := VNum 0.5]>
  (<["gsc_impressions_delta_pct" := VNone]>
  (<["ga4_sessions_delta_pct" := VNone]>
  (<["ga4_conversions_delta_pct" := VNone]> ∅))))))).

Lemma merged_ok :
  merge_page_metrics (Some current) None (Some previous) None = Some [merged].
Proof. vm_compute. reflexivity. Qed.
End DeltaExample.

Lemma delta_pct_null_safe_witness :
  compute_delta_pct 150%float 100%float = Some (VNum 0.5%float)
  ∧ compute_delta_pct 5%float 0%float = Some VNone
  ∧ ∃ c p, get_float DeltaExample.merged "gsc_clicks" = Some c
           ∧ get_float DeltaExample.merged "gsc_prev_clicks" = Some p
           ∧ DeltaExample.merged !! "gsc_clicks_delta_pct" = compute_delta_pct c p.
Proof.
  destruct (@delta_pct_null_safe float _ B64Facts.binary64_laws) as [Hd Hm].
  split; [|split].
  - apply (proj1 (Hd 150 100)%float). vm_compute. reflexivity.
  - apply (proj2 (Hd 5 0)%float). vm_compute. reflexivity.
  - apply (Hm _ _ _ _ _ DeltaExample.merged_ok DeltaExample.merged).
    + apply list_elem_of_singleton. reflexivity.
    + unfold delta_fields. apply elem_of_cons. left. reflexivity.
Defined.

(** ** Tiers (_priority_from_score, _expected_impact) *)

Section TierFacts.
Context {F : Type} `{NumericLaws F}.
Hypothesis thresholds_ordered : (lit 45 1 <=? lit 70 1)%num = true.

End TierFacts.


(** ** The accumulation loops *)

(** Both aggregators run the same loop: a row is skipped, or raises, or is
    added to the bucket entry of its URL.  [bucket_loop] is that loop for an
    arbitrary key function ([None]: raises, [Some None]: skipped) and
    accumulation; the two loops of the code are instances of it
    ([gsc_loop_bucket_loop], [ga4_loop_bucket_loop]). *)
Section BucketLoop.
Context {Row Item : Type}.
Variable key : Row → option (option string).
Variable add : Item → Row → Item.
Variable dflt : Item.

Fixpoint bucket_loop (rows : list Row) (bucket : gmap string Item)
    : option (gmap string Item) :=
  match rows with
  | [] => Some bucket
  | row :: rows' =>
      match key row with
      | None => None
      | Some None => bucket_loop rows' bucket
      | Some (Some url) =>
          bucket_loop rows' (<[url := add (default dflt (bucket !! url)) row]> bucket)
      end
  end.

(** The rows accumulated under [url], in input order. *)
Definition rows_of (url : string) (rows : list Row) : list Row :=
  filter (λ row, key row = Some (Some url)) rows.

(** The entry of a URL after the loop, from its entry before. *)
Definition entry_after (before : option Item) (rs : list Row) : option Item :=
  match rs with
  | [] => before
  | _ => Some (foldl add (default dflt before) rs)
  end.

Lemma bucket_loop_lookup rows bucket bucket' url :
  bucket_loop rows bucket = Some bucket' →
  bucket' !! url = entry_after (bucket !! url) (rows_of url rows).
Proof.
  revert bucket. induction rows as [|row rows IH]; intros bucket Hloop; simpl in *.
  - by injection Hloop as <-.
  - unfold rows_of in *. rewrite filter_cons.
    destruct (key row) as [[url'|]|] eqn:Hkey; [| |done].
    + rewrite (IH _ Hloop). destruct (decide (url' = url)) as [->|Hne].
      * rewrite decide_True by done. rewrite lookup_insert_eq.
        simpl. by destruct (filter _ rows).
      * rewrite decide_False by congruence. by rewrite lookup_insert_ne.
    + rewrite decide_False by done. by apply IH.
Qed.

Lemma bucket_loop_is_Some rows bucket :
  is_Some (bucket_loop rows bucket) ↔ Forall (λ row, is_Some (key row)) rows.
Proof.
  revert bucket. induction rows as [|row rows IH]; intros bucket; simpl.
  - split; [constructor|by eexists].
  - rewrite Forall_cons. destruct (key row) as [[url'|]|] eqn:Hkey.
    + rewrite IH. split; [by split|tauto].
    + rewrite IH. split; [by split|tauto].
    + split; [by intros [? ?]|by intros [[? ?] _]].
Qed.

(** Reordering the rows: when the accumulation of two rows commutes, the
    loop does not see the order. *)
Hypothesis add_comm : ∀ item r1 r2, add (add item r1) r2 = add (add item r2) r1.

Lemma foldl_add_perm (rs rs' : list Row) item :
  rs ≡ₚ rs' → foldl add item rs = foldl add item rs'.
Proof.
  intros Hperm. revert item.
  induction Hperm as [|r rs rs' _ IH|r1 r2 rs|rs1 rs2 rs3 _ IH1 _ IH2];
    intros item; simpl.
  - done.
  - apply IH.
  - by rewrite add_comm.
  - by rewrite IH1.
Qed.

Lemma entry_after_perm before (rs rs' : list Row) :
  rs ≡ₚ rs' → entry_after before rs = entry_after before rs'.
Proof.
  intros Hperm. unfold entry_after.
  destruct rs as [|r rs], rs' as [|r' rs'].
  - done.
  - by apply Permutation_nil_cons in Hperm.
  - symmetry in Hperm. by apply Permutation_nil_cons in Hperm.
  - f_equal. by apply foldl_add_perm.
Qed.

Lemma bucket_loop_perm rows rows' bucket :
  rows ≡ₚ rows' → bucket_loop rows bucket = bucket_loop rows' bucket.
Proof.
  intros Hperm.
  destruct (bucket_loop rows bucket) as [b1|] eqn:H1,
           (bucket_loop rows' bucket) as [b2|] eqn:H2.
  - f_equal. apply map_eq. intros url.
    rewrite (bucket_loop_lookup _ _ _ url H1), (bucket_loop_lookup _ _ _ url H2).
    apply entry_after_perm. unfold rows_of. by rewrite Hperm.
  - assert (is_Some (bucket_loop rows' bucket)) as [? ?]; [|congruence].
    apply bucket_loop_is_Some. rewrite <- Hperm.
    apply (bucket_loop_is_Some _ bucket). by eexists.
  - assert (is_Some (bucket_loop rows bucket)) as [? ?]; [|congruence].
    apply bucket_loop_is_Some. rewrite Hperm.
    apply (bucket_loop_is_Some _ bucket). by eexists.
  - done.
Qed.
End BucketLoop.

Section MapM.
Context {A B : Type}.

Lemma map_mapM_Some (f : A → option B) (m : gmap string A) m' :
  map_mapM f m = Some m' → ∀ k, m' !! k = m !! k ≫= f.
Proof.
  unfold map_mapM. intros Hm k. case_decide; [|done].
  injection Hm as <-. apply lookup_omap.
Qed.

Lemma map_mapM_is_Some (f : A → option B) (m : gmap string A) :
  (∀ k a, m !! k = Some a → is_Some (f a)) → is_Some (map_mapM f m).
Proof.
  intros Hf. unfold map_mapM. rewrite decide_True; [by eexists|].
  intros k a Hk. by eapply Hf.
Qed.
End MapM.

(** ** The search-performance aggregator (normalize_gsc_rows_by_page) *)

Section GscFacts.
Context {F : Type} `{Numeric F}.
Variable valid_bracketed_host : string → bool.
Variable urljoin : string → string → string.

(** What the first loop does with a row: [None] when normalizing its URL
    raises, [Some None] when the row is skipped, [Some (Some url)] when it
    is accumulated under [url]. *)
Definition gsc_key (page_index : nat) (base_url : option string)
    (row : gsc_row F) : option (option string) :=
  match keys row !! page_index with
  | None => Some None
  | Some raw_url =>
      url ← normalize_url valid_bracketed_host urljoin raw_url base_url true true false;
      Some (if bool_decide (url = "") then None else Some url)
  end.

Lemma gsc_loop_bucket_loop page_index base_url rows bucket :
  gsc_loop valid_bracketed_host urljoin page_index base_url rows bucket
  = bucket_loop (gsc_key page_index base_url) gsc_add gsc_default rows bucket.
Proof.
  revert bucket. induction rows as [|row rows IH]; intros bucket; [done|].
  simpl. unfold gsc_step, gsc_key.
  destruct (keys row !! page_index) as [raw|]; simpl; [|apply IH].
  destruct (normalize_url _ _ raw base_url true true false) as [url|]; simpl; [|done].
  case_bool_decide; simpl; apply IH.
Qed.

Definition row_impressions (row : gsc_row F) : F := to_float (impressions row) f0.
Definition row_ctr (row : gsc_row F) : F := to_float (ctr row) f0.
Definition row_position (row : gsc_row F) : F := to_float (position row) f0.

(** Left-to-right sums starting from [0.0], as the loop forms them. *)
Definition total (weight : gsc_row F → F) (rs : list (gsc_row F)) : F :=
  foldl (λ acc row, acc + weight row)%num f0 rs.
Definition weighted_total (value weight : gsc_row F → F) (rs : list (gsc_row F)) : F :=
  foldl (λ acc row, acc + value row * weight row)%num f0 rs.

Lemma foldl_gsc_add item rs :
  gsc_impressions (foldl gsc_add item rs)
  = foldl (λ acc row, acc + row_impressions row)%num (gsc_impressions item) rs
  ∧ gsc_ctr_weighted (foldl gsc_add item rs)
    = foldl (λ acc row, acc + row_ctr row * row_impressions row)%num
            (gsc_ctr_weighted item) rs
  ∧ gsc_position_weighted (foldl gsc_add item rs)
    = foldl (λ acc row, acc + row_position row * row_impressions row)%num
            (gsc_position_weighted item) rs.
Proof.
  revert item. induction rs as [|row rs IH]; intros item; simpl; [done|].
  apply IH.
Qed.

(** The ratio the second loop stores. *)
Definition weighted_mean (sum_weighted sum_weight : F) : F :=
  if (sum_weight <=? f0)%num then f0 else fdiv sum_weighted sum_weight.

Context `{!NumericLaws F}.

Lemma _weighted_average_mean (sum_weighted sum_weight : F) :
  _weighted_average sum_weighted sum_weight f0
  = Some (weighted_mean sum_weighted sum_weight).
Proof.
  unfold _weighted_average, weighted_mean.
  destruct (sum_weight <=? f0)%num eqn:E; [done|]. by apply py_div_guarded.
Qed.

Lemma gsc_finish_total item : is_Some (gsc_finish item).
Proof. unfold gsc_finish. rewrite !_weighted_average_mean. by eexists. Qed.

Lemma gsc_finish_ratios item agg :
  gsc_finish item = Some agg →
  agg !! "gsc_ctr"
  = Some (VNum (weighted_mean (gsc_ctr_weighted item) (gsc_impressions item)))
  ∧ agg !! "gsc_position"
    = Some (VNum (weighted_mean (gsc_position_weighted item) (gsc_impressions item))).
Proof.
  unfold gsc_finish. rewrite !_weighted_average_mean. simpl.
  intros [= <-]. by split.
Qed.

Lemma gsc_aggregate_ratios rows dimensions base_url result url agg :
  normalize_gsc_rows_by_page valid_bracketed_host urljoin rows dimensions base_url
  = Some result →
  result !! url = Some agg →
  let rs := rows_of (gsc_key (gsc_page_index dimensions) base_url) url rows in
  let weight := total row_impressions rs in
  agg !! "gsc_ctr"
  = Some (VNum (weighted_mean (weighted_total row_ctr row_impressions rs) weight))
  ∧ agg !! "gsc_position"
    = Some (VNum (weighted_mean (weighted_total row_position row_impressions rs)
                                weight)).
Proof.
  unfold normalize_gsc_rows_by_page. intros Hres Hagg.
  apply bind_Some in Hres as (bucket & Hloop & Hres).
  rewrite gsc_loop_bucket_loop in Hloop.
  rewrite (map_mapM_Some _ _ _ Hres url) in Hagg.
  apply bind_Some in Hagg as (item & Hitem & Hagg).
  rewrite (bucket_loop_lookup _ _ _ _ _ _ url Hloop), lookup_empty in Hitem.
  apply gsc_finish_ratios in Hagg. cbv zeta.
  unfold entry_after in Hitem.
  destruct (rows_of _ url rows) as [|r rs] eqn:Hrs; [done|].
  injection Hitem as <-.
  change (foldl gsc_add (gsc_add gsc_default r) rs)
    with (foldl gsc_add gsc_default (r :: rs)) in Hagg.
  destruct (foldl_gsc_add gsc_default (r :: rs)) as (E1 & E2 & E3).
  rewrite E1, E2, E3 in Hagg. exact Hagg.
Qed.

Lemma gsc_aggregate_total rows dimensions base_url :
  Forall (λ row, is_Some (gsc_key (gsc_page_index dimensions) base_url row)) rows →
  is_Some (normalize_gsc_rows_by_page valid_bracketed_host urljoin
             rows dimensions base_url).
Proof.
  intros Hrows. unfold normalize_gsc_rows_by_page.
  rewrite gsc_loop_bucket_loop.
  apply bucket_loop_is_Some with (add := gsc_add) (dflt := gsc_default) (bucket := ∅)
    in Hrows as [bucket ->].
  simpl. apply map_mapM_is_Some. intros. apply gsc_finish_total.
Qed.
End GscFacts.

Module WeightedExample.
#[local] Open Scope float_scope.

(** Two rows of one page: impressions 100 and 300, CTR 0.10 and 0.02. *)
Definition rows : list (gsc_row float) :=
  [ {| keys := ["https://ex.com/a"]; clicks := Some 10; impressions := Some 100;
       ctr := Some 0.10; position := Some 4 |};
    {| keys := ["https://ex.com/a"]; clicks := Some 6; impressions := Some 300;
       ctr := Some 0.02; position := Some 8 |} ].

Definition aggregate : pydict float :=
  <["gsc_clicks" := VNum 16]>
  (<["gsc_impressions" := VNum 400]>
  (<["gsc_rows" := VInt 2]>
  (<["gsc_ctr" := VNum 0.04]>
  (<["gsc_position" := VNum 7]> ∅)))).

Lemma aggregate_ok valid_bracketed_host urljoin :
  normalize_gsc_rows_by_page valid_bracketed_host urljoin rows None None
  = Some {[ "https://ex.com/a" := aggregate ]}.
Proof. vm_compute. reflexivity. Qed.
End WeightedExample.

(** C2: for every sequence of rows, the CTR and the position stored for a
    URL are the impression-weighted sums of the contributing rows' values
    divided by their summed impressions (sums taken left to right from 0.0),
    and 0 when the summed impressions are zero or negative; the division is
    never by zero, so the aggregator raises only if a URL fails to parse.  For
    impressions 100, 300 and CTR 0.10, 0.02 the aggregate CTR is 0.04 in
    binary64. *)
Theorem gsc_weighted_average {F : Type} `{NumericLaws F}
    (valid_bracketed_host : string → bool) (urljoin : string → string → string) :
  (∀ rows dimensions base_url result url agg,
     normalize_gsc_rows_by_page valid_bracketed_host urljoin rows dimensions base_url
     = Some result →
     result !! url = Some agg →
     let rs := rows_of (gsc_key valid_bracketed_host urljoin
                          (gsc_page_index dimensions) base_url) url rows in
     let weight := total row_impressions rs in
     agg !! "gsc_ctr"
     = Some (VNum (if (weight <=? f0)%num then f0
                   else fdiv (weighted_total row_ctr row_impressions rs) weight))
     ∧ agg !! "gsc_position"
       = Some (VNum (if (weight <=? f0)%num then f0
                     else fdiv (weighted_total row_position row_impressions rs)
                               weight)))
  ∧ (∀ sum_weighted sum_weight : F,
       _weighted_average sum_weighted sum_weight f0
       = Some (if (sum_weight <=? f0)%num then f0 else fdiv sum_weighted sum_weight))
  ∧ (∀ rows dimensions base_url,
       Forall (λ row, is_Some (gsc_key valid_bracketed_host urljoin
                                 (gsc_page_index dimensions) base_url row)) rows →
       is_Some (normalize_gsc_rows_by_page valid_bracketed_host urljoin
                  rows dimensions base_url))
  ∧ (∃ agg : pydict float,
       normalize_gsc_rows_by_page valid_bracketed_host urljoin
         WeightedExample.rows None None
       = Some {[ "https://ex.com/a" := agg ]}
       ∧ agg !! "gsc_ctr" = Some (VNum 0.04%float)).
Proof.
  split; [|split; [|split]].
  - intros * Hres Hagg. exact (gsc_aggregate_ratios _ _ _ _ _ _ _ _ Hres Hagg).
  - intros. by rewrite _weighted_average_mean.
  - intros * Hrows. by apply gsc_aggregate_total.
  - exists WeightedExample.aggregate. split; [apply WeightedExample.aggregate_ok|].
    vm_compute. reflexivity.
Qed.

Lemma gsc_weighted_average_witness :
  WeightedExample.aggregate !! "gsc_position" = Some (VNum 7%float)
  ∧ _weighted_average 16%float 400%float f0 = Some 0.04%float
  ∧ _weighted_average 16%float 0%float f0 = Some 0%float.
Proof.
  destruct (@gsc_weighted_average float _ binary64_laws (λ _, true) (λ _ url, url))
    as (Hagg & Havg & _ & _).
  split; [|split].
  - pose proof (Hagg WeightedExample.rows None None _ "https://ex.com/a"
                  WeightedExample.aggregate
                  (WeightedExample.aggregate_ok _ _)) as Hpos.
    rewrite (proj2 (Hpos ltac:(apply lookup_singleton_eq))).
    vm_compute. reflexivity.
  - rewrite (Havg 16%float 400%float). vm_compute. reflexivity.
  - rewrite (Havg 16%float 0%float). vm_compute. reflexivity.
Defined.

(** ** The order of URLs *)

Lemma ascii_compare_N (a b : ascii) :
  Ascii.compare a b = N.compare (N_of_ascii a) (N_of_ascii b).
Proof. reflexivity. Qed.

Lemma string_compare_trans (c : comparison) (s t u : string) :
  String.compare s t = c → String.compare t u = c → String.compare s u = c.
Proof.
  revert t u. induction s as [|a s IH]; intros [|b t] [|d u]; simpl;
    try congruence.
  rewrite !ascii_compare_N.
  destruct (N.compare_spec (N_of_ascii a) (N_of_ascii b)) as [Hab|Hab|Hab];
    destruct (N.compare_spec (N_of_ascii b) (N_of_ascii d)) as [Hbd|Hbd|Hbd];
    destruct (N.compare_spec (N_of_ascii a) (N_of_ascii d)) as [Had|Had|Had];
    try congruence; try lia; try apply IH.
  all: intros <-; try congruence.
Qed.

#[export] Instance str_le_total : Total str_le.
Proof. intros s t. apply String.leb_total. Qed.

#[export] Instance str_le_trans : Transitive str_le.
Proof.
  intros s t u. unfold str_le, String.leb. intros Hst Htu.
  destruct (String.compare s t) eqn:E1; [| |done].
  - apply String.compare_eq_iff in E1 as ->. done.
  - destruct (String.compare t u) eqn:E2; [| |done].
    + apply String.compare_eq_iff in E2 as ->. by rewrite E1.
    + by rewrite (string_compare_trans Lt s t u).
Qed.

#[export] Instance str_le_antisym : AntiSymm (=) str_le.
Proof. intros s t. apply String.leb_antisym. Qed.

Lemma sorted_strings_sorted (l : list string) : StronglySorted str_le (sorted_strings l).
Proof. apply StronglySorted_merge_sort; apply _. Qed.

Lemma sorted_strings_perm (l : list string) : sorted_strings l ≡ₚ l.
Proof. apply merge_sort_Permutation. Qed.

Section MergeUrls.
Context {F : Type}.

Lemma merge_urls_elem (gc ac gp ap : gmap string (pydict F)) url :
  url ∈ merge_urls gc ac gp ap
  ↔ url ∈ dom gc ∨ url ∈ dom ac ∨ url ∈ dom gp ∨ url ∈ dom ap.
Proof.
  unfold merge_urls. rewrite sorted_strings_perm, elem_of_elements. set_solver.
Qed.

Lemma merge_urls_NoDup (gc ac gp ap : gmap string (pydict F)) :
  NoDup (merge_urls gc ac gp ap).
Proof. unfold merge_urls. rewrite sorted_strings_perm. apply NoDup_elements. Qed.

Lemma merge_urls_sorted (gc ac gp ap : gmap string (pydict F)) :
  StronglySorted str_le (merge_urls gc ac gp ap).
Proof. apply sorted_strings_sorted. Qed.
End MergeUrls.

(** ** The period merger (merge_page_metrics) *)

(** The names the merger itself writes into a record. *)
Definition reserved_names : list string :=
  ["url"; "gsc_prev_clicks"; "gsc_prev_impressions"; "ga4_prev_sessions";
   "ga4_prev_conversions"; "gsc_clicks_delta_pct"; "gsc_impressions_delta_pct";
   "ga4_sessions_delta_pct"; "ga4_conversions_delta_pct"].

Section MergeFacts.
Context {F : Type} `{NumericLaws F}.

(** Every value of the dictionary is a number. *)
Definition numeric_dict (d : pydict F) : Prop :=
  ∀ k v, d !! k = Some v → is_Some (py_float v).

(** An aggregate as the aggregators produce it: numbers under metric names,
    none of which is a name the merger writes. *)
Definition metric_aggregate (agg : gmap string (pydict F)) : Prop :=
  ∀ url d, agg !! url = Some d →
    numeric_dict d ∧ ∀ k, k ∈ reserved_names → d !! k = None.

Lemma numeric_dict_empty : numeric_dict ∅.
Proof. intros k v. by rewrite lookup_empty. Qed.

Lemma metric_aggregate_entry agg url :
  metric_aggregate agg →
  numeric_dict (default ∅ (agg !! url))
  ∧ ∀ k, k ∈ reserved_names → default ∅ (agg !! url) !! k = None.
Proof.
  intros Hagg. destruct (agg !! url) as [d|] eqn:Hd; simpl.
  - by apply (Hagg url).
  - split; [apply numeric_dict_empty|]. intros. apply lookup_empty.
Qed.

Lemma get_float_numeric (d : pydict F) k : numeric_dict d → is_Some (get_float d k).
Proof.
  intros Hd. unfold get_float. destruct (d !! k) as [v|] eqn:Hv; [|by eexists].
  by apply (Hd k).
Qed.

Lemma get_float_absent (d : pydict F) k : d !! k = None → get_float d k = Some f0.
Proof. intros Hk. unfold get_float. by rewrite Hk. Qed.

Lemma add_previous_gsc_lookup (prev_g row row' : pydict F) k :
  add_previous_gsc prev_g row = Some row' →
  k ≠ "gsc_prev_clicks" → k ≠ "gsc_prev_impressions" → row' !! k = row !! k.
Proof.
  unfold add_previous_gsc. case_bool_decide; [by intros [= <-]|].
  intros Hrow Hk1 Hk2.
  apply bind_Some in Hrow as (c & _ & Hrow).
  apply bind_Some in Hrow as (i & _ & Hrow).
  injection Hrow as <-. by rewrite !lookup_insert_ne.
Qed.

Lemma add_previous_ga4_lookup (prev_a row row' : pydict F) k :
  add_previous_ga4 prev_a row = Some row' →
  k ≠ "ga4_prev_sessions" → k ≠ "ga4_prev_conversions" → row' !! k = row !! k.
Proof.
  unfold add_previous_ga4. case_bool_decide; [by intros [= <-]|].
  intros Hrow Hk1 Hk2.
  apply bind_Some in Hrow as (c & _ & Hrow).
  apply bind_Some in Hrow as (i & _ & Hrow).
  injection Hrow as <-. by rewrite !lookup_insert_ne.
Qed.

Lemma add_previous_gsc_present (prev_g row row' : pydict F) :
  add_previous_gsc prev_g row = Some row' → prev_g ≠ ∅ →
  ∃ c i, get_float prev_g "gsc_clicks" = Some c
         ∧ get_float prev_g "gsc_impressions" = Some i
         ∧ row' !! "gsc_prev_clicks" = Some (VNum c)
         ∧ row' !! "gsc_prev_impressions" = Some (VNum i).
Proof.
  unfold add_previous_gsc. case_bool_decide; [done|]. intros Hrow _.
  apply bind_Some in Hrow as (c & Hc & Hrow).
  apply bind_Some in Hrow as (i & Hi & Hrow).
  injection Hrow as <-. exists c, i.
  rewrite lookup_insert_ne, !lookup_insert_eq by done. done.
Qed.

Lemma add_previous_ga4_present (prev_a row row' : pydict F) :
  add_previous_ga4 prev_a row = Some row' → prev_a ≠ ∅ →
  ∃ s c, get_float prev_a "ga4_sessions" = Some s
         ∧ get_float prev_a "ga4_conversions" = Some c
         ∧ row' !! "ga4_prev_sessions" = Some (VNum s)
         ∧ row' !! "ga4_prev_conversions" = Some (VNum c).
Proof.
  unfold add_previous_ga4. case_bool_decide; [done|]. intros Hrow _.
  apply bind_Some in Hrow as (s & Hs & Hrow).
  apply bind_Some in Hrow as (c & Hc & Hrow).
  injection Hrow as <-. exists s, c.
  rewrite lookup_insert_ne, !lookup_insert_eq by done. done.
Qed.

Lemma add_previous_gsc_absent (row row' : pydict F) :
  add_previous_gsc ∅ row = Some row' → row' = row.
Proof. unfold add_previous_gsc. rewrite bool_decide_true by done. by intros [= <-]. Qed.

Lemma add_previous_ga4_absent (row row' : pydict F) :
  add_previous_ga4 ∅ row = Some row' → row' = row.
Proof. unfold add_previous_ga4. rewrite bool_decide_true by done. by intros [= <-]. Qed.

Lemma add_previous_gsc_total (prev_g row : pydict F) :
  numeric_dict prev_g → is_Some (add_previous_gsc prev_g row).
Proof.
  intros Hnum. unfold add_previous_gsc. case_bool_decide; [by eexists|].
  destruct (get_float_numeric prev_g "gsc_clicks" Hnum) as [c ->].
  destruct (get_float_numeric prev_g "gsc_impressions" Hnum) as [i ->].
  by eexists.
Qed.

Lemma add_previous_ga4_total (prev_a row : pydict F) :
  numeric_dict prev_a → is_Some (add_previous_ga4 prev_a row).
Proof.
  intros Hnum. unfold add_previous_ga4. case_bool_decide; [by eexists|].
  destruct (get_float_numeric prev_a "ga4_sessions" Hnum) as [c ->].
  destruct (get_float_numeric prev_a "ga4_conversions" Hnum) as [i ->].
  by eexists.
Qed.

Lemma add_delta_total key current previous (row : pydict F) :
  is_Some (get_float row current) → is_Some (get_float row previous) →
  ∃ d, add_delta key current previous row = Some (<[key := d]> row).
Proof.
  intros [c Hc] [p Hp]. unfold add_delta. rewrite Hc, Hp. simpl.
  destruct (compute_delta_pct_total c p) as [d ->]. by exists d.
Qed.
End MergeFacts.

Section MergeRecord.
Context {F : Type} `{NumericLaws F}.

Definition delta_names : list string :=
  ["gsc_clicks_delta_pct"; "gsc_impressions_delta_pct";
   "ga4_sessions_delta_pct"; "ga4_conversions_delta_pct"].

(** The record before the previous values and the deltas are written. *)
Definition current_row (gc ac : gmap string (pydict F)) (url : string) : pydict F :=
  dict_update (dict_update {[ "url" := VStr url ]} (default ∅ (gc !! url)))
              (default ∅ (ac !! url)).

Lemma merge_row_inv (gc ac gp ap : gmap string (pydict F)) url row :
  merge_row gc ac gp ap url = Some row →
  ∃ r1 r2,
    add_previous_gsc (default ∅ (gp !! url)) (current_row gc ac url) = Some r1
    ∧ add_previous_ga4 (default ∅ (ap !! url)) r1 = Some r2
    ∧ ∀ k, k ∉ delta_names → row !! k = r2 !! k.
Proof.
  unfold merge_row. intros Hrow.
  apply bind_Some in Hrow as (r1 & H1 & Hrow).
  apply bind_Some in Hrow as (r2 & H2 & Hrow).
  apply bind_Some in Hrow as (r3 & H3 & Hrow).
  apply bind_Some in Hrow as (r4 & H4 & Hrow).
  apply bind_Some in Hrow as (r5 & H5 & Hrow).
  apply bind_Some in Hrow as (r6 & H6 & Hrow).
  injection Hrow as <-.
  apply add_delta_inv in H3 as (? & ? & d3 & _ & _ & _ & ->).
  apply add_delta_inv in H4 as (? & ? & d4 & _ & _ & _ & ->).
  apply add_delta_inv in H5 as (? & ? & d5 & _ & _ & _ & ->).
  apply add_delta_inv in H6 as (? & ? & d6 & _ & _ & _ & ->).
  exists r1, r2. split; [done|split; [done|]].
  intros k Hk. unfold delta_names in Hk.
  rewrite !not_elem_of_cons in Hk. destruct Hk as (? & ? & ? & ? & _).
  by rewrite !lookup_insert_ne.
Qed.

(** Numbers everywhere except, possibly, under ["url"]. *)
Definition numeric_metrics (d : pydict F) : Prop :=
  ∀ k v, k ≠ "url" → d !! k = Some v → is_Some (py_float v).

Lemma numeric_metrics_get_float (d : pydict F) k :
  numeric_metrics d → k ≠ "url" → is_Some (get_float d k).
Proof.
  intros Hd Hk. unfold get_float. destruct (d !! k) as [v|] eqn:Hv; [|by eexists].
  by apply (Hd k).
Qed.

Lemma numeric_metrics_insert (d : pydict F) k x :
  numeric_metrics d → numeric_metrics (<[k := VNum x]> d).
Proof.
  intros Hd k' v Hk'. destruct (decide (k = k')) as [->|Hne].
  - rewrite lookup_insert_eq. intros [= <-]. by eexists.
  - rewrite lookup_insert_ne by done. by apply Hd.
Qed.

Lemma current_row_lookup (gc ac : gmap string (pydict F)) url k :
  k ≠ "url" →
  current_row gc ac url !! k
  = dict_update (default ∅ (gc !! url)) (default ∅ (ac !! url)) !! k.
Proof.
  intros Hk. unfold current_row, dict_update.
  rewrite !lookup_union, lookup_singleton_ne by done.
  by destruct (default ∅ (ac !! url) !! k), (default ∅ (gc !! url) !! k).
Qed.

Lemma current_row_url (gc ac : gmap string (pydict F)) url :
  default ∅ (gc !! url) !! "url" = None → default ∅ (ac !! url) !! "url" = None →
  current_row gc ac url !! "url" = Some (VStr url).
Proof.
  intros Hg Ha. unfold current_row, dict_update.
  by rewrite !lookup_union, Hg, Ha, lookup_singleton_eq.
Qed.

Lemma current_row_numeric (gc ac : gmap string (pydict F)) url :
  numeric_dict (default ∅ (gc !! url)) → numeric_dict (default ∅ (ac !! url)) →
  numeric_metrics (current_row gc ac url).
Proof.
  intros Hg Ha k v Hk. rewrite current_row_lookup by done.
  unfold dict_update. rewrite lookup_union.
  destruct (default ∅ (ac !! url) !! k) as [va|] eqn:Eva,
           (default ∅ (gc !! url) !! k) as [vg|] eqn:Evg; simpl; intros [= <-].
  - by apply (Ha k).
  - by apply (Ha k).
  - by apply (Hg k).
Qed.

Lemma add_previous_gsc_numeric (prev_g row row' : pydict F) :
  add_previous_gsc prev_g row = Some row' → numeric_metrics row → numeric_metrics row'.
Proof.
  unfold add_previous_gsc. case_bool_decide; [by intros [= <-]|].
  intros Hrow Hnum.
  apply bind_Some in Hrow as (c & _ & Hrow).
  apply bind_Some in Hrow as (i & _ & Hrow).
  injection Hrow as <-. by do 2 apply numeric_metrics_insert.
Qed.

Lemma add_previous_ga4_numeric (prev_a row row' : pydict F) :
  add_previous_ga4 prev_a row = Some row' → numeric_metrics row → numeric_metrics row'.
Proof.
  unfold add_previous_ga4. case_bool_decide; [by intros [= <-]|].
  intros Hrow Hnum.
  apply bind_Some in Hrow as (c & _ & Hrow).
  apply bind_Some in Hrow as (i & _ & Hrow).
  injection Hrow as <-. by do 2 apply numeric_metrics_insert.
Qed.

Lemma merge_row_total (gc ac gp ap : gmap string (pydict F)) url :
  numeric_dict (default ∅ (gc !! url)) → numeric_dict (default ∅ (ac !! url)) →
  numeric_dict (default ∅ (gp !! url)) → numeric_dict (default ∅ (ap !! url)) →
  is_Some (merge_row gc ac gp ap url).
Proof.
  intros Hgc Hac Hgp Hap. unfold merge_row.
  fold (current_row gc ac url).
  destruct (add_previous_gsc_total (default ∅ (gp !! url)) (current_row gc ac url) Hgp)
    as [r1 H1].
  rewrite H1. simpl.
  destruct (add_previous_ga4_total (default ∅ (ap !! url)) r1 Hap) as [r2 H2].
  rewrite H2. simpl.
  assert (numeric_metrics r2) as Hnum.
  { eapply add_previous_ga4_numeric; [done|].
    eapply add_previous_gsc_numeric; [done|]. by apply current_row_numeric. }
  assert (∀ k, k ≠ "url" → is_Some (get_float r2 k)) as Hget
    by (intros; by apply numeric_metrics_get_float).
  destruct (add_delta_total "gsc_clicks_delta_pct" "gsc_clicks" "gsc_prev_clicks" r2)
    as [d3 ->]; [by apply Hget..|]. simpl.
  destruct (add_delta_total "gsc_impressions_delta_pct" "gsc_impressions"
              "gsc_prev_impressions" (<["gsc_clicks_delta_pct" := d3]> r2))
    as [d4 ->]; [rewrite !get_float_insert_ne by done; by apply Hget..|]. simpl.
  destruct (add_delta_total "ga4_sessions_delta_pct" "ga4_sessions"
              "ga4_prev_sessions"
              (<["gsc_impressions_delta_pct" := d4]>
                 (<["gsc_clicks_delta_pct" := d3]> r2)))
    as [d5 ->]; [rewrite !get_float_insert_ne by done; by apply Hget..|]. simpl.
  destruct (add_delta_total "ga4_conversions_delta_pct" "ga4_conversions"
              "ga4_prev_conversions"
              (<["ga4_sessions_delta_pct" := d5]>
                 (<["gsc_impressions_delta_pct" := d4]>
                    (<["gsc_clicks_delta_pct" := d3]> r2))))
    as [d6 ->]; [rewrite !get_float_insert_ne by done; by apply Hget..|]. simpl.
  by eexists.
Qed.
End MergeRecord.

Section MergeClaim.
Context {F : Type} `{NumericLaws F}.

(** What the record of [url] holds. *)
Definition merged_record (gc ac gp ap : gmap string (pydict F)) (url : string)
    (row : pydict F) : Prop :=
  let current_g := default ∅ (gc !! url) in
  let current_a := default ∅ (ac !! url) in
  let prev_g := default ∅ (gp !! url) in
  let prev_a := default ∅ (ap !! url) in
  row !! "url" = Some (VStr url)
  ∧ (∀ k, k ∉ reserved_names → row !! k = dict_update current_g current_a !! k)
  ∧ (∀ k, k ∉ reserved_names → current_g !! k = None → current_a !! k = None →
       row !! k = None ∧ get_float row k = Some f0)
  ∧ (if decide (prev_g = ∅)
     then row !! "gsc_prev_clicks" = None ∧ row !! "gsc_prev_impressions" = None
     else ∃ c i, get_float prev_g "gsc_clicks" = Some c
                 ∧ get_float prev_g "gsc_impressions" = Some i
                 ∧ row !! "gsc_prev_clicks" = Some (VNum c)
                 ∧ row !! "gsc_prev_impressions" = Some (VNum i))
  ∧ (if decide (prev_a = ∅)
     then row !! "ga4_prev_sessions" = None ∧ row !! "ga4_prev_conversions" = None
     else ∃ s c, get_float prev_a "ga4_sessions" = Some s
                 ∧ get_float prev_a "ga4_conversions" = Some c
                 ∧ row !! "ga4_prev_sessions" = Some (VNum s)
                 ∧ row !! "ga4_prev_conversions" = Some (VNum c)).

Lemma merge_row_record (gc ac gp ap : gmap string (pydict F)) url row :
  metric_aggregate gc → metric_aggregate ac →
  merge_row gc ac gp ap url = Some row → merged_record gc ac gp ap url row.
Proof.
  intros Hgc Hac Hrow.
  destruct (metric_aggregate_entry gc url Hgc) as [_ Hg].
  destruct (metric_aggregate_entry ac url Hac) as [_ Ha].
  destruct (merge_row_inv _ _ _ _ _ _ Hrow) as (r1 & r2 & H1 & H2 & Hk).
  assert (∀ k, k ∈ reserved_names → k ≠ "url" → current_row gc ac url !! k = None)
    as Hres.
  { intros k Hin Hne. rewrite current_row_lookup by done.
    unfold dict_update. by rewrite lookup_union, Ha, Hg. }
  unfold merged_record. cbv zeta. split; [|split; [|split; [|split]]].
  - rewrite Hk by (unfold delta_names; rewrite !not_elem_of_cons; set_solver).
    rewrite (add_previous_ga4_lookup _ _ _ _ H2),
      (add_previous_gsc_lookup _ _ _ _ H1) by done.
    apply current_row_url; [apply Hg|apply Ha]; unfold reserved_names; set_solver.
  - intros k Hres'. unfold reserved_names in Hres'. rewrite !not_elem_of_cons in Hres'.
    rewrite Hk by (unfold delta_names; rewrite !not_elem_of_cons; tauto).
    rewrite (add_previous_ga4_lookup _ _ _ _ H2),
      (add_previous_gsc_lookup _ _ _ _ H1) by tauto.
    apply current_row_lookup. tauto.
  - intros k Hres' Hkg Hka.
    assert (row !! k = None) as Hnone.
    { unfold reserved_names in Hres'. rewrite !not_elem_of_cons in Hres'.
      rewrite Hk by (unfold delta_names; rewrite !not_elem_of_cons; tauto).
      rewrite (add_previous_ga4_lookup _ _ _ _ H2),
        (add_previous_gsc_lookup _ _ _ _ H1) by tauto.
      rewrite current_row_lookup by tauto.
      unfold dict_update. by rewrite lookup_union, Hkg, Hka. }
    split; [done|]. by apply get_float_absent.
  - rewrite !Hk by (unfold delta_names; rewrite !not_elem_of_cons; set_solver).
    rewrite !(add_previous_ga4_lookup _ _ _ _ H2) by done.
    case_decide as Hprev.
    + rewrite Hprev in H1. apply add_previous_gsc_absent in H1 as ->.
      split; apply Hres; unfold reserved_names; set_solver.
    + by apply add_previous_gsc_present with (row := current_row gc ac url).
  - rewrite !Hk by (unfold delta_names; rewrite !not_elem_of_cons; set_solver).
    case_decide as Hprev.
    + rewrite Hprev in H2. apply add_previous_ga4_absent in H2 as ->.
      rewrite !(add_previous_gsc_lookup _ _ _ _ H1) by done.
      split; apply Hres; unfold reserved_names; set_solver.
    + by apply add_previous_ga4_present with (row := r1).
Qed.
End MergeClaim.

(** C1 (amended): for four input aggregates (a missing one is empty) holding
    numbers under metric names, [merge_page_metrics] returns one record per
    URL of the union of the four key sets, in lexicographic order of the URL;
    a metric held by neither current aggregate of the URL is absent from the
    record, so that it reads as 0; and the previous-value fields of a source
    are present if and only if that source's previous aggregate maps the URL
    to a non-empty dictionary. *)
Theorem merge_one_record_per_url {F : Type} `{NumericLaws F}
    (gsc_current ga4_current gsc_previous ga4_previous
       : option (gmap string (pydict F))) :
  let gc := default ∅ gsc_current in
  let ac := default ∅ ga4_current in
  let gp := default ∅ gsc_previous in
  let ap := default ∅ ga4_previous in
  metric_aggregate gc → metric_aggregate ac →
  metric_aggregate gp → metric_aggregate ap →
  StronglySorted str_le (merge_urls gc ac gp ap)
  ∧ NoDup (merge_urls gc ac gp ap)
  ∧ (∀ url, url ∈ merge_urls gc ac gp ap
            ↔ url ∈ dom gc ∨ url ∈ dom ac ∨ url ∈ dom gp ∨ url ∈ dom ap)
  ∧ ∃ rows,
      merge_page_metrics gsc_current ga4_current gsc_previous ga4_previous = Some rows
      ∧ Forall2 (merged_record gc ac gp ap) (merge_urls gc ac gp ap) rows.
Proof.
  intros gc ac gp ap Hgc Hac Hgp Hap.
  split; [apply merge_urls_sorted|].
  split; [apply merge_urls_NoDup|].
  split; [apply merge_urls_elem|].
  assert (is_Some (merge_page_metrics gsc_current ga4_current gsc_previous ga4_previous))
    as [rows Hrows].
  { unfold merge_page_metrics. apply mapM_is_Some, Forall_forall. intros url _.
    apply merge_row_total; by apply metric_aggregate_entry. }
  exists rows. split; [done|].
  apply merge_page_metrics_rows in Hrows.
  eapply Forall2_impl; [exact Hrows|].
  intros url row Hrow. by apply merge_row_record.
Qed.

(** C1, as stated, fails: a previous aggregate that contains the URL with an
    empty dictionary yields a record without the previous-value fields. *)
Lemma merge_empty_previous_entry :
  let gsc_previous : gmap string (pydict float) := {[ "https://ex.com/a" := ∅ ]} in
  "https://ex.com/a" ∈ dom gsc_previous
  ∧ ∃ row, merge_page_metrics None None (Some gsc_previous) None = Some [row]
           ∧ row !! "gsc_prev_clicks" = None
           ∧ row !! "gsc_prev_impressions" = None.
Proof.
  cbv zeta. split; [set_solver|].
  eexists. split; [vm_compute; reflexivity|]. split; vm_compute; reflexivity.
Qed.

Module MergeExample.
#[local] Open Scope float_scope.

Definition gsc_current : gmap string (pydict float) :=
  {[ "https://ex.com/a" := {[ "gsc_clicks" := VNum 10 ]} ]}.
Definition ga4_current : gmap string (pydict float) :=
  {[ "https://ex.com/b" := {[ "ga4_sessions" := VNum 5 ]} ]}.
Definition gsc_previous : gmap string (pydict float) :=
  {[ "https://ex.com/c" := {[ "gsc_clicks" := VNum 8 ]} ]}.

Lemma singleton_metric_aggregate url k (x : float) :
  k ∉ reserved_names → metric_aggregate {[ url := {[ k := VNum x ]} ]}.
Proof.
  intros Hk url' d [<- <-]%lookup_singleton_Some. split.
  - intros k' v [<- <-]%lookup_singleton_Some. by eexists.
  - intros k' Hk'. apply lookup_singleton_ne. by intros ->.
Qed.

Lemma empty_metric_aggregate : metric_aggregate (F:=float) ∅.
Proof. intros url d. by rewrite lookup_empty. Qed.
End MergeExample.

Lemma merge_one_record_per_url_witness :
  ∃ rows,
    merge_page_metrics (Some MergeExample.gsc_current) (Some MergeExample.ga4_current)
      (Some MergeExample.gsc_previous) None = Some rows
    ∧ Forall2 (merged_record MergeExample.gsc_current MergeExample.ga4_current
                 MergeExample.gsc_previous ∅)
        ["https://ex.com/a"; "https://ex.com/b"; "https://ex.com/c"] rows.
Proof.
  apply (merge_one_record_per_url (Some MergeExample.gsc_current)
           (Some MergeExample.ga4_current) (Some MergeExample.gsc_previous) None).
  - apply MergeExample.singleton_metric_aggregate. unfold reserved_names. set_solver.
  - apply MergeExample.singleton_metric_aggregate. unfold reserved_names. set_solver.
  - apply MergeExample.singleton_metric_aggregate. unfold reserved_names. set_solver.
  - apply MergeExample.empty_metric_aggregate.
Defined.

(** ** Action items (generate_action_items) *)

Section ActionItemFacts.
Context {F : Type} `{Numeric F} `{Log10 F}.







End ActionItemFacts.

(** Descending order of the pair (score, confidence) over the reals. *)
Definition key_ge (k1 k2 : R * R) : Prop :=
  (k2.1 < k1.1)%R ∨ (k1.1 = k2.1 ∧ (k2.2 <= k1.2)%R).

Definition item_ge (a b : ActionItem R) : Prop := key_ge (sort_key a) (sort_key b).



#[export] Instance key_ge_trans : Transitive key_ge.
Proof. intros [a b] [c d] [e f]. unfold key_ge. simpl. intros; lra. Qed.

#[export] Instance item_ge_trans : Transitive item_ge.
Proof. intros a b c. unfold item_ge. apply key_ge_trans. Qed.



(** ** The scorer over exact arithmetic *)

Lemma lit_int (n : Z) : lit (F:=R) n 1 = IZR n.
Proof. rewrite lit_exact. unfold Rdiv. by rewrite Rinv_1, Rmult_1_r. Qed.

Lemma py_max_target_pos (target : R) : (0 < py_max target (lit 1 1000000))%R.
Proof.
  rewrite py_max_exact, lit_exact.
  apply Rlt_le_trans with (1 / 1000000)%R; [lra|apply Rmax_r].
Qed.

Lemma ctr_score_exact (settings : Settings R) (ctr impressions : R) :
  ctr_score settings ctr impressions
  = Some (Rmin 45 ((target_ctr settings - ctr)
                   / Rmax (target_ctr settings) (1 / 1000000) * 45
                   + _log_scale impressions 6))%R.
Proof.
  unfold ctr_score. rewrite py_div_exact.
  - cbn [mbind option_bind]. rewrite py_min_exact, py_max_exact, !lit_int, lit_exact.
    done.
  - pose proof (py_max_target_pos (target_ctr settings)). lra.
Qed.

Lemma cr_score_exact (settings : Settings R) (conversion_rate sessions : R) :
  cr_score settings conversion_rate sessions
  = Some (Rmin 45 ((target_conversion_rate settings - conversion_rate)
                   / Rmax (target_conversion_rate settings) (1 / 1000000) * 42
                   + _log_scale sessions 6))%R.
Proof.
  unfold cr_score. rewrite py_div_exact.
  - cbn [mbind option_bind]. rewrite py_min_exact, py_max_exact, !lit_int, lit_exact.
    done.
  - pose proof (py_max_target_pos (target_conversion_rate settings)). lra.
Qed.

(** The floor [1e-6] of the two divisors is positive, and [0.0 <= 0.0]. *)
Lemma micro_positive_exact : ((f0 : R) <? lit 1 1000000)%num = true.
Proof. cbn [fltb exact]. apply Rltb_true. rewrite lit_exact. unfold f0. simpl. lra. Qed.

Lemma zero_le_zero_exact : ((f0 : R) <=? f0)%num = true.
Proof. cbn [fleb exact]. apply Rleb_true. lra. Qed.

(** A delta computed against a previous value that is absent is [None]. *)
Lemma add_delta_no_previous (key current previous : string) (row : pydict R) :
  is_Some (get_float row current) → row !! previous = None →
  add_delta key current previous row = Some (<[key := VNone]> row).
Proof.
  intros [c Hc] Hp. unfold add_delta. rewrite Hc. unfold get_float. rewrite Hp.
  cbn [mbind option_bind].
  by rewrite compute_delta_pct_nonpositive by apply zero_le_zero_exact.
Qed.

Section Survivors.
Context {F : Type} `{Numeric F} `{Log10 F}.

End Survivors.


(** ** Rounding over the reals *)

Lemma round_half_even_near (x : R) :
  (IZR (round_half_even x) - 1 / 2 <= x <= IZR (round_half_even x) + 1 / 2)%R.
Proof.
  unfold round_half_even.
  destruct (base_Int_part x) as [Hlo Hhi].
  destruct (Rltb (x - IZR (Int_part x)) (1 / 2)) eqn:E1.
  { apply Rltb_true in E1. lra. }
  apply Rltb_false in E1.
  destruct (Rltb (1 / 2) (x - IZR (Int_part x))) eqn:E2.
  { rewrite plus_IZR. lra. }
  apply Rltb_false in E2.
  destruct (Z.even (Int_part x)); [lra|]. rewrite plus_IZR. lra.
Qed.

Lemma round_half_even_range (x : R) (a b : Z) :
  (IZR a <= x <= IZR b)%R → (a <= round_half_even x <= b)%Z.
Proof.
  intros [Ha Hb]. pose proof (round_half_even_near x) as [Hlo Hhi].
  split.
  - apply Z.lt_pred_le, lt_IZR. unfold Z.pred. rewrite plus_IZR. lra.
  - apply Z.lt_succ_r, lt_IZR. unfold Z.succ. rewrite plus_IZR. lra.
Qed.

Lemma round_half_even_zero (x : R) : (-(1/2) <= x <= 1 / 2)%R → round_half_even x = 0%Z.
Proof.
  intros [Hlo Hhi]. unfold round_half_even.
  destruct (Rle_or_lt 0 x) as [Hx|Hx].
  - rewrite <- (Int_part_spec x 0) by lra.
    replace (x - 0)%R with x by lra.
    destruct (Rltb x (1 / 2)) eqn:E1; [done|].
    apply Rltb_false in E1.
    destruct (Rltb (1 / 2) x) eqn:E2; [apply Rltb_true in E2; lra|done].
  - rewrite <- (Int_part_spec x (-1)) by lra.
    destruct (Rltb (x - -1) (1 / 2)) eqn:E1; [apply Rltb_true in E1; lra|].
    destruct (Rltb (1 / 2) (x - -1)) eqn:E2; [done|].
    apply Rltb_false in E2. done.
Qed.

Lemma round_half_even_pos (x : R) : (1 / 2 < x)%R → (1 <= round_half_even x)%Z.
Proof.
  intros Hx. pose proof (round_half_even_near x) as [Hlo Hhi].
  apply Z.lt_pred_le, lt_IZR. unfold Z.pred. rewrite plus_IZR. lra.
Qed.

Lemma Rround_2 (x : R) : Rround 2 x = (IZR (round_half_even (x * 100)) / 100)%R.
Proof. unfold Rround. simpl. by replace (10 * (10 * 1))%R with 100%R by lra. Qed.


Lemma Rround_2_nonneg (x : R) : (0 <= x)%R → (0 <= Rround 2 x)%R.
Proof.
  intros Hx. rewrite Rround_2.
  pose proof (round_half_even_near (x * 100)) as [Hlo Hhi].
  assert (0 <= round_half_even (x * 100))%Z as Hz.
  { apply Z.lt_pred_le, lt_IZR. unfold Z.pred. rewrite plus_IZR. lra. }
  apply IZR_le in Hz. lra.
Qed.

Lemma Rround_2_zero (x : R) : (0 <= x <= 5 / 1000)%R → Rround 2 x = 0%R.
Proof. intros Hx. rewrite Rround_2, round_half_even_zero by lra. lra. Qed.

Lemma Rround_2_pos (x : R) : (5 / 1000 < x)%R → (0 < Rround 2 x)%R.
Proof.
  intros Hx. rewrite Rround_2.
  pose proof (round_half_even_pos (x * 100)) as Hz.
  apply IZR_le in Hz; lra.
Qed.

(** ** Confidence (score_page, lines 158-170) *)

Lemma log10_exact (x : R) : log10 x = (ln x / ln 10)%R.
Proof. reflexivity. Qed.

Lemma ln_10_pos : (0 < ln 10)%R.
Proof. rewrite <- ln_1. apply ln_increasing; lra. Qed.

Lemma log10_pos (x : R) : (1 < x)%R → (0 < log10 x)%R.
Proof.
  intros Hx. rewrite log10_exact. apply Rdiv_lt_0_compat; [|apply ln_10_pos].
  rewrite <- ln_1. apply ln_increasing; lra.
Qed.

Lemma log10_increasing (x y : R) : (0 < x)%R → (x < y)%R → (log10 x < log10 y)%R.
Proof.
  intros Hx Hxy. rewrite !log10_exact.
  apply Rmult_lt_compat_r; [apply Rinv_0_lt_compat, ln_10_pos|].
  by apply ln_increasing.
Qed.








Section FinishFacts.
Context {F : Type} `{Numeric F} `{Log10 F}.

Lemma finish_cases (a : score_acc F) (impressions sessions : F) :
  (acc_categories a = [] ∧ (acc_score a <=? f0)%num = true
   ∧ finish a impressions sessions = zero_result)
  ∨ (¬ (acc_categories a = [] ∧ (acc_score a <=? f0)%num = true)
     ∧ score (finish a impressions sessions) = fround 2 (acc_score a)
     ∧ categories (finish a impressions sessions)
       = sorted_strings (remove_dups (acc_categories a))
     ∧ confidence (finish a impressions sessions)
       = fround 2 (raw_confidence impressions sessions)).
Proof.
  unfold finish. case_bool_decide as Hc; simpl.
  - destruct (acc_score a <=? f0)%num eqn:Hs; [by left|].
    right. split; [|done]. by intros [_ ?].
  - right. split; [|done]. by intros [? _].
Qed.

Lemma score_page_inv (page : pydict F) (settings : Settings F) result :
  score_page page settings = Some result →
  ∃ impressions clicks ctr position sessions conversion_rate a,
    get_float page "gsc_impressions" = Some impressions
    ∧ get_float page "gsc_clicks" = Some clicks
    ∧ get_float page "gsc_ctr" = Some ctr
    ∧ get_float page "gsc_position" = Some position
    ∧ get_float page "ga4_sessions" = Some sessions
    ∧ get_float page "ga4_conversion_rate" = Some conversion_rate
    ∧ accumulate settings impressions clicks ctr position sessions conversion_rate
        (page !! "gsc_clicks_delta_pct") (page !! "ga4_sessions_delta_pct") = Some a
    ∧ result = finish a impressions sessions.
Proof.
  unfold score_page. intros Hres.
  apply bind_Some in Hres as (impressions & Hi & Hres).
  apply bind_Some in Hres as (clicks & Hc & Hres).
  apply bind_Some in Hres as (ctr & Hctr & Hres).
  apply bind_Some in Hres as (position & Hp & Hres).
  apply bind_Some in Hres as (sessions & Hs & Hres).
  apply bind_Some in Hres as (conversion_rate & Hcr & Hres).
  apply bind_Some in Hres as (engagement_rate & _ & Hres).
  apply bind_Some in Hres as (a & Ha & [= <-]).
  by exists impressions, clicks, ctr, position, sessions, conversion_rate, a.
Qed.
End FinishFacts.

(** ** The position bonus without a category *)

Section PositionOnly.
Context {F : Type} `{Numeric F} `{Log10 F}.

(** The accumulators when only the position bonus applies. *)
Lemma accumulate_position_only (settings : Settings F)
    (impressions clicks ctr position sessions conversion_rate : F)
    (clicks_delta sessions_delta : option (pyval F)) :
  ctr_rule settings impressions ctr = false →
  cr_rule settings sessions conversion_rate = false →
  decline_rule (as_number clicks_delta) = None →
  decline_rule (as_number sessions_delta) = None →
  winner_rule settings impressions sessions ctr conversion_rate = false →
  position_rule position impressions = true →
  accumulate settings impressions clicks ctr position sessions conversion_rate
    clicks_delta sessions_delta
  = Some {| acc_score :=
              (f0 + py_min (lit 12 1) ((position - lit 8 1) * lit 15 10))%num;
            acc_categories := [];
            acc_reasons :=
              ["Average position indicates page may be near page-one threshold."];
            acc_recommendations := [] |}.
Proof.
  intros Hctr Hcr Hcd Hsd Hw Hp. unfold accumulate.
  by rewrite Hctr, Hcr, Hcd, Hsd, Hw, Hp.
Qed.
End PositionOnly.

(** A record merged without a previous period, position 15: the deltas are
    [None], as in the record on which the claim as stated fails. *)
Module PositionExample.
Definition gsc_current : gmap string (pydict R) :=
  {[ "https://ex.com/a" :=
       {[ "gsc_impressions" := VNum 1%R; "gsc_position" := VNum 15%R ]} ]}.

Definition page : pydict R :=
  {[ "url" := VStr "https://ex.com/a";
     "gsc_impressions" := VNum 1%R; "gsc_position" := VNum 15%R;
     "gsc_clicks_delta_pct" := VNone; "gsc_impressions_delta_pct" := VNone;
     "ga4_sessions_delta_pct" := VNone; "ga4_conversions_delta_pct" := VNone ]}.

Definition settings : Settings R :=
  {| min_impressions_for_ctr_action := 200;
     min_sessions_for_conversion_action := 50;
     target_ctr := (3/100)%R; target_conversion_rate := (2/100)%R;
     default_max_action_items := 30 |}.

Lemma position_merged : merge_page_metrics (Some gsc_current) None None None = Some [page].
Proof.
  unfold merge_page_metrics.
  replace (merge_urls _ _ _ _) with ["https://ex.com/a"] by (vm_compute; reflexivity).
  assert (merge_row (default ∅ (Some gsc_current)) (default ∅ None) (default ∅ None)
            (default ∅ None) "https://ex.com/a" = Some page) as Hrow.
  { unfold merge_row.
    replace (add_previous_gsc _ _) with
      (Some (<["gsc_position" := VNum 15%R]> (<["gsc_impressions" := VNum 1%R]>
             ({[ "url" := VStr "https://ex.com/a" ]} : pydict R))))
      by (vm_compute; reflexivity).
    cbn [mbind option_bind].
    replace (add_previous_ga4 _ _) with
      (Some (<["gsc_position" := VNum 15%R]> (<["gsc_impressions" := VNum 1%R]>
             ({[ "url" := VStr "https://ex.com/a" ]} : pydict R))))
      by (vm_compute; reflexivity).
    cbn [mbind option_bind].
    do 4 (rewrite add_delta_no_previous;
          [cbn [mbind option_bind]|by (vm_compute; eexists)|by vm_compute]).
    vm_compute. reflexivity. }
  cbn [mapM]. rewrite Hrow. reflexivity.
Qed.

Lemma below_minimum (min : Z) (v target x : R) :
  (v < IZR min)%R → (v >=? of_Z min)%num && (x <? target)%num = false.
Proof. intros Hv. apply andb_false_iff. left. apply Rleb_false. exact Hv. Qed.
End PositionExample.

(** ** Monotonicity of the CTR-gap component *)

Lemma log_scale_exact (value multiplier : R) :
  _log_scale value multiplier
  = if Rle_dec value 0 then 0%R else Rmin 20 (log10 (value + 1)%R * multiplier).
Proof.
  unfold _log_scale. rewrite py_min_exact, !lit_int.
  cbn [fleb fadd fmul exact]. unfold Rleb, f0. cbn [of_Z exact].
  by destruct (Rle_dec value 0).
Qed.

Lemma log10_monotone (x y : R) : (0 < x)%R → (x <= y)%R → (log10 x <= log10 y)%R.
Proof.
  intros Hx [Hlt| ->]; [|lra]. left. by apply log10_increasing.
Qed.

Lemma log_scale_monotone (v1 v2 multiplier : R) :
  (0 <= multiplier)%R → (v1 <= v2)%R →
  (_log_scale v1 multiplier <= _log_scale v2 multiplier)%R.
Proof.
  intros Hm Hv. rewrite !log_scale_exact.
  destruct (Rle_dec v1 0) as [H1|H1], (Rle_dec v2 0) as [H2|H2]; try lra.
  - pose proof (log10_pos (v2 + 1)%R ltac:(lra)).
    apply Rmin_glb; [lra|]. apply Rmult_le_pos; lra.
  - apply Rle_min_compat_l, Rmult_le_compat_r; [done|].
    apply log10_monotone; lra.
Qed.

Lemma log_scale_strict (v1 v2 multiplier : R) :
  (0 < multiplier)%R → (v1 < v2)%R → (0 < v2)%R →
  (log10 (v2 + 1)%R * multiplier < 20)%R →
  (_log_scale v1 multiplier < _log_scale v2 multiplier)%R.
Proof.
  intros Hm Hv Hv2 Hcap. rewrite !log_scale_exact.
  destruct (Rle_dec v2 0) as [H2|H2]; [lra|].
  rewrite (Rmin_right 20 (log10 (v2 + 1)%R * multiplier)) by lra.
  destruct (Rle_dec v1 0) as [H1|H1].
  - pose proof (log10_pos (v2 + 1)%R ltac:(lra)). by apply Rmult_lt_0_compat.
  - apply Rle_lt_trans with (log10 (v1 + 1)%R * multiplier)%R; [apply Rmin_r|].
    apply Rmult_lt_compat_r; [done|]. apply log10_increasing; lra.
Qed.

(** C9: over exact arithmetic, with the CTR and the settings fixed, the
    CTR-gap component [min(45, gap_ratio*45 + log_bonus(impressions, 6))] is
    non-decreasing in the impressions; it strictly increases as long as
    neither the logarithmic bonus (cap 20) nor the component (cap 45) is at
    its cap for the larger impression count. *)
Theorem ctr_gap_monotone (settings : Settings R) (ctr impressions1 impressions2 : R) :
  (impressions1 <= impressions2)%R →
  ∃ s1 s2,
    ctr_score settings ctr impressions1 = Some s1
    ∧ ctr_score settings ctr impressions2 = Some s2
    ∧ (s1 <= s2 <= 45)%R
    ∧ ((impressions1 < impressions2)%R → (0 < impressions2)%R →
       (log10 (impressions2 + 1)%R * 6 < 20)%R → (s2 < 45)%R → (s1 < s2)%R).
Proof.
  intros Himp. rewrite !ctr_score_exact.
  set (gap := ((target_ctr settings - ctr)
               / Rmax (target_ctr settings) (1 / 1000000) * 45)%R).
  exists (Rmin 45 (gap + _log_scale impressions1 6%R)),
         (Rmin 45 (gap + _log_scale impressions2 6%R)).
  split; [done|split; [done|]].
  pose proof (log_scale_monotone impressions1 impressions2 6 ltac:(lra) Himp) as Hmono.
  split; [split|].
  - apply Rle_min_compat_l. lra.
  - apply Rmin_l.
  - intros Hlt Hpos Hbonus Hcap.
    pose proof (log_scale_strict impressions1 impressions2 6 ltac:(lra) Hlt Hpos Hbonus)
      as Hstrict.
    assert (gap + _log_scale impressions2 6%R < 45)%R as Hbelow.
    { destruct (Rle_or_lt 45 (gap + _log_scale impressions2 6%R)) as [Hge|?]; [|done].
      rewrite Rmin_left in Hcap by done. lra. }
    rewrite (Rmin_right 45 (gap + _log_scale impressions2 6%R)) by lra.
    apply Rle_lt_trans with (gap + _log_scale impressions1 6%R)%R; [apply Rmin_r|lra].
Qed.

Lemma ctr_gap_monotone_witness :
  ∃ s1 s2,
    ctr_score PositionExample.settings (1 / 100)%R 500%R = Some s1
    ∧ ctr_score PositionExample.settings (1 / 100)%R 1000%R = Some s2
    ∧ (s1 <= s2 <= 45)%R.
Proof.
  destruct (ctr_gap_monotone PositionExample.settings (1 / 100)%R 500%R 1000%R)
    as (s1 & s2 & H1 & H2 & Hle & _); [lra|].
  by exists s1, s2.
Defined.

(** ** Reordering the input rows *)

Section MapMDom.
Context {A B : Type}.

Lemma map_mapM_dom (f : A → option B) (m : gmap string A) m' :
  map_mapM f m = Some m' → dom m' = dom m.
Proof.
  unfold map_mapM. case_decide as Hall; [|done]. intros [= <-].
  apply set_eq. intros k. rewrite !elem_of_dom, lookup_omap.
  destruct (m !! k) as [a|] eqn:Hk; simpl.
  - split; [by eexists|]. intros _. by apply (Hall k).
  - split; by intros [? ?].
Qed.
End MapMDom.

Section BucketDom.
Context {Row Item : Type}.
Variable key : Row → option (option string).
Variable add : Item → Row → Item.
Variable dflt : Item.

Lemma bucket_loop_dom_perm rows rows' (b b' : gmap string Item) :
  rows ≡ₚ rows' →
  bucket_loop key add dflt rows ∅ = Some b →
  bucket_loop key add dflt rows' ∅ = Some b' →
  dom b = dom b'.
Proof.
  intros Hperm Hb Hb'. apply set_eq. intros url. rewrite !elem_of_dom.
  rewrite (bucket_loop_lookup _ _ _ _ _ _ url Hb),
    (bucket_loop_lookup _ _ _ _ _ _ url Hb'), lookup_empty.
  assert (rows_of key url rows ≡ₚ rows_of key url rows') as Hrs
    by (unfold rows_of; by rewrite Hperm).
  unfold entry_after.
  destruct (rows_of key url rows) as [|r rs], (rows_of key url rows') as [|r' rs'];
    try done.
  all: try (by apply Permutation_nil_cons in Hrs).
  all: try (symmetry in Hrs; by apply Permutation_nil_cons in Hrs).
  all: split; by eexists.
Qed.
End BucketDom.

Section GscOrder.
Context {F : Type} `{Numeric F}.
Variable valid_bracketed_host : string → bool.
Variable urljoin : string → string → string.

Lemma foldl_gsc_add_rows (item : gsc_item F) rs :
  gsc_rows (foldl gsc_add item rs) = (gsc_rows item + Z.of_nat (length rs))%Z.
Proof.
  revert item. induction rs as [|row rs IH]; intros item; simpl; [lia|].
  rewrite IH. simpl. lia.
Qed.

Lemma gsc_finish_rows (item : gsc_item F) agg :
  gsc_finish item = Some agg → agg !! "gsc_rows" = Some (VInt (gsc_rows item)).
Proof.
  unfold gsc_finish. intros Hagg.
  apply bind_Some in Hagg as (c & _ & Hagg).
  apply bind_Some in Hagg as (p & _ & [= <-]). done.
Qed.

Lemma gsc_urls_and_counts rows rows' dimensions base_url res res' :
  rows ≡ₚ rows' →
  normalize_gsc_rows_by_page valid_bracketed_host urljoin rows dimensions base_url
  = Some res →
  normalize_gsc_rows_by_page valid_bracketed_host urljoin rows' dimensions base_url
  = Some res' →
  dom res = dom res'
  ∧ ∀ url agg agg', res !! url = Some agg → res' !! url = Some agg' →
      agg !! "gsc_rows" = agg' !! "gsc_rows".
Proof.
  unfold normalize_gsc_rows_by_page. intros Hperm Hres Hres'.
  apply bind_Some in Hres as (b & Hb & Hres).
  apply bind_Some in Hres' as (b' & Hb' & Hres').
  rewrite gsc_loop_bucket_loop in Hb, Hb'.
  split.
  - rewrite (map_mapM_dom _ _ _ Hres), (map_mapM_dom _ _ _ Hres').
    by eapply bucket_loop_dom_perm.
  - intros url agg agg' Hagg Hagg'.
    rewrite (map_mapM_Some _ _ _ Hres url) in Hagg.
    rewrite (map_mapM_Some _ _ _ Hres' url) in Hagg'.
    apply bind_Some in Hagg as (item & Hitem & Hagg).
    apply bind_Some in Hagg' as (item' & Hitem' & Hagg').
    rewrite (gsc_finish_rows _ _ Hagg), (gsc_finish_rows _ _ Hagg').
    rewrite (bucket_loop_lookup _ _ _ _ _ _ url Hb), lookup_empty in Hitem.
    rewrite (bucket_loop_lookup _ _ _ _ _ _ url Hb'), lookup_empty in Hitem'.
    assert (rows_of (gsc_key valid_bracketed_host urljoin (gsc_page_index dimensions)
                       base_url) url rows
            ≡ₚ rows_of (gsc_key valid_bracketed_host urljoin
                          (gsc_page_index dimensions) base_url) url rows') as Hrs
      by (unfold rows_of; by rewrite Hperm).
    unfold entry_after in Hitem, Hitem'.
    destruct (rows_of _ url rows) as [|r rs], (rows_of _ url rows') as [|r' rs'];
      try done.
    injection Hitem as <-. injection Hitem' as <-.
    change (foldl gsc_add (gsc_add (default gsc_default None) r) rs)
      with (foldl gsc_add gsc_default (r :: rs)).
    change (foldl gsc_add (gsc_add (default gsc_default None) r') rs')
      with (foldl gsc_add gsc_default (r' :: rs')).
    pose proof (Permutation_length Hrs) as Hlen.
    rewrite !foldl_gsc_add_rows. simpl in Hlen |- *. by injection Hlen as ->.
Qed.

(** With a commutative and associative addition, accumulating two rows
    commutes. *)
Hypothesis fadd_comm : ∀ x y : F, (x + y)%num = (y + x)%num.
Hypothesis fadd_assoc : ∀ x y z : F, (x + y + z)%num = (x + (y + z))%num.

Lemma fadd_swap (a x y : F) : (a + x + y)%num = (a + y + x)%num.
Proof. by rewrite !fadd_assoc, (fadd_comm x y). Qed.

Lemma gsc_add_comm (item : gsc_item F) r1 r2 :
  gsc_add (gsc_add item r1) r2 = gsc_add (gsc_add item r2) r1.
Proof.
  unfold gsc_add. simpl. f_equal; apply fadd_swap.
Qed.

Lemma gsc_order_independent rows rows' dimensions base_url :
  rows ≡ₚ rows' →
  normalize_gsc_rows_by_page valid_bracketed_host urljoin rows dimensions base_url
  = normalize_gsc_rows_by_page valid_bracketed_host urljoin rows' dimensions base_url.
Proof.
  intros Hperm. unfold normalize_gsc_rows_by_page.
  rewrite !gsc_loop_bucket_loop.
  by rewrite (bucket_loop_perm _ _ _ gsc_add_comm rows rows' ∅ Hperm).
Qed.
End GscOrder.

Section Ga4Order.
Context {F : Type} `{Numeric F}.
Variable valid_bracketed_host : string → bool.
Variable urljoin : string → string → string.

(** What the first loop of the traffic aggregator does with a row. *)
Definition ga4_key (candidates : list string) (base_url : option string)
    (row : ga4_row F) : option (option string) :=
  match ga4_raw candidates row with
  | None => Some None
  | Some raw =>
      url ← normalize_url valid_bracketed_host urljoin raw base_url true true false;
      Some (if bool_decide (url = "") then None else Some url)
  end.

Lemma ga4_loop_bucket_loop candidates base_url rows bucket :
  ga4_loop valid_bracketed_host urljoin candidates base_url rows bucket
  = bucket_loop (ga4_key candidates base_url) ga4_add ga4_default rows bucket.
Proof.
  revert bucket. induction rows as [|row rows IH]; intros bucket; [done|].
  simpl. unfold ga4_step, ga4_key.
  destruct (ga4_raw candidates row) as [raw|]; simpl; [|apply IH].
  destruct (normalize_url _ _ raw base_url true true false) as [url|]; simpl; [|done].
  case_bool_decide; simpl; apply IH.
Qed.

Definition ga4_candidates (url_dimension_candidates : option (list string))
    : list string :=
  match url_dimension_candidates with
  | Some (c :: cs) => c :: cs
  | _ => default_url_dimension_candidates
  end.

Lemma normalize_ga4_bucket_loop rows base_url url_dimension_candidates :
  normalize_ga4_rows_by_page valid_bracketed_host urljoin rows base_url
    url_dimension_candidates
  = bucket_loop (ga4_key (ga4_candidates url_dimension_candidates) base_url)
      ga4_add ga4_default rows ∅
    ≫= map_mapM ga4_finish.
Proof.
  unfold normalize_ga4_rows_by_page. by rewrite ga4_loop_bucket_loop.
Qed.

Lemma foldl_ga4_add_rows (item : ga4_item F) rs :
  ga4_rows (foldl ga4_add item rs) = (ga4_rows item + Z.of_nat (length rs))%Z.
Proof.
  revert item. induction rs as [|row rs IH]; intros item; simpl; [lia|].
  rewrite IH. simpl. lia.
Qed.

Lemma ga4_finish_rows (item : ga4_item F) agg :
  ga4_finish item = Some agg → agg !! "ga4_rows" = Some (VInt (ga4_rows item)).
Proof.
  unfold ga4_finish. intros Hagg.
  apply bind_Some in Hagg as (c & _ & Hagg).
  apply bind_Some in Hagg as (p & _ & [= <-]). done.
Qed.

Lemma ga4_urls_and_counts rows rows' base_url candidates res res' :
  rows ≡ₚ rows' →
  normalize_ga4_rows_by_page valid_bracketed_host urljoin rows base_url candidates
  = Some res →
  normalize_ga4_rows_by_page valid_bracketed_host urljoin rows' base_url candidates
  = Some res' →
  dom res = dom res'
  ∧ ∀ url agg agg', res !! url = Some agg → res' !! url = Some agg' →
      agg !! "ga4_rows" = agg' !! "ga4_rows".
Proof.
  rewrite !normalize_ga4_bucket_loop. intros Hperm Hres Hres'.
  apply bind_Some in Hres as (b & Hb & Hres).
  apply bind_Some in Hres' as (b' & Hb' & Hres').
  split.
  - rewrite (map_mapM_dom _ _ _ Hres), (map_mapM_dom _ _ _ Hres').
    by eapply bucket_loop_dom_perm.
  - intros url agg agg' Hagg Hagg'.
    rewrite (map_mapM_Some _ _ _ Hres url) in Hagg.
    rewrite (map_mapM_Some _ _ _ Hres' url) in Hagg'.
    apply bind_Some in Hagg as (item & Hitem & Hagg).
    apply bind_Some in Hagg' as (item' & Hitem' & Hagg').
    rewrite (ga4_finish_rows _ _ Hagg), (ga4_finish_rows _ _ Hagg').
    rewrite (bucket_loop_lookup _ _ _ _ _ _ url Hb), lookup_empty in Hitem.
    rewrite (bucket_loop_lookup _ _ _ _ _ _ url Hb'), lookup_empty in Hitem'.
    assert (rows_of (ga4_key (ga4_candidates candidates) base_url) url rows
            ≡ₚ rows_of (ga4_key (ga4_candidates candidates) base_url) url rows')
      as Hrs by (unfold rows_of; by rewrite Hperm).
    unfold entry_after in Hitem, Hitem'.
    destruct (rows_of _ url rows) as [|r rs], (rows_of _ url rows') as [|r' rs'];
      try done.
    injection Hitem as <-. injection Hitem' as <-.
    pose proof (Permutation_length Hrs) as Hlen.
    rewrite !foldl_ga4_add_rows. simpl in Hlen |- *. by injection Hlen as ->.
Qed.

Hypothesis fadd_comm : ∀ x y : F, (x + y)%num = (y + x)%num.
Hypothesis fadd_assoc : ∀ x y z : F, (x + y + z)%num = (x + (y + z))%num.

Lemma ga4_add_comm (item : ga4_item F) r1 r2 :
  ga4_add (ga4_add item r1) r2 = ga4_add (ga4_add item r2) r1.
Proof.
  unfold ga4_add. simpl. f_equal; by apply fadd_swap.
Qed.

Lemma ga4_order_independent rows rows' base_url candidates :
  rows ≡ₚ rows' →
  normalize_ga4_rows_by_page valid_bracketed_host urljoin rows base_url candidates
  = normalize_ga4_rows_by_page valid_bracketed_host urljoin rows' base_url candidates.
Proof.
  intros Hperm. rewrite !normalize_ga4_bucket_loop.
  by rewrite (bucket_loop_perm _ _ _ ga4_add_comm rows rows' ∅ Hperm).
Qed.
End Ga4Order.

Module OrderExample.
#[local] Open Scope float_scope.

(** Three search rows of one page, with their CTR and average position. *)
Definition gsc_rows : list (gsc_row float) :=
  [ {| keys := ["https://ex.com/a"]; clicks := Some 56; impressions := Some 1200;
       ctr := Some 0.047; position := Some 12.4 |};
    {| keys := ["https://ex.com/a"]; clicks := Some 14; impressions := Some 450;
       ctr := Some 0.031; position := Some 7.3 |};
    {| keys := ["https://ex.com/a"]; clicks := Some 37; impressions := Some 3100;
       ctr := Some 0.012; position := Some 3.9 |} ].

(** Three traffic rows of one page, with engagement durations in seconds. *)
Definition ga4_rows : list (ga4_row float) :=
  (λ d, {| dims := {[ "pagePath" := "/a"%string ]}; sessions := Some 1;
           engagedSessions := Some 1; conversions := Some 0; totalUsers := Some 1;
           screenPageViews := Some 1; userEngagementDuration := Some d |})
  <$> [12.4; 7.3; 3.9].

Definition lookup2 (url k : string) (res : option (gmap string (pydict float)))
    : option (pyval float) :=
  match res with
  | Some m => match m !! url with
              | Some d => d !! k
              | None => None
              end
  | None => None
  end.
End OrderExample.

(** C8, as stated, fails in binary64: the same three rows in reverse order
    give another aggregate CTR, and another engagement-duration total. *)
Lemma aggregation_order_matters :
  reverse OrderExample.gsc_rows ≡ₚ OrderExample.gsc_rows
  ∧ reverse OrderExample.ga4_rows ≡ₚ OrderExample.ga4_rows
  ∧ ∀ valid_bracketed_host urljoin,
      OrderExample.lookup2 "https://ex.com/a" "gsc_ctr"
        (normalize_gsc_rows_by_page valid_bracketed_host urljoin
           OrderExample.gsc_rows None None)
      = Some (VNum 0.022642105263157894%float)
      ∧ OrderExample.lookup2 "https://ex.com/a" "gsc_ctr"
          (normalize_gsc_rows_by_page valid_bracketed_host urljoin
             (reverse OrderExample.gsc_rows) None None)
        = Some (VNum 0.022642105263157897%float)
      ∧ OrderExample.lookup2 "/a" "ga4_user_engagement_duration"
          (normalize_ga4_rows_by_page valid_bracketed_host urljoin
             OrderExample.ga4_rows None None)
        = Some (VNum 23.599999999999998%float)
      ∧ OrderExample.lookup2 "/a" "ga4_user_engagement_duration"
          (normalize_ga4_rows_by_page valid_bracketed_host urljoin
             (reverse OrderExample.ga4_rows) None None)
        = Some (VNum 23.6%float)
      ∧ (0.022642105263157894 =? 0.022642105263157897)%float = false
      ∧ (23.599999999999998 =? 23.6)%float = false.
Proof.
  split; [apply reverse_Permutation|]. split; [apply reverse_Permutation|].
  intros vb uj. repeat split; vm_compute; reflexivity.
Qed.

(** C8 (amended): for both aggregators, any reordering of the rows leaves
    the set of URLs and the per-URL row counts unchanged; and whenever the
    addition of the arithmetic is commutative and associative, as it is over
    exact numbers, the whole mapping (totals and derived ratios, or the
    exception) is unchanged.  In binary64 the addition is not associative
    and totals may differ in the last place. *)
Theorem aggregation_order_independent {F : Type} `{Numeric F}
    (valid_bracketed_host : string → bool) (urljoin : string → string → string) :
  (∀ rows rows' dimensions base_url res res',
     rows ≡ₚ rows' →
     normalize_gsc_rows_by_page valid_bracketed_host urljoin rows dimensions base_url
     = Some res →
     normalize_gsc_rows_by_page valid_bracketed_host urljoin rows' dimensions base_url
     = Some res' →
     dom res = dom res'
     ∧ ∀ url agg agg', res !! url = Some agg → res' !! url = Some agg' →
         agg !! "gsc_rows" = agg' !! "gsc_rows")
  ∧ (∀ rows rows' base_url candidates res res',
       rows ≡ₚ rows' →
       normalize_ga4_rows_by_page valid_bracketed_host urljoin rows base_url candidates
       = Some res →
       normalize_ga4_rows_by_page valid_bracketed_host urljoin rows' base_url candidates
       = Some res' →
       dom res = dom res'
       ∧ ∀ url agg agg', res !! url = Some agg → res' !! url = Some agg' →
           agg !! "ga4_rows" = agg' !! "ga4_rows")
  ∧ ((∀ x y : F, (x + y)%num = (y + x)%num) →
     (∀ x y z : F, (x + y + z)%num = (x + (y + z))%num) →
     (∀ rows rows' dimensions base_url,
        rows ≡ₚ rows' →
        normalize_gsc_rows_by_page valid_bracketed_host urljoin rows dimensions base_url
        = normalize_gsc_rows_by_page valid_bracketed_host urljoin rows' dimensions
            base_url)
     ∧ (∀ rows rows' base_url candidates,
          rows ≡ₚ rows' →
          normalize_ga4_rows_by_page valid_bracketed_host urljoin rows base_url
            candidates
          = normalize_ga4_rows_by_page valid_bracketed_host urljoin rows' base_url
              candidates)).
Proof.
  split; [|split].
  - intros *. apply gsc_urls_and_counts.
  - intros *. apply ga4_urls_and_counts.
  - intros Hcomm Hassoc. split.
    + intros *. by apply gsc_order_independent.
    + intros *. by apply ga4_order_independent.
Qed.

Module ExactOrderExample.
Definition row1 : gsc_row R :=
  {| keys := ["https://ex.com/a"]; clicks := Some 10%R; impressions := Some 100%R;
     ctr := Some (1/10)%R; position := Some 4%R |}.
Definition row2 : gsc_row R :=
  {| keys := ["https://ex.com/a"]; clicks := Some 6%R; impressions := Some 300%R;
     ctr := Some (2/100)%R; position := Some 8%R |}.
End ExactOrderExample.

Lemma aggregation_order_independent_witness :
  normalize_gsc_rows_by_page (λ _, true) (λ _ url, url)
    [ExactOrderExample.row1; ExactOrderExample.row2] None None
  = normalize_gsc_rows_by_page (λ _, true) (λ _ url, url)
      [ExactOrderExample.row2; ExactOrderExample.row1] None None.
Proof.
  destruct (@aggregation_order_independent R _ (λ _, true) (λ _ url, url))
    as (_ & _ & Horder).
  destruct (Horder Rplus_comm Rplus_assoc) as [Hgsc _].
  apply Hgsc. apply Permutation_swap.
Defined.

(** ** URL normalization *)

Section StringFacts.
Implicit Types (p q : ascii → bool) (s a b : string).

Lemma append_nil_l s : "" +:+ s = s.
Proof. reflexivity. Qed.

Lemma append_cons c a s : String c a +:+ s = String c (a +:+ s).
Proof. reflexivity. Qed.

Lemma append_nil_r s : s +:+ "" = s.
Proof. induction s as [|c s IH]; [done|]. by rewrite append_cons, IH. Qed.

Lemma append_assoc a b s : (a +:+ b) +:+ s = a +:+ (b +:+ s).
Proof. induction a as [|c a IH]; [done|]. by rewrite !append_cons, IH. Qed.

Lemma has_char_app p a b : has_char p (a +:+ b) = has_char p a || has_char p b.
Proof.
  induction a as [|c a IH]; [done|]. rewrite append_cons. simpl. rewrite IH.
  by destruct (p c).
Qed.

Lemma has_char_false_app p a b :
  has_char p (a +:+ b) = false ↔ has_char p a = false ∧ has_char p b = false.
Proof. rewrite has_char_app. apply orb_false_iff. Qed.

Lemma break_at_app p a c b :
  has_char p a = false → p c = true →
  break_at p (a +:+ String c b) = (a, String c b).
Proof.
  intros Ha Hc. induction a as [|d a IH].
  - rewrite append_nil_l. simpl. by rewrite Hc.
  - rewrite append_cons. simpl in *.
    apply orb_false_iff in Ha as [Hd Ha]. rewrite Hd, (IH Ha). done.
Qed.

Lemma break_at_none p s : has_char p s = false → break_at p s = (s, "").
Proof.
  induction s as [|c s IH]; simpl; [done|].
  intros [Hc Hs]%orb_false_iff. by rewrite Hc, (IH Hs).
Qed.

Lemma break_at_eq p s : (break_at p s).1 +:+ (break_at p s).2 = s.
Proof.
  induction s as [|c s IH]; simpl; [done|].
  destruct (p c); [done|]. destruct (break_at p s) as [a b]. simpl in *.
  by rewrite append_cons, IH.
Qed.

Lemma break_at_fst p s : has_char p (break_at p s).1 = false.
Proof.
  induction s as [|c s IH]; simpl; [done|].
  destruct (p c) eqn:Hc; [done|]. destruct (break_at p s) as [a b]. simpl in *.
  by rewrite Hc, IH.
Qed.

Lemma break_at_snd p s :
  (break_at p s).2 = "" ∨ ∃ c r, (break_at p s).2 = String c r ∧ p c = true.
Proof.
  induction s as [|c s IH]; simpl; [by left|].
  destruct (p c) eqn:Hc; [right; by exists c, s|].
  destruct (break_at p s) as [a b]. done.
Qed.

Lemma split_first_app p a c b :
  has_char p a = false → p c = true → split_first p (a +:+ String c b) = (a, b).
Proof. intros Ha Hc. unfold split_first. by rewrite break_at_app. Qed.

Lemma split_first_none p s : has_char p s = false → split_first p s = (s, "").
Proof. intros Hs. unfold split_first. by rewrite break_at_none. Qed.

Lemma split_first_fst p s : has_char p (split_first p s).1 = false.
Proof.
  unfold split_first. pose proof (break_at_fst p s) as Hf.
  destruct (break_at p s) as [a [|c b]]; done.
Qed.

(** Both parts of a split keep what holds of no character of the whole. *)
Lemma split_first_parts p q s :
  has_char q s = false →
  has_char q (split_first p s).1 = false ∧ has_char q (split_first p s).2 = false.
Proof.
  intros Hs. unfold split_first. pose proof (break_at_eq p s) as Heq.
  destruct (break_at p s) as [a [|c b]]; simpl in *; subst s.
  - apply has_char_false_app in Hs as [Ha _]. done.
  - apply has_char_false_app in Hs as [Ha Hb]. simpl in Hb.
    apply orb_false_iff in Hb as [_ Hb]. done.
Qed.

Lemma break_at_parts p q s :
  has_char q s = false →
  has_char q (break_at p s).1 = false ∧ has_char q (break_at p s).2 = false.
Proof.
  intros Hs. pose proof (break_at_eq p s) as Heq. rewrite <- Heq in Hs.
  by apply has_char_false_app in Hs.
Qed.

Lemma remove_chars_id p s : has_char p s = false → remove_chars p s = s.
Proof.
  induction s as [|c s IH]; simpl; [done|].
  intros [Hc Hs]%orb_false_iff. by rewrite Hc, (IH Hs).
Qed.

Lemma has_char_remove_chars p s : has_char p (remove_chars p s) = false.
Proof.
  induction s as [|c s IH]; simpl; [done|].
  destruct (p c) eqn:Hc; [done|]. simpl. by rewrite Hc, IH.
Qed.

Lemma has_char_drop_last p s : has_char p s = false → has_char p (drop_last s) = false.
Proof.
  induction s as [|c s IH]; simpl; [done|].
  intros [Hc Hs]%orb_false_iff. destruct s as [|d s]; [done|].
  simpl in *. rewrite Hc. simpl. by apply IH.
Qed.

Lemma has_char_substring p s (n m : nat) :
  has_char p s = false → has_char p (String.substring n m s) = false.
Proof.
  revert n m. induction s as [|c s IH]; intros n m; simpl.
  - by destruct n, m.
  - intros [Hc Hs]%orb_false_iff. destruct n as [|n].
    + destruct m as [|m]; [done|]. simpl. rewrite Hc. simpl. by apply IH.
    + by apply IH.
Qed.

Lemma has_char_weaken p q s :
  (∀ c, q c = true → p c = true) → has_char p s = false → has_char q s = false.
Proof.
  intros Hpq. induction s as [|c s IH]; simpl; [done|].
  intros [Hc Hs]%orb_false_iff. rewrite (IH Hs).
  destruct (q c) eqn:Hq; [|done]. apply Hpq in Hq. congruence.
Qed.

Lemma all_chars_has_char p q s :
  (∀ c, p c = true → q c = false) → all_chars p s = true → has_char q s = false.
Proof.
  intros Hpq. induction s as [|c s IH]; simpl; [done|].
  intros [Hc Hs]%andb_true_iff. by rewrite (Hpq c Hc), IH.
Qed.

Lemma lstrip_by_id p c s : p c = false → lstrip_by p (String c s) = String c s.
Proof. intros Hc. simpl. by rewrite Hc. Qed.
End StringFacts.

Section CharFacts.
Ltac by_cases c := destruct c as [[] [] [] [] [] [] [] []]; reflexivity.

Lemma lower_char_idem c : lower_char (lower_char c) = lower_char c.
Proof. by_cases c. Qed.
Lemma is_scheme_char_lower c : is_scheme_char (lower_char c) = is_scheme_char c.
Proof. by_cases c. Qed.
Lemma is_alpha_lower c : is_alpha (lower_char c) = is_alpha c.
Proof. by_cases c. Qed.
Lemma is_netloc_delim_lower c : is_netloc_delim (lower_char c) = is_netloc_delim c.
Proof. by_cases c. Qed.
Lemma is_unsafe_lower c : is_unsafe (lower_char c) = is_unsafe c.
Proof. by_cases c. Qed.
Lemma is_lbracket_lower c : is_char "[" (lower_char c) = is_char "[" c.
Proof. by_cases c. Qed.
Lemma is_rbracket_lower c : is_char "]" (lower_char c) = is_char "]" c.
Proof. by_cases c. Qed.
Lemma is_space_lower c : is_space (lower_char c) = is_space c.
Proof. by_cases c. Qed.

Lemma scheme_char_not_colon c : is_scheme_char c = true → is_char ":" c = false.
Proof. destruct c as [[] [] [] [] [] [] [] []]; simpl; done. Qed.
Lemma scheme_char_not_unsafe c : is_scheme_char c = true → is_unsafe c = false.
Proof. destruct c as [[] [] [] [] [] [] [] []]; simpl; done. Qed.
Lemma alpha_not_c0 c : is_alpha c = true → is_c0_or_space c = false.
Proof. destruct c as [[] [] [] [] [] [] [] []]; simpl; done. Qed.
Lemma alpha_not_space c : is_alpha c = true → is_space c = false.
Proof. destruct c as [[] [] [] [] [] [] [] []]; simpl; done. Qed.
End CharFacts.

Section LowerFacts.
Implicit Types (p : ascii → bool) (s : string).

Lemma lower_idem s : lower (lower s) = lower s.
Proof. induction s as [|c s IH]; simpl; [done|]. by rewrite lower_char_idem, IH. Qed.

Lemma lower_nil s : lower s = "" ↔ s = "".
Proof. by destruct s. Qed.

Lemma has_char_lower p s :
  (∀ c, p (lower_char c) = p c) → has_char p (lower s) = has_char p s.
Proof. intros Hp. induction s as [|c s IH]; simpl; [done|]. by rewrite Hp, IH. Qed.

Lemma all_chars_lower p s :
  (∀ c, p (lower_char c) = p c) → all_chars p (lower s) = all_chars p s.
Proof. intros Hp. induction s as [|c s IH]; simpl; [done|]. by rewrite Hp, IH. Qed.

Lemma lower_substring s (n m : nat) :
  lower (String.substring n m s) = String.substring n m (lower s).
Proof.
  revert n m. induction s as [|c s IH]; intros n m; simpl.
  - by destruct n, m.
  - destruct n as [|n]; [|apply IH]. destruct m as [|m]; [done|]. simpl. by rewrite IH.
Qed.
End LowerFacts.

(** The shape of a normalized URL with a host: a lower-case scheme, a host
    without delimiters or brackets, a path starting with a slash, and no
    character that [urlsplit] would remove. *)
Definition valid_scheme (s : string) : Prop :=
  ∃ c r, s = String c r ∧ is_alpha c = true
         ∧ all_chars is_scheme_char s = true ∧ lower s = s.

Record well_formed (c : SplitResult) : Prop := {
  wf_scheme : valid_scheme (scheme c);
  wf_netloc : netloc c ≠ "";
  wf_netloc_delim : has_char is_netloc_delim (netloc c) = false;
  wf_netloc_lbracket : has_char (is_char "[") (netloc c) = false;
  wf_netloc_rbracket : has_char (is_char "]") (netloc c) = false;
  wf_path : ∃ r, path c = String "/" r;
  wf_path_query : has_char (is_char "?") (path c) = false;
  wf_path_fragment : has_char (is_char "#") (path c) = false;
  wf_query : has_char (is_char "#") (query c) = false;
  wf_netloc_unsafe : has_char is_unsafe (netloc c) = false;
  wf_path_unsafe : has_char is_unsafe (path c) = false;
  wf_query_unsafe : has_char is_unsafe (query c) = false;
  wf_fragment_unsafe : has_char is_unsafe (fragment c) = false;
}.

Definition query_part (c : SplitResult) : string :=
  if bool_decide (query c = "") then "" else "?" +:+ query c.
Definition fragment_part (c : SplitResult) : string :=
  if bool_decide (fragment c = "") then "" else "#" +:+ fragment c.

Lemma startswith_slash_cons (p : string) : startswith "/" (String "/" p) = true.
Proof. reflexivity. Qed.

Lemma startswith_slash_inv (s : string) :
  startswith "/" s = true → ∃ r, s = String "/" r.
Proof.
  destruct s as [|c s]; [done|]. cbn [startswith].
  intros [Hc _]%andb_true_iff. apply Ascii.eqb_eq in Hc as <-. by exists s.
Qed.


Lemma urlunsplit_well_formed (c : SplitResult) :
  well_formed c →
  urlunsplit c
  = scheme c +:+ ":" +:+ "//" +:+ netloc c +:+ path c
      +:+ query_part c +:+ fragment_part c.
Proof.
  intros [[c0 [r (Hs & _)]] Hn _ _ _ [p Hp] _ _ _ _ _ _ _].
  unfold urlunsplit, query_part, fragment_part.
  rewrite (bool_decide_false (netloc c = "")) by done. simpl negb. simpl orb.
  rewrite Hp. rewrite (bool_decide_false (String "/" p = "")) by done.
  simpl andb. simpl negb. simpl andb. cbv iota.
  rewrite (bool_decide_false (scheme c = "")) by (by rewrite Hs).
  repeat case_bool_decide; rewrite ?append_assoc, ?append_nil_r; done.
Qed.

Lemma split_scheme_valid (s tail : string) :
  valid_scheme s → split_scheme (s +:+ ":" +:+ tail) = (s, tail).
Proof.
  intros (c0 & r & -> & Halpha & Hall & Hlow).
  assert (break_at (is_char ":") (String c0 r +:+ ":" +:+ tail)
          = (String c0 r, String ":" tail)) as Hbreak.
  { change (":" +:+ tail) with (String ":" tail). apply break_at_app; [|done].
    apply all_chars_has_char with (p := is_scheme_char); [|done].
    apply scheme_char_not_colon. }
  unfold split_scheme. rewrite Hbreak.
  rewrite append_cons. rewrite bool_decide_false by done.
  rewrite Halpha, Hall, Hlow. done.
Qed.

Lemma split_netloc_host (n rest : string) :
  has_char is_netloc_delim n = false →
  split_netloc ("//" +:+ n +:+ String "/" rest) = (n, String "/" rest).
Proof.
  intros Hn. change ("//" +:+ n +:+ String "/" rest)
    with (String "/" (String "/" (n +:+ String "/" rest))).
  unfold split_netloc. by apply break_at_app.
Qed.

Lemma urlsplit_urlunsplit (valid_bracketed_host : string → bool) (c : SplitResult) :
  well_formed c → urlsplit valid_bracketed_host (urlunsplit c) = Some c.
Proof.
  intros Hwf. rewrite urlunsplit_well_formed by done.
  destruct Hwf as [Hs Hn Hnd Hnl Hnr [pr Hp] Hpq Hpf Hqf Hnu Hpu Hqu Hfu].
  unfold query_part, fragment_part.
  destruct c as [s n p q f]; simpl in *. subst p.
  set (qp := if bool_decide (q = "") then "" else "?" +:+ q).
  set (fp := if bool_decide (f = "") then "" else "#" +:+ f).
  assert (has_char is_unsafe qp = false) as Hqpu.
  { unfold qp. case_bool_decide; [done|]. by apply has_char_false_app. }
  assert (has_char is_unsafe fp = false) as Hfpu.
  { unfold fp. case_bool_decide; [done|]. by apply has_char_false_app. }
  assert (has_char (is_char "#") qp = false) as Hqpf.
  { unfold qp. case_bool_decide; [done|]. by apply has_char_false_app. }
  pose proof Hs as (c0 & r & -> & Halpha & Hall & Hlow).
  unfold urlsplit.
  rewrite (append_cons c0 r), lstrip_by_id by (by apply alpha_not_c0).
  rewrite <- (append_cons c0 r).
  rewrite remove_chars_id.
  2:{ repeat (apply has_char_false_app; split); try done.
      apply all_chars_has_char with (p := is_scheme_char); [|done].
      apply scheme_char_not_unsafe. }
  rewrite (split_scheme_valid (String c0 r)) by done.
  rewrite (append_cons "/" pr), (split_netloc_host n) by done.
  rewrite Hnl, Hnr. simpl xorb. simpl andb. cbv iota.
  rewrite <- (append_cons "/" pr).
  assert (split_first (is_char "#") (String "/" pr +:+ qp +:+ fp)
          = (String "/" pr +:+ qp, f)) as ->.
  { unfold fp. case_bool_decide as Hf.
    - subst f. rewrite append_nil_r. apply split_first_none.
      by apply has_char_false_app.
    - rewrite <- append_assoc. change ("#" +:+ f) with (String "#" f).
      apply split_first_app; [|done]. by apply has_char_false_app. }
  assert (split_first (is_char "?") (String "/" pr +:+ qp) = (String "/" pr, q)) as ->.
  { unfold qp. case_bool_decide as Hq.
    - subst q. rewrite append_nil_r. by apply split_first_none.
    - change ("?" +:+ q) with (String "?" q). by apply split_first_app. }
  done.
Qed.

(** What [urlsplit] guarantees of the components it returns. *)
Lemma break_at_head p (c : ascii) (r : string) :
  (break_at p (String c r)).1 = ""
  ∨ ∃ r', (break_at p (String c r)).1 = String c r'.
Proof.
  simpl. destruct (p c); [by left|]. destruct (break_at p r) as [a b].
  right. by exists a.
Qed.

Lemma split_first_head p (s : string) (c : ascii) (r : string) :
  s = String c r →
  ((split_first p s).1 = "" ∧ p c = true)
  ∨ ∃ r', (split_first p s).1 = String c r'.
Proof.
  intros ->. unfold split_first. simpl. destruct (p c) eqn:Hc; [by left|].
  destruct (break_at p r) as [a [|d b]]; right; by exists a.
Qed.

Lemma split_scheme_spec (u : string) :
  ((split_scheme u).1 = "" ∨ valid_scheme (split_scheme u).1)
  ∧ ∀ q, has_char q u = false → has_char q (split_scheme u).2 = false.
Proof.
  unfold split_scheme. destruct u as [|c0 u]; [by split; [left|]|].
  pose proof (break_at_head (is_char ":") c0 u) as Hhead.
  pose proof (break_at_parts (is_char ":") ) as Hparts.
  specialize (λ q, Hparts q (String c0 u)).
  destruct (break_at (is_char ":") (String c0 u)) as [a [|d rest]];
    [by split; [left|]|].
  destruct (negb (bool_decide (a = "")) && is_alpha c0 && all_chars is_scheme_char a)
    eqn:Hcond; [|by split; [left|]].
  apply andb_true_iff in Hcond as [[Ha Halpha]%andb_true_iff Hall].
  apply negb_true_iff, bool_decide_eq_false in Ha.
  simpl in *. split.
  - right. destruct Hhead as [?|[r' ->]]; [done|].
    exists (lower_char c0), (lower r'). split; [done|].
    rewrite is_alpha_lower. split; [done|]. split.
    + change (String (lower_char c0) (lower r')) with (lower (String c0 r')).
      by rewrite all_chars_lower by apply is_scheme_char_lower.
    + change (String (lower_char c0) (lower r')) with (lower (String c0 r')).
      apply lower_idem.
  - intros q Hq. destruct (Hparts q Hq) as [_ Hrest]. simpl in Hrest.
    by apply orb_false_iff in Hrest as [_ ?].
Qed.

Lemma split_netloc_spec (u : string) :
  has_char is_netloc_delim (split_netloc u).1 = false
  ∧ ((split_netloc u).1 ≠ "" →
       (split_netloc u).2 = ""
       ∨ ∃ c r, (split_netloc u).2 = String c r ∧ is_netloc_delim c = true)
  ∧ ∀ q, has_char q u = false →
      has_char q (split_netloc u).1 = false ∧ has_char q (split_netloc u).2 = false.
Proof.
  assert (has_char is_netloc_delim (("", u) : string * string).1 = false
          ∧ ((("", u) : string * string).1 ≠ "" →
               (("", u) : string * string).2 = ""
               ∨ ∃ c r, (("", u) : string * string).2 = String c r
                        ∧ is_netloc_delim c = true)
          ∧ ∀ q, has_char q u = false →
              has_char q (("", u) : string * string).1 = false
              ∧ has_char q (("", u) : string * string).2 = false) as Hdefault
    by (split; [done|split; [done|by intros q Hq]]).
  unfold split_netloc.
  destruct u as [|c1 u']; [exact Hdefault|].
  destruct (decide (c1 = "/"%char)) as [->|Hc1].
  2:{ destruct c1 as [[] [] [] [] [] [] [] []]; try exact Hdefault; done. }
  destruct u' as [|c2 rest]; [exact Hdefault|].
  destruct (decide (c2 = "/"%char)) as [->|Hc2].
  2:{ destruct c2 as [[] [] [] [] [] [] [] []]; try exact Hdefault; done. }
  split; [apply break_at_fst|]. split; [intros _; apply break_at_snd|].
  intros q Hq. apply break_at_parts. simpl in Hq.
  apply orb_false_iff in Hq as [_ Hq]. by apply orb_false_iff in Hq as [_ Hq].
Qed.

Lemma delim_is_slash c :
  is_netloc_delim c = true → is_char "?" c = false → is_char "#" c = false →
  c = "/"%char.
Proof. destruct c as [[] [] [] [] [] [] [] []]; simpl; done. Qed.

Lemma split_first_start p (s : string) :
  (split_first p s).1 = ""
  ∨ ∃ c r r', s = String c r ∧ (split_first p s).1 = String c r'.
Proof.
  destruct s as [|c r]; [by left|].
  destruct (split_first_head p (String c r) c r eq_refl) as [[H _]|[r' H]];
    [by left|right; by exists c, r, r'].
Qed.

(** What [urlsplit] guarantees of the components it returns. *)
Record split_ok (parts : SplitResult) : Prop := {
  so_scheme : scheme parts = "" ∨ valid_scheme (scheme parts);
  so_netloc_delim : has_char is_netloc_delim (netloc parts) = false;
  so_path : netloc parts ≠ "" → path parts = "" ∨ ∃ r, path parts = String "/" r;
  so_path_query : has_char (is_char "?") (path parts) = false;
  so_path_fragment : has_char (is_char "#") (path parts) = false;
  so_query : has_char (is_char "#") (query parts) = false;
  so_netloc_unsafe : has_char is_unsafe (netloc parts) = false;
  so_path_unsafe : has_char is_unsafe (path parts) = false;
  so_query_unsafe : has_char is_unsafe (query parts) = false;
  so_fragment_unsafe : has_char is_unsafe (fragment parts) = false;
}.

Lemma urlsplit_spec (valid_bracketed_host : string → bool) (text : string)
    (parts : SplitResult) :
  urlsplit valid_bracketed_host text = Some parts → split_ok parts.
Proof.
  unfold urlsplit.
  set (u0 := remove_chars is_unsafe (lstrip_by is_c0_or_space text)).
  assert (has_char is_unsafe u0 = false) as Hu0 by apply has_char_remove_chars.
  pose proof (split_scheme_spec u0) as [Hs Hrest1].
  destruct (split_scheme u0) as [s u1]. simpl in Hs, Hrest1.
  pose proof (split_netloc_spec u1) as (Hnd & Hn2 & Hrest2).
  destruct (split_netloc u1) as [n u2]. simpl in Hnd, Hn2, Hrest2.
  destruct (xorb _ _); [done|]. destruct (_ && _ && negb _); [done|].
  pose proof (split_first_fst (is_char "#") u2) as Hf1.
  pose proof (split_first_parts (is_char "#") is_unsafe u2) as Hfu.
  pose proof (split_first_start (is_char "#") u2) as Hfh.
  destruct (split_first (is_char "#") u2) as [u3 f]. simpl in Hf1, Hfu, Hfh.
  pose proof (split_first_fst (is_char "?") u3) as Hq1.
  pose proof (split_first_parts (is_char "?") is_unsafe u3) as Hqu.
  pose proof (split_first_parts (is_char "?") (is_char "#") u3 Hf1) as Hqf.
  pose proof (split_first_start (is_char "?") u3) as Hqh.
  destruct (split_first (is_char "?") u3) as [p q]. simpl in Hq1, Hqu, Hqf, Hqh.
  intros [= <-].
  destruct (Hrest2 is_unsafe (Hrest1 is_unsafe Hu0)) as [Hnu Hu2].
  destruct (Hfu Hu2) as [Hu3 Hfus]. destruct (Hqu Hu3) as [Hpu Hqus].
  destruct Hqf as [Hpf Hqf].
  constructor; simpl; try done.
  intros Hn. destruct Hqh as [?|(c & r & r' & -> & ->)]; [by left|right].
  destruct Hfh as [?|(c' & r2 & r3 & -> & [= <- <-])]; [done|].
  destruct (Hn2 Hn) as [?|(c'' & r4 & [= <- <-] & Hdelim)]; [done|].
  simpl in Hq1, Hpf. apply orb_false_iff in Hq1 as [Hc1 _].
  apply orb_false_iff in Hpf as [Hc2 _].
  rewrite (delim_is_slash c) by done. by exists r'.
Qed.

Lemma valid_scheme_https : valid_scheme "https".
Proof. by exists "h"%char, "ttps". Qed.

Lemma valid_scheme_nonempty s : valid_scheme s → s ≠ "".
Proof. by intros (c & r & -> & _). Qed.

Lemma valid_scheme_lower s : valid_scheme s → lower s = s.
Proof. by intros (c & r & _ & _ & _ & ?). Qed.

Lemma drop_last_head (c d : ascii) (r : string) :
  drop_last (String c (String d r)) = String c (drop_last (String d r)).
Proof. done. Qed.

(** The components that [normalize_url] hands to [urlunsplit]. *)
Section Canonical.
Variables (parts : SplitResult) (drop_query drop_fragment remove_www : bool).
Let c := canonical_parts parts drop_query drop_fragment remove_www.
Hypothesis Hparts : split_ok parts.

Lemma canonical_scheme : valid_scheme (scheme c).
Proof.
  subst c. unfold canonical_parts. cbn [scheme].
  case_bool_decide as Hs; [apply valid_scheme_https|].
  destruct (so_scheme _ Hparts) as [Hs'|Hv]; [by rewrite Hs' in Hs|].
  by rewrite (valid_scheme_lower _ Hv).
Qed.

Lemma canonical_netloc_char p :
  (∀ a, p (lower_char a) = p a) →
  has_char p (netloc parts) = false → has_char p (netloc c) = false.
Proof.
  intros Hp Hn. subst c. unfold canonical_parts. cbn [netloc].
  destruct (_ && _); [apply has_char_substring|]; by rewrite has_char_lower.
Qed.

Lemma canonical_netloc_lower : lower (netloc c) = netloc c.
Proof.
  subst c. unfold canonical_parts. cbn [netloc].
  destruct (_ && _); [rewrite lower_substring|]; by rewrite lower_idem.
Qed.

Lemma canonical_netloc_parts : netloc c ≠ "" → netloc parts ≠ "".
Proof.
  subst c. unfold canonical_parts. cbn [netloc]. intros Hn Hp. apply Hn.
  rewrite Hp. simpl. by rewrite andb_false_r.
Qed.

Lemma canonical_path_char p :
  p "/"%char = false →
  has_char p (path parts) = false → has_char p (path c) = false.
Proof.
  intros Hslash Hp. subst c. unfold canonical_parts. cbn [path].
  destruct (decide (path parts = "")) as [He|He].
  - rewrite (bool_decide_true (path parts = "")) by done.
    simpl. by rewrite Hslash.
  - rewrite (bool_decide_false (path parts = "")) by done.
    destruct (_ && _); [by apply has_char_drop_last|done].
Qed.

Lemma canonical_path : netloc c ≠ "" → ∃ r, path c = String "/" r.
Proof.
  intros Hn%canonical_netloc_parts. subst c. unfold canonical_parts. cbn [path].
  destruct (decide (path parts = "")) as [He|He].
  { rewrite (bool_decide_true (path parts = "")) by done. by exists "". }
  rewrite (bool_decide_false (path parts = "")) by done.
  destruct (so_path _ Hparts Hn) as [?|[r Hr]]; [done|]. rewrite Hr.
  destruct r as [|d r]; [by exists ""|].
  destruct (_ && _); [|by eexists]. rewrite drop_last_head. by eexists.
Qed.

Lemma canonical_well_formed :
  netloc c ≠ "" →
  has_char (is_char "[") (netloc c) = false →
  has_char (is_char "]") (netloc c) = false →
  well_formed c.
Proof.
  intros Hn Hl Hr. constructor; try done.
  - apply canonical_scheme.
  - apply canonical_netloc_char; [apply is_netloc_delim_lower|].
    apply (so_netloc_delim _ Hparts).
  - by apply canonical_path.
  - apply canonical_path_char; [done|apply (so_path_query _ Hparts)].
  - apply canonical_path_char; [done|apply (so_path_fragment _ Hparts)].
  - subst c. unfold canonical_parts. cbn [query].
    destruct drop_query; [done|apply (so_query _ Hparts)].
  - apply canonical_netloc_char; [apply is_unsafe_lower|].
    apply (so_netloc_unsafe _ Hparts).
  - apply canonical_path_char; [done|apply (so_path_unsafe _ Hparts)].
  - subst c. unfold canonical_parts. cbn [query].
    destruct drop_query; [done|apply (so_query_unsafe _ Hparts)].
  - subst c. unfold canonical_parts. cbn [fragment].
    destruct drop_fragment; [done|apply (so_fragment_unsafe _ Hparts)].
Qed.

(** Normalizing the normalized components changes nothing, unless a
    trailing slash or a [www.] prefix is still there to remove. *)
Lemma canonical_fixed :
  netloc c ≠ "" →
  (path c = "/" ∨ ends_with_slash (path c) = false) →
  (remove_www = true → startswith "www." (netloc c) = false) →
  canonical_parts c drop_query drop_fragment remove_www = c.
Proof.
  intros Hn Hpath Hwww.
  pose proof canonical_scheme as Hs. pose proof canonical_netloc_lower as Hl.
  destruct (canonical_path Hn) as [r Hr].
  assert (query c = if drop_query then "" else query parts) as Hq by done.
  assert (fragment c = if drop_fragment then "" else fragment parts) as Hf by done.
  clearbody c. destruct c as [s n p q f].
  cbn [scheme netloc path query fragment] in *.
  unfold canonical_parts. cbn [scheme netloc path query fragment].
  rewrite (valid_scheme_lower _ Hs), Hl.
  rewrite (bool_decide_false (s = "")) by by apply valid_scheme_nonempty.
  rewrite (bool_decide_false (p = "")) by by rewrite Hr.
  f_equal.
  - destruct remove_www; [|done]. by rewrite Hwww.
  - destruct Hpath as [-> | ->]; [done|]. by rewrite andb_false_r.
  - rewrite Hq. by destruct drop_query.
  - rewrite Hf. by destruct drop_fragment.
Qed.
End Canonical.

(** The components of the first pass, and the string built from them
    (lines 41-58 of [normalize_url]). *)
Definition normalized_parts (valid_bracketed_host : string → bool)
    (urljoin : string → string → string) (value : string)
    (base_url : option string) (drop_query drop_fragment remove_www : bool)
    : option SplitResult :=
  match urlsplit valid_bracketed_host (resolve urljoin (strip value) base_url) with
  | Some parts => Some (canonical_parts parts drop_query drop_fragment remove_www)
  | None => None
  end.

Definition render (c : SplitResult) : string :=
  if bool_decide (netloc c = "") then path c else urlunsplit c.

(** An absolute URL: a host without brackets that keeps no [www.] prefix to
    remove, and a scheme that exempts it from being joined to the base. *)
Definition host_url (c : SplitResult) (base_url : option string)
    (remove_www : bool) : Prop :=
  netloc c ≠ ""
  ∧ has_char (is_char "[") (netloc c) = false
  ∧ has_char (is_char "]") (netloc c) = false
  ∧ (remove_www = true → startswith "www." (netloc c) = false)
  ∧ (base_url = None ∨ scheme c = "http" ∨ scheme c = "https").

(** A bare path starting with exactly one slash, and no base to join it to. *)
Definition rooted_path (c : SplitResult) (base_url : option string) : Prop :=
  netloc c = ""
  ∧ (∃ r, path c = String "/" r ∧ startswith "/" r = false)
  ∧ base_url = None.

Lemma normalize_url_parts vbh uj value base dq df rw c :
  strip value ≠ "" →
  normalized_parts vbh uj value base dq df rw = Some c →
  normalize_url vbh uj value base dq df rw = Some (render c).
Proof.
  intros Hv. unfold normalized_parts, normalize_url, render.
  rewrite (bool_decide_false (strip value = "")) by done.
  destruct (urlsplit _ _) as [parts|]; [|done]. intros [= <-]. cbn [mbind option_bind].
  by case_bool_decide.
Qed.

Lemma normalize_url_empty vbh uj value base dq df rw :
  strip value = "" →
  normalize_url vbh uj value base dq df rw = Some ""
  ∧ normalize_url vbh uj "" base dq df rw = Some "".
Proof. intros Hv. unfold normalize_url. by rewrite Hv. Qed.

Lemma normalized_parts_ok vbh uj value base dq df rw c :
  normalized_parts vbh uj value base dq df rw = Some c →
  ∃ parts, split_ok parts ∧ c = canonical_parts parts dq df rw.
Proof.
  unfold normalized_parts. destruct (urlsplit _ _) as [parts|] eqn:Hsplit; [|done].
  intros [= <-]. exists parts. split; [by eapply urlsplit_spec|done].
Qed.

(** The second pass over an absolute URL. *)
Lemma lstrip_urlunsplit (c : SplitResult) :
  well_formed c → lstrip_by is_space (urlunsplit c) = urlunsplit c.
Proof.
  intros Hwf. rewrite urlunsplit_well_formed by done.
  destruct (wf_scheme _ Hwf) as (c0 & r & -> & Halpha & _).
  rewrite append_cons. by apply lstrip_by_id, alpha_not_space.
Qed.

Lemma urlunsplit_nonempty (c : SplitResult) : well_formed c → urlunsplit c ≠ "".
Proof.
  intros Hwf. rewrite urlunsplit_well_formed by done.
  destruct (wf_scheme _ Hwf) as (c0 & r & -> & _). by rewrite append_cons.
Qed.

Lemma resolve_absolute uj (c : SplitResult) (base : option string) :
  well_formed c →
  base = None ∨ scheme c = "http" ∨ scheme c = "https" →
  resolve uj (urlunsplit c) base = urlunsplit c.
Proof.
  intros Hwf Hbase. unfold resolve. destruct base as [b|]; [|done].
  rewrite urlunsplit_well_formed by done.
  destruct Hbase as [?|[-> | ->]]; [done| |].
  - assert (startswith "http://" ("http" +:+ ":" +:+ "//" +:+ netloc c +:+ path c
                                   +:+ query_part c +:+ fragment_part c) = true)
      as -> by reflexivity.
    done.
  - assert (startswith "https://" ("https" +:+ ":" +:+ "//" +:+ netloc c +:+ path c
                                   +:+ query_part c +:+ fragment_part c) = true)
      as -> by reflexivity.
    by rewrite orb_true_r.
Qed.

Lemma normalize_url_absolute vbh uj base dq df rw (c : SplitResult) :
  well_formed c →
  canonical_parts c dq df rw = c →
  rstrip_by is_space (urlunsplit c) = urlunsplit c →
  base = None ∨ scheme c = "http" ∨ scheme c = "https" →
  normalize_url vbh uj (urlunsplit c) base dq df rw = Some (urlunsplit c).
Proof.
  intros Hwf Hfix Hstrip Hbase. unfold normalize_url, strip.
  rewrite lstrip_urlunsplit, Hstrip by done.
  rewrite (bool_decide_false (urlunsplit c = "")) by by apply urlunsplit_nonempty.
  rewrite resolve_absolute, urlsplit_urlunsplit by done.
  cbn [mbind option_bind]. rewrite Hfix.
  by rewrite (bool_decide_false (netloc c = "")) by apply (wf_netloc _ Hwf).
Qed.

(** The second pass over a bare path. *)
Lemma split_scheme_rooted (r : string) :
  split_scheme (String "/" r) = ("", String "/" r).
Proof.
  unfold split_scheme. cbn [break_at].
  change (is_char ":" "/") with false. cbv iota.
  destruct (break_at (is_char ":") r) as [a [|d b]]; [done|].
  change (is_alpha "/") with false. by rewrite andb_false_r.
Qed.

Lemma split_netloc_rooted (r : string) :
  startswith "/" r = false → split_netloc (String "/" r) = ("", String "/" r).
Proof.
  destruct r as [|d r]; [done|]. intros Hd. unfold split_netloc.
  destruct d as [[] [] [] [] [] [] [] []]; done.
Qed.

Lemma urlsplit_rooted vbh (r : string) :
  startswith "/" r = false →
  has_char (is_char "?") (String "/" r) = false →
  has_char (is_char "#") (String "/" r) = false →
  has_char is_unsafe (String "/" r) = false →
  urlsplit vbh (String "/" r)
  = Some {| scheme := ""; netloc := ""; path := String "/" r;
            query := ""; fragment := "" |}.
Proof.
  intros Hr Hq Hf Hu. unfold urlsplit.
  rewrite lstrip_by_id by done. rewrite remove_chars_id by done.
  rewrite split_scheme_rooted, split_netloc_rooted by done.
  cbn [has_char xorb andb]. cbv iota.
  rewrite split_first_none by done. by rewrite split_first_none by done.
Qed.

Lemma normalize_url_rooted vbh uj dq df rw (r : string) :
  startswith "/" r = false →
  has_char (is_char "?") (String "/" r) = false →
  has_char (is_char "#") (String "/" r) = false →
  has_char is_unsafe (String "/" r) = false →
  r = "" ∨ ends_with_slash (String "/" r) = false →
  rstrip_by is_space (String "/" r) = String "/" r →
  normalize_url vbh uj (String "/" r) None dq df rw = Some (String "/" r).
Proof.
  intros Hr Hq Hf Hu Hslash Hstrip. unfold normalize_url, strip.
  rewrite lstrip_by_id, Hstrip by done.
  rewrite (bool_decide_false (String "/" r = "")) by done.
  cbn [resolve]. rewrite urlsplit_rooted by done.
  cbn [mbind option_bind]. unfold canonical_parts.
  cbn [scheme netloc path query fragment lower startswith].
  rewrite andb_false_r. cbn [netloc path].
  rewrite (bool_decide_true ("" = "")) by done.
  rewrite (bool_decide_false (String "/" r = "")) by done.
  destruct Hslash as [-> | ->]; [done|]. by rewrite andb_false_r.
Qed.

(** C7, as stated, fails: a path ending in two slashes loses one of them at
    each pass. *)
Lemma normalize_url_not_idempotent :
  "https://ex.com/a/" ≠ "https://ex.com/a"
  ∧ ∀ valid_bracketed_host urljoin,
      normalize_url valid_bracketed_host urljoin
        "https://ex.com/a//" None true true false
      = Some "https://ex.com/a/"
      ∧ normalize_url valid_bracketed_host urljoin
          "https://ex.com/a/" None true true false
        = Some "https://ex.com/a".
Proof. split; [done|]. intros vb uj. split; vm_compute; reflexivity. Qed.

(** C7 (amended): normalization is idempotent whenever the first pass
    yields an absolute URL (a host without brackets, no [www.] prefix left
    to remove, and an http(s) scheme if a base is set) or a bare path with a
    single leading slash and no base, provided that the normalized path is
    [/] or no longer ends with a slash and that the result carries no
    trailing whitespace: normalizing the result again, with the same flags,
    returns it unchanged. *)
Theorem normalize_url_idempotent (valid_bracketed_host : string → bool)
    (urljoin : string → string → string) (value : string)
    (base_url : option string) (drop_query drop_fragment remove_www : bool)
    (c : SplitResult) :
  normalized_parts valid_bracketed_host urljoin value base_url
    drop_query drop_fragment remove_www = Some c →
  host_url c base_url remove_www ∨ rooted_path c base_url →
  path c = "/" ∨ ends_with_slash (path c) = false →
  rstrip_by is_space (render c) = render c →
  ∃ out,
    normalize_url valid_bracketed_host urljoin value base_url
      drop_query drop_fragment remove_www = Some out
    ∧ normalize_url valid_bracketed_host urljoin out base_url
        drop_query drop_fragment remove_www = Some out.
Proof.
  intros Hparts Hkind Hslash Hstrip.
  destruct (decide (strip value = "")) as [Hv|Hv].
  { exists "". by apply normalize_url_empty. }
  exists (render c). split; [by apply normalize_url_parts|].
  destruct (normalized_parts_ok _ _ _ _ _ _ _ _ Hparts) as (parts & Hok & Hc).
  destruct Hkind as [(Hn & Hl & Hr & Hwww & Hbase)|(Hn & (r & Hp & Hr) & ->)].
  - unfold render in *. rewrite (bool_decide_false (netloc c = "")) in * by done.
    apply normalize_url_absolute; try done; subst c.
    + by apply canonical_well_formed.
    + by apply canonical_fixed.
  - unfold render in *. rewrite (bool_decide_true (netloc c = "")) in * by done.
    pose proof (canonical_path_char parts drop_query drop_fragment remove_www
                  (is_char "?") eq_refl (so_path_query _ Hok)) as Hq.
    pose proof (canonical_path_char parts drop_query drop_fragment remove_www
                  (is_char "#") eq_refl (so_path_fragment _ Hok)) as Hf.
    pose proof (canonical_path_char parts drop_query drop_fragment remove_www
                  is_unsafe eq_refl (so_path_unsafe _ Hok)) as Hu.
    rewrite <- Hc in Hq, Hf, Hu. rewrite Hp in *.
    apply normalize_url_rooted; try done.
    destruct Hslash as [[= ->]|?]; [by left|by right].
Qed.

Lemma normalize_url_idempotent_witness :
  ∃ out,
    normalize_url (λ _, true) (λ _ text, text)
      "  https://WWW.Example.com/Blog/?utm=1#top " None true true true = Some out
    ∧ normalize_url (λ _, true) (λ _ text, text) out None true true true = Some out.
Proof.
  apply (normalize_url_idempotent _ _ _ _ _ _ _
           {| scheme := "https"; netloc := "example.com"; path := "/Blog";
              query := ""; fragment := "" |}).
  - vm_compute; reflexivity.
  - left. repeat split; try done. by left.
  - right. reflexivity.
  - vm_compute; reflexivity.
Defined.

(** ** The portfolio summary (summarize_portfolio) *)

(** The metrics [summarize_portfolio] reads. *)
Definition summary_fields : list string :=
  ["gsc_clicks"; "gsc_impressions"; "ga4_sessions"; "ga4_conversions"].

Section SummaryFacts.
Context {F : Type} `{NumericLaws F}.

Lemma field_sum_is_Some (field : string) (pages : list (pydict F)) :
  is_Some (field_sum field pages)
  ↔ Forall (λ p, is_Some (get_float p field)) pages.
Proof.
  unfold field_sum. split.
  - intros [x (xs & Hxs & _)%bind_Some].
    apply mk_is_Some in Hxs.
    by apply (mapM_is_Some_1 (λ p, get_float p field)) in Hxs.
  - intros [xs ->]%(mapM_is_Some_2 (λ p, get_float p field)). by eexists.
Qed.

Lemma field_sum_inv (field : string) (pages : list (pydict F)) v :
  field_sum field pages = Some v →
  (pages = [] ∧ v = VInt 0) ∨ ∃ x, v = VNum x.
Proof.
  unfold field_sum. intros (xs & Hxs & [= <-])%bind_Some.
  destruct xs as [|x xs]; [left|right; by eexists].
  apply length_mapM in Hxs. by destruct pages.
Qed.

(** The ratio with its guard, as a total function. *)
Definition ratio_or_zero (num den : pyval F) : F :=
  match num, den with
  | VNum n, VNum d => if (d >? f0)%num then fdiv n d else f0
  | _, _ => f0
  end.

Lemma guarded_ratio_sums (field1 field2 : string) (pages : list (pydict F)) num den :
  field_sum field1 pages = Some num → field_sum field2 pages = Some den →
  guarded_ratio num den = Some (ratio_or_zero num den).
Proof.
  intros Hnum Hden. unfold guarded_ratio, ratio_or_zero.
  destruct (field_sum_inv _ _ _ Hden) as [[-> ->]|[d ->]].
  { simpl. by destruct num. }
  destruct (field_sum_inv _ _ _ Hnum) as [[-> ->]|[n ->]].
  { unfold field_sum in Hden. simpl in Hden. discriminate. }
  simpl. destruct (f0 <? d)%num eqn:Hd; [|done].
  simpl. unfold py_div. by rewrite gt_not_zero.
Qed.
Lemma summarize_portfolio_is_Some (merged_pages : list (pydict F)) :
  Forall (λ p, ∀ k, k ∈ summary_fields → is_Some (get_float p k)) merged_pages →
  is_Some (summarize_portfolio merged_pages).
Proof.
  intros Hpages.
  assert (∀ k, k ∈ summary_fields → is_Some (field_sum k merged_pages)) as Hsum.
  { intros k Hk. apply field_sum_is_Some.
    eapply Forall_impl; [exact Hpages|]. intros p Hp. by apply Hp. }
  destruct (Hsum "gsc_clicks") as [tc Htc]; [unfold summary_fields; set_solver|].
  destruct (Hsum "gsc_impressions") as [ti Hti]; [unfold summary_fields; set_solver|].
  destruct (Hsum "ga4_sessions") as [ts Hts]; [unfold summary_fields; set_solver|].
  destruct (Hsum "ga4_conversions") as [tv Htv]; [unfold summary_fields; set_solver|].
  unfold summarize_portfolio. rewrite Htc, Hti, Hts, Htv. cbn [mbind option_bind].
  rewrite (guarded_ratio_sums _ _ _ _ _ Htc Hti).
  rewrite (guarded_ratio_sums _ _ _ _ _ Htv Hts). by eexists.
Qed.
End SummaryFacts.

(** X1: [summarize_portfolio] raises exactly when, for some page and one of
    the four metrics it sums, [float(p.get(metric, 0.0))] raises; in
    particular it never divides by zero: each ratio is the quotient of the two totals when
    the denominator total is positive and 0.0 otherwise.  The summary counts
    the pages, and for no page at all the four totals are the [int] 0. *)
Theorem summarize_portfolio_guarded {F : Type} `{NumericLaws F}
    (merged_pages : list (pydict F)) :
  (is_Some (summarize_portfolio merged_pages)
   ↔ Forall (λ p, ∀ k, k ∈ summary_fields → is_Some (get_float p k)) merged_pages)
  ∧ (∀ summary, summarize_portfolio merged_pages = Some summary →
       ∃ clicks impressions sessions conversions,
         field_sum "gsc_clicks" merged_pages = Some clicks
         ∧ field_sum "gsc_impressions" merged_pages = Some impressions
         ∧ field_sum "ga4_sessions" merged_pages = Some sessions
         ∧ field_sum "ga4_conversions" merged_pages = Some conversions
         ∧ total_pages summary = Z.of_nat (length merged_pages)
         ∧ portfolio_ctr summary = fround 4 (ratio_or_zero clicks impressions)
         ∧ portfolio_conversion_rate summary
           = fround 4 (ratio_or_zero conversions sessions))
  ∧ summarize_portfolio (F:=F) []
    = Some {| total_pages := 0; total_gsc_clicks := VInt 0;
              total_gsc_impressions := VInt 0; total_ga4_sessions := VInt 0;
              total_ga4_conversions := VInt 0; portfolio_ctr := fround 4 f0;
              portfolio_conversion_rate := fround 4 f0 |}.
Proof.
  split; [|split; [|done]].
  - split.
    + intros [s Hs]. unfold summarize_portfolio in Hs.
      apply bind_Some in Hs as (tc & Htc & Hs).
      apply bind_Some in Hs as (ti & Hti & Hs).
      apply bind_Some in Hs as (ts & Hts & Hs).
      apply bind_Some in Hs as (tv & Htv & _).
      pose proof (proj1 (field_sum_is_Some _ _) (mk_is_Some _ _ Htc)) as H1.
      pose proof (proj1 (field_sum_is_Some _ _) (mk_is_Some _ _ Hti)) as H2.
      pose proof (proj1 (field_sum_is_Some _ _) (mk_is_Some _ _ Hts)) as H3.
      pose proof (proj1 (field_sum_is_Some _ _) (mk_is_Some _ _ Htv)) as H4.
      rewrite Forall_forall in *. intros p Hp k Hk.
      unfold summary_fields in Hk.
      apply elem_of_cons in Hk as [->|Hk]; [by apply H1|].
      apply elem_of_cons in Hk as [->|Hk]; [by apply H2|].
      apply elem_of_cons in Hk as [->|Hk]; [by apply H3|].
      apply elem_of_cons in Hk as [->|Hk]; [by apply H4|].
      by apply elem_of_nil in Hk.
    + apply summarize_portfolio_is_Some.
  - intros s Hs. unfold summarize_portfolio in Hs.
    apply bind_Some in Hs as (tc & Htc & Hs).
    apply bind_Some in Hs as (ti & Hti & Hs).
    apply bind_Some in Hs as (ts & Hts & Hs).
    apply bind_Some in Hs as (tv & Htv & Hs).
    rewrite (guarded_ratio_sums _ _ _ _ _ Htc Hti) in Hs.
    rewrite (guarded_ratio_sums _ _ _ _ _ Htv Hts) in Hs.
    cbn [mbind option_bind] in Hs. injection Hs as <-.
    by exists tc, ti, ts, tv.
Qed.

Module SummaryExample.
#[local] Open Scope float_scope.

Definition pages : list (pydict float) :=
  [ {[ "url" := VStr "/a"; "gsc_clicks" := VNum 3; "gsc_impressions" := VNum 40 ]};
    {[ "url" := VStr "/b"; "gsc_clicks" := VNum 1; "gsc_impressions" := VNum 10 ]} ].

Definition summary : PortfolioSummary float :=
  {| total_pages := 2; total_gsc_clicks := VNum 4;
     total_gsc_impressions := VNum 50; total_ga4_sessions := VNum 0;
     total_ga4_conversions := VNum 0; portfolio_ctr := 0.08;
     portfolio_conversion_rate := 0 |}.

Lemma summary_ok : summarize_portfolio pages = Some summary.
Proof. vm_compute. reflexivity. Qed.
End SummaryExample.

Lemma summarize_portfolio_guarded_witness :
  ∃ clicks impressions sessions conversions,
    field_sum "gsc_clicks" SummaryExample.pages = Some clicks
    ∧ field_sum "gsc_impressions" SummaryExample.pages = Some impressions
    ∧ field_sum "ga4_sessions" SummaryExample.pages = Some sessions
    ∧ field_sum "ga4_conversions" SummaryExample.pages = Some conversions
    ∧ total_pages SummaryExample.summary = Z.of_nat (length SummaryExample.pages)
    ∧ portfolio_ctr SummaryExample.summary
      = fround 4 (ratio_or_zero clicks impressions)
    ∧ portfolio_conversion_rate SummaryExample.summary
      = fround 4 (ratio_or_zero conversions sessions).
Proof.
  apply (proj1 (proj2 (@summarize_portfolio_guarded float binary64 binary64_laws
                         SummaryExample.pages))).
  apply SummaryExample.summary_ok.
Defined.

(** ** Sorting and slicing in the reports *)

Section SlicePerm.
Context {A : Type}.

Lemma py_slice_to_length (n : Z) (l : list A) :
  length (py_slice_to n l)
  = if (0 <=? n)%Z then (Z.to_nat n `min` length l)%nat
    else (length l - Z.to_nat (- n))%nat.
Proof.
  unfold py_slice_to. destruct (0 <=? n)%Z; rewrite length_take; lia.
Qed.

Lemma py_slice_to_prefix (n : Z) (l : list A) : py_slice_to n l `prefix_of` l.
Proof. unfold py_slice_to. destruct (0 <=? n)%Z; apply prefix_take. Qed.

Lemma filterM_is_Some (cond : A → option bool) (l : list A) :
  is_Some (filterM cond l) ↔ Forall (λ x, is_Some (cond x)) l.
Proof.
  induction l as [|x l IH]; simpl.
  - split; [constructor|by eexists].
  - rewrite Forall_cons, <- IH. split.
    + intros [r (b & Hb & (r' & Hr & _)%bind_Some)%bind_Some].
      split; by eexists.
    + intros [[b ->] [r ->]]. simpl. by eexists.
Qed.

Lemma filterM_filter (cond : A → option bool) (l r : list A) :
  filterM cond l = Some r → r = filter (λ x, cond x = Some true) l.
Proof.
  revert r. induction l as [|x l IH]; intros r; simpl; [by intros [= <-]|].
  intros (b & Hb & (r' & Hr & [= <-])%bind_Some)%bind_Some.
  rewrite filter_cons, (IH _ Hr), Hb. destruct b.
  - by rewrite decide_True.
  - by rewrite decide_False.
Qed.
End SlicePerm.

Section SortPerm.
Context {F : Type} `{Numeric F} {A : Type}.

Lemma insert_by_desc_perm (x : F * A) l : insert_by_desc x l ≡ₚ x :: l.
Proof.
  induction l as [|y l IH]; simpl; [done|].
  destruct (x.1 <? y.1)%num; [|done]. by rewrite IH, Permutation_swap.
Qed.

Lemma sort_by_desc_perm (l : list (F * A)) : sort_by_desc l ≡ₚ l.
Proof.
  induction l as [|x l IH]; simpl; [done|]. by rewrite insert_by_desc_perm, IH.
Qed.

Lemma insert_by_asc_perm (x : F * A) l : insert_by_asc x l ≡ₚ x :: l.
Proof.
  induction l as [|y l IH]; simpl; [done|].
  destruct (y.1 <? x.1)%num; [|done]. by rewrite IH, Permutation_swap.
Qed.

Lemma sort_by_asc_perm (l : list (F * A)) : sort_by_asc l ≡ₚ l.
Proof.
  induction l as [|x l IH]; simpl; [done|]. by rewrite insert_by_asc_perm, IH.
Qed.
End SortPerm.

Section SortedByField.
Context {F : Type} `{Numeric F}.

(** The rows come back paired with the keys read from them. *)
Lemma sorted_by_field_inv (field : string) (reverse : bool)
    (pages rows : list (pydict F)) :
  sorted_by_field field reverse pages = Some rows →
  ∃ keyed : list (F * pydict F),
    rows = keyed.*2
    ∧ keyed.*2 ≡ₚ pages
    ∧ Forall (λ kp, get_float kp.2 field = Some kp.1) keyed
    ∧ ∃ ks, keyed = (if reverse then sort_by_desc (zip ks pages)
                     else sort_by_asc (zip ks pages)).
Proof.
  unfold sorted_by_field. intros (ks & Hks & [= <-])%bind_Some.
  pose proof (length_mapM _ _ _ Hks) as Hlen.
  apply mapM_Some_1 in Hks.
  assert (Forall (λ kp : F * pydict F, get_float kp.2 field = Some kp.1)
                 (zip ks pages)) as Hzip.
  { clear Hlen. induction Hks; simpl; by constructor. }
  assert ((zip ks pages).*2 = pages) as Hsnd by (apply snd_zip; lia).
  eexists. split; [done|]. destruct reverse.
  - split; [by rewrite sort_by_desc_perm, Hsnd|].
    split; [by rewrite sort_by_desc_perm|by exists ks].
  - split; [by rewrite sort_by_asc_perm, Hsnd|].
    split; [by rewrite sort_by_asc_perm|by exists ks].
Qed.

Lemma sorted_by_field_perm (field : string) (reverse : bool)
    (pages rows : list (pydict F)) :
  sorted_by_field field reverse pages = Some rows → rows ≡ₚ pages.
Proof. intros (keyed & -> & Hperm & _)%sorted_by_field_inv. done. Qed.

Lemma sorted_by_field_is_Some (field : string) (reverse : bool)
    (pages : list (pydict F)) :
  is_Some (sorted_by_field field reverse pages)
  ↔ Forall (λ p, is_Some (get_float p field)) pages.
Proof.
  unfold sorted_by_field. split.
  - intros [x (xs & Hxs & _)%bind_Some]. apply mk_is_Some in Hxs.
    by apply (mapM_is_Some_1 (λ p, get_float p field)) in Hxs.
  - intros [xs ->]%(mapM_is_Some_2 (λ p, get_float p field)). by eexists.
Qed.
End SortedByField.

(** Over the reals the keys are totally ordered and the sorts sort. *)
Definition field_ge (field : string) (p q : pydict R) : Prop :=
  ∃ x y, get_float p field = Some x ∧ get_float q field = Some y ∧ (y <= x)%R.

Definition field_le (field : string) (p q : pydict R) : Prop :=
  ∃ x y, get_float p field = Some x ∧ get_float q field = Some y ∧ (x <= y)%R.

Section SortedExact.
Context {A : Type}.

Definition by_key_ge (a b : R * A) : Prop := (b.1 <= a.1)%R.
Definition by_key_le (a b : R * A) : Prop := (a.1 <= b.1)%R.

Lemma insert_by_desc_sorted (x : R * A) l :
  StronglySorted by_key_ge l → StronglySorted by_key_ge (insert_by_desc x l).
Proof.
  induction 1 as [|y l Hl IH Hy]; simpl; [repeat constructor|].
  cbn [fltb exact]. destruct (Rltb x.1 y.1) eqn:E.
  - apply Rltb_true in E. constructor; [done|].
    rewrite insert_by_desc_perm. constructor; [|done]. unfold by_key_ge. lra.
  - apply Rltb_false in E. constructor; [by constructor|].
    constructor; [done|]. eapply Forall_impl; [exact Hy|].
    unfold by_key_ge. intros z Hz. lra.
Qed.

Lemma sort_by_desc_sorted (l : list (R * A)) : StronglySorted by_key_ge (sort_by_desc l).
Proof.
  induction l as [|x l IH]; simpl; [constructor|]. by apply insert_by_desc_sorted.
Qed.

Lemma insert_by_asc_sorted (x : R * A) l :
  StronglySorted by_key_le l → StronglySorted by_key_le (insert_by_asc x l).
Proof.
  induction 1 as [|y l Hl IH Hy]; simpl; [repeat constructor|].
  cbn [fltb exact]. destruct (Rltb y.1 x.1) eqn:E.
  - apply Rltb_true in E. constructor; [done|].
    rewrite insert_by_asc_perm. constructor; [|done]. unfold by_key_le. lra.
  - apply Rltb_false in E. constructor; [by constructor|].
    constructor; [done|]. eapply Forall_impl; [exact Hy|].
    unfold by_key_le. intros z Hz. lra.
Qed.

Lemma sort_by_asc_sorted (l : list (R * A)) : StronglySorted by_key_le (sort_by_asc l).
Proof.
  induction l as [|x l IH]; simpl; [constructor|]. by apply insert_by_asc_sorted.
Qed.
End SortedExact.

Lemma keyed_sorted_rows (field : string) (rel : R → R → Prop)
    (keyed : list (R * pydict R)) :
  Forall (λ kp, get_float kp.2 field = Some kp.1) keyed →
  StronglySorted (λ a b, rel a.1 b.1) keyed →
  StronglySorted (λ p q, ∃ x y, get_float p field = Some x
                                ∧ get_float q field = Some y ∧ rel x y) keyed.*2.
Proof.
  intros Hkeys Hsorted. induction Hsorted as [|kp keyed Hs IH Hkp]; simpl; [constructor|].
  apply Forall_cons in Hkeys as [Hk Hkeys]. constructor; [by apply IH|].
  rewrite Forall_fmap. rewrite Forall_forall in *. intros kq Hq. simpl.
  exists kp.1, kq.1. split; [done|]. split; [by apply Hkeys|by apply Hkp].
Qed.

Lemma sorted_by_field_desc (field : string) (pages rows : list (pydict R)) :
  sorted_by_field field true pages = Some rows →
  rows ≡ₚ pages ∧ StronglySorted (field_ge field) rows.
Proof.
  intros Hrows. split; [by eapply sorted_by_field_perm|].
  apply sorted_by_field_inv in Hrows as (keyed & -> & _ & Hkeys & ks & Hsort).
  apply (keyed_sorted_rows field (λ x y, (y <= x)%R)); [done|].
  rewrite Hsort. apply sort_by_desc_sorted.
Qed.

Lemma sorted_by_field_asc (field : string) (pages rows : list (pydict R)) :
  sorted_by_field field false pages = Some rows →
  rows ≡ₚ pages ∧ StronglySorted (field_le field) rows.
Proof.
  intros Hrows. split; [by eapply sorted_by_field_perm|].
  apply sorted_by_field_inv in Hrows as (keyed & -> & _ & Hkeys & ks & Hsort).
  apply (keyed_sorted_rows field (λ x y, (x <= y)%R)); [done|].
  rewrite Hsort. apply sort_by_asc_sorted.
Qed.

(** ** The popularity snapshot (_top, build_popularity_snapshot) *)

Module TopExample.
Definition a : pydict R :=
  <["url" := VStr "/a"]> (<["gsc_clicks" := VNum 3%R]> ∅).
Definition b : pydict R :=
  <["url" := VStr "/b"]> (<["gsc_clicks" := VNum 7%R]> ∅).

Definition entry (url : string) (clicks : R) : pydict R :=
  <["ga4_conversions" := VNum (fround 2 f0)]>
  (<["ga4_sessions" := VNum (fround 2 f0)]>
  (<["gsc_clicks" := VNum (fround 2 clicks)]>
  (<["gsc_clicks" := VNum (fround 4 clicks)]>
  {[ "url" := VStr url ]}))).

Lemma top_one : _top [a; b] "gsc_clicks" 1 = Some [entry "/b" 7%R].
Proof.
  unfold _top, sorted_by_field.
  change (mapM (λ p, get_float p "gsc_clicks") [a; b]) with (Some [3%R; 7%R]).
  cbn [mbind option_bind zip zip_with sort_by_desc insert_by_desc fst].
  cbn [fltb exact]. rewrite (proj2 (Rltb_true 3 7)) by lra.
  reflexivity.
Qed.
End TopExample.

(** X2: over exact arithmetic, the list [_top] returns is built, entry by
    entry, from the first rows ([rows[:top_n]]) of a reordering of the
    merged pages into descending order of the field; for [top_n >= 0] it has
    [min(top_n, len(merged_pages))] entries, and for a negative [top_n] the
    [-top_n] lowest pages are left out instead. *)
Theorem top_pages_ranked (merged_pages : list (pydict R)) (field : string)
    (top_n : Z) (result : list (pydict R)) :
  _top merged_pages field top_n = Some result →
  ∃ rows,
    rows ≡ₚ merged_pages
    ∧ StronglySorted (field_ge field) rows
    ∧ Forall2 (λ row entry, top_entry field row = Some entry)
              (py_slice_to top_n rows) result
    ∧ length result
      = if (0 <=? top_n)%Z then (Z.to_nat top_n `min` length merged_pages)%nat
        else (length merged_pages - Z.to_nat (- top_n))%nat.
Proof.
  unfold _top. intros (rows & Hrows & Hres)%bind_Some.
  destruct (sorted_by_field_desc _ _ _ Hrows) as [Hperm Hsorted].
  apply mapM_Some_1 in Hres. exists rows. repeat split; try done.
  rewrite <- (Forall2_length _ _ _ Hres), py_slice_to_length.
  by rewrite (Permutation_length Hperm).
Qed.

Lemma top_pages_ranked_witness :
  ∃ rows,
    rows ≡ₚ [TopExample.a; TopExample.b]
    ∧ StronglySorted (field_ge "gsc_clicks") rows
    ∧ Forall2 (λ row entry, top_entry "gsc_clicks" row = Some entry)
              (py_slice_to 1 rows) [TopExample.entry "/b" 7%R]
    ∧ length [TopExample.entry "/b" 7%R] = 1%nat.
Proof.
  apply (top_pages_ranked [TopExample.a; TopExample.b] "gsc_clicks" 1).
  apply TopExample.top_one.
Defined.

(** ** The trend report (build_trend_report) *)

(** The pages a list of movers is drawn from, ranked by [rel], and the
    entries packed from the first [top_n] of them. *)
Definition ranked_movers (rel : string → pydict R → pydict R → Prop)
    (field : string) (top_n : Z) (merged_pages result : list (pydict R)) : Prop :=
  ∃ rows,
    rows ≡ₚ filter (λ p, has_number field p) merged_pages
    ∧ StronglySorted (rel field) rows
    ∧ Forall2 (λ row entry, pack_entry field row = Some entry)
              (py_slice_to top_n rows) result.

Lemma movers_ranked (field : string) (reverse : bool) (top_n : Z)
    (merged_pages rows result : list (pydict R)) :
  movers field reverse top_n merged_pages = Some rows →
  _pack rows field = Some result →
  ranked_movers (if reverse then field_ge else field_le) field top_n
                merged_pages result.
Proof.
  unfold movers, _pack. intros (sorted & Hsorted & [= <-])%bind_Some Hpack.
  apply mapM_Some_1 in Hpack. exists sorted. destruct reverse.
  - destruct (sorted_by_field_desc _ _ _ Hsorted). done.
  - destruct (sorted_by_field_asc _ _ _ Hsorted). done.
Qed.

Lemma ranked_movers_length rel field top_n (merged_pages result : list (pydict R)) :
  ranked_movers rel field top_n merged_pages result →
  length result
  = length (py_slice_to top_n (filter (λ p, has_number field p) merged_pages)).
Proof.
  intros (rows & Hperm & _ & Hres). rewrite <- (Forall2_length _ _ _ Hres).
  rewrite !py_slice_to_length. by rewrite (Permutation_length Hperm).
Qed.

Lemma mapM_elem {A B} (f : A → option B) (l : list A) (k : list B) (y : B) :
  mapM f l = Some k → y ∈ k → ∃ x, x ∈ l ∧ f x = Some y.
Proof.
  intros Hk%mapM_Some_1 [i Hi]%list_elem_of_lookup.
  destruct (Forall2_lookup_r _ _ _ _ _ Hk Hi) as (x & Hx & Hf).
  exists x. split; [|done]. apply list_elem_of_lookup. by exists i.
Qed.

Lemma pack_entry_delta {F : Type} `{Numeric F} (field : string) (row entry : pydict F) :
  field ≠ "gsc_clicks" → field ≠ "ga4_sessions" →
  pack_entry field row = Some entry →
  ∃ delta, get_float row field = Some delta
           ∧ entry !! field = Some (VNum (fround 4 delta)).
Proof.
  intros H1 H2. unfold pack_entry.
  intros (url & _ & (delta & Hdelta & (c & _ & (s & _ & [= <-])%bind_Some)%bind_Some)
            %bind_Some)%bind_Some.
  exists delta. split; [done|].
  rewrite !lookup_insert_ne by done. by rewrite lookup_insert_eq.
Qed.

Module TrendExample.
Definition up : pydict R :=
  <["url" := VStr "/up"]> (<["gsc_clicks_delta_pct" := VNum (1/2)%R]> ∅).
Definition fresh : pydict R :=
  <["url" := VStr "/new"]> (<["gsc_clicks_delta_pct" := VNone]> ∅).

Definition entry : pydict R :=
  <["ga4_sessions" := VNum (fround 2 f0)]>
  (<["gsc_clicks" := VNum (fround 2 f0)]>
  (<["gsc_clicks_delta_pct" := VNum (fround 4 (1/2)%R)]>
  {[ "url" := VStr "/up" ]})).

Definition report : TrendReport R :=
  {| click_gainers := [entry]; click_decliners := [entry];
     session_gainers := []; session_decliners := [] |}.

Lemma trend_report_ok : build_trend_report [up; fresh] 5 = Some report.
Proof. reflexivity. Qed.
End TrendExample.

(** X3: over exact arithmetic, each list of [build_trend_report] is packed
    from the first [top_n] of the pages whose delta is a number (a page
    whose delta is [None], for want of previous data, is in none of them),
    gainers in descending and decliners in ascending order of the delta;
    gainers and decliners are drawn from the same pages whatever the sign of
    their delta, so the two lists are equally long, and the delta of every
    entry is a number. *)
Theorem trend_report_movers (merged_pages : list (pydict R)) (top_n : Z)
    (report : TrendReport R) :
  build_trend_report merged_pages top_n = Some report →
  ranked_movers field_ge "gsc_clicks_delta_pct" top_n merged_pages
                (click_gainers report)
  ∧ ranked_movers field_le "gsc_clicks_delta_pct" top_n merged_pages
                  (click_decliners report)
  ∧ ranked_movers field_ge "ga4_sessions_delta_pct" top_n merged_pages
                  (session_gainers report)
  ∧ ranked_movers field_le "ga4_sessions_delta_pct" top_n merged_pages
                  (session_decliners report)
  ∧ length (click_gainers report) = length (click_decliners report)
  ∧ length (session_gainers report) = length (session_decliners report)
  ∧ (∀ entry, entry ∈ click_gainers report ++ click_decliners report →
       ∃ x, entry !! "gsc_clicks_delta_pct" = Some (VNum x))
  ∧ (∀ entry, entry ∈ session_gainers report ++ session_decliners report →
       ∃ x, entry !! "ga4_sessions_delta_pct" = Some (VNum x)).
Proof.
  unfold build_trend_report. intros Hrep.
  apply bind_Some in Hrep as (cg & Hcg & Hrep).
  apply bind_Some in Hrep as (cd & Hcd & Hrep).
  apply bind_Some in Hrep as (sg & Hsg & Hrep).
  apply bind_Some in Hrep as (sd & Hsd & Hrep).
  apply bind_Some in Hrep as (cg' & Hcg' & Hrep).
  apply bind_Some in Hrep as (cd' & Hcd' & Hrep).
  apply bind_Some in Hrep as (sg' & Hsg' & Hrep).
  apply bind_Some in Hrep as (sd' & Hsd' & [= <-]). simpl.
  pose proof (movers_ranked _ _ _ _ _ _ Hcg Hcg') as H1.
  pose proof (movers_ranked _ _ _ _ _ _ Hcd Hcd') as H2.
  pose proof (movers_ranked _ _ _ _ _ _ Hsg Hsg') as H3.
  pose proof (movers_ranked _ _ _ _ _ _ Hsd Hsd') as H4.
  cbv iota in H1, H2, H3, H4.
  do 4 (split; [done|]).
  split; [by rewrite (ranked_movers_length _ _ _ _ _ H1),
                     (ranked_movers_length _ _ _ _ _ H2)|].
  split; [by rewrite (ranked_movers_length _ _ _ _ _ H3),
                     (ranked_movers_length _ _ _ _ _ H4)|].
  split.
  - intros entry [Hin|Hin]%elem_of_app.
    + destruct (mapM_elem _ _ _ _ Hcg' Hin) as (row & _ & Hrow).
      apply pack_entry_delta in Hrow as (x & _ & Hx); [by eexists|done..].
    + destruct (mapM_elem _ _ _ _ Hcd' Hin) as (row & _ & Hrow).
      apply pack_entry_delta in Hrow as (x & _ & Hx); [by eexists|done..].
  - intros entry [Hin|Hin]%elem_of_app.
    + destruct (mapM_elem _ _ _ _ Hsg' Hin) as (row & _ & Hrow).
      apply pack_entry_delta in Hrow as (x & _ & Hx); [by eexists|done..].
    + destruct (mapM_elem _ _ _ _ Hsd' Hin) as (row & _ & Hrow).
      apply pack_entry_delta in Hrow as (x & _ & Hx); [by eexists|done..].
Qed.

Lemma trend_report_movers_witness :
  ranked_movers field_ge "gsc_clicks_delta_pct" 5 [TrendExample.up; TrendExample.fresh]
                (click_gainers TrendExample.report)
  ∧ ranked_movers field_le "gsc_clicks_delta_pct" 5
                  [TrendExample.up; TrendExample.fresh]
                  (click_decliners TrendExample.report)
  ∧ ranked_movers field_ge "ga4_sessions_delta_pct" 5
                  [TrendExample.up; TrendExample.fresh]
                  (session_gainers TrendExample.report)
  ∧ ranked_movers field_le "ga4_sessions_delta_pct" 5
                  [TrendExample.up; TrendExample.fresh]
                  (session_decliners TrendExample.report)
  ∧ length (click_gainers TrendExample.report)
    = length (click_decliners TrendExample.report)
  ∧ length (session_gainers TrendExample.report)
    = length (session_decliners TrendExample.report)
  ∧ (∀ entry, entry ∈ click_gainers TrendExample.report
                      ++ click_decliners TrendExample.report →
       ∃ x, entry !! "gsc_clicks_delta_pct" = Some (VNum x))
  ∧ (∀ entry, entry ∈ session_gainers TrendExample.report
                      ++ session_decliners TrendExample.report →
       ∃ x, entry !! "ga4_sessions_delta_pct" = Some (VNum x)).
Proof.
  apply (trend_report_movers [TrendExample.up; TrendExample.fresh] 5).
  apply TrendExample.trend_report_ok.
Defined.

(** ** The data-quality report (build_data_quality_report) *)

Section FilterCounts.
Context {A : Type} (P Q R : A → Prop).
Context `{∀ x, Decision (P x), ∀ x, Decision (Q x), ∀ x, Decision (R x)}.

Lemma length_filter_le (l : list A) : length (filter P l) ≤ length l.
Proof.
  induction l as [|x l IH]; [done|]. rewrite filter_cons.
  destruct (decide (P x)); simpl; lia.
Qed.

(** Two disjoint parts of a selection. *)
Lemma length_filter_parts (l : list A) :
  Forall (λ x, (Q x → P x) ∧ (R x → P x) ∧ ¬ (Q x ∧ R x)) l →
  length (filter Q l) + length (filter R l) ≤ length (filter P l).
Proof.
  induction 1 as [|x l (HQ & HR & HQR) _ IH]; [done|]. rewrite !filter_cons.
  destruct (decide (P x)), (decide (Q x)), (decide (R x)); simpl; tauto || lia.
Qed.

(** Two disjoint parts that cover the selection. *)
Lemma length_filter_partition (l : list A) :
  Forall (λ x, (Q x → P x) ∧ (R x → P x) ∧ ¬ (Q x ∧ R x) ∧ (P x → Q x ∨ R x)) l →
  length (filter P l) = length (filter Q l) + length (filter R l).
Proof.
  induction 1 as [|x l (HQ & HR & HQR & HP) _ IH]; [done|]. rewrite !filter_cons.
  destruct (decide (P x)), (decide (Q x)), (decide (R x)); simpl; tauto || lia.
Qed.
End FilterCounts.

Section QualityFacts.
Context {F : Type} `{NumericLaws F}.

(** The value is comparable with zero, as every number but [nan] is. *)
Definition compared_with_zero (field : string) (p : pydict F) : Prop :=
  ∀ x, get_float p field = Some x →
       (x >? f0)%num = true ∨ (x <=? f0)%num = true.

Lemma and_then_true (a b : option bool) :
  and_then a b = Some true ↔ a = Some true ∧ b = Some true.
Proof.
  unfold and_then. destruct a as [[]|]; simpl; [|split; [done|by intros [? _]]..].
  split; [done|by intros [_ ?]].
Qed.

Lemma field_positive_true (field : string) (p : pydict F) :
  field_positive field p = Some true
  ↔ ∃ x, get_float p field = Some x ∧ (x >? f0)%num = true.
Proof.
  unfold field_positive. split.
  - intros (x & Hx & Hpos)%bind_Some. exists x. split; [done|]. congruence.
  - intros (x & -> & Hpos). simpl. by rewrite Hpos.
Qed.

Lemma field_nonpositive_true (field : string) (p : pydict F) :
  field_nonpositive field p = Some true
  ↔ ∃ x, get_float p field = Some x ∧ (x <=? f0)%num = true.
Proof.
  unfold field_nonpositive. split.
  - intros (x & Hx & Hpos)%bind_Some. exists x. split; [done|]. congruence.
  - intros (x & -> & Hpos). simpl. by rewrite Hpos.
Qed.

(** The selection, its part with the other source and its part without. *)
Lemma source_counts (field other : string) (pages : list (pydict F)) :
  let with_source := filter (λ p, field_positive field p = Some true) pages in
  let with_both := filter (λ p, and_then (field_positive field p)
                                         (field_positive other p) = Some true) pages in
  let only := filter (λ p, and_then (field_positive field p)
                                    (field_nonpositive other p) = Some true) pages in
  length with_both + length only ≤ length with_source
  ∧ (Forall (λ p, is_Some (get_float p other) ∧ compared_with_zero other p) pages →
     length with_source = length with_both + length only).
Proof.
  cbv zeta. split.
  - apply length_filter_parts. apply Forall_forall. intros p _.
    rewrite !and_then_true, !field_positive_true, !field_nonpositive_true.
    split; [tauto|]. split; [tauto|].
    intros [[_ (x & Hx & Hpos)] [_ (y & Hy & Hneg)]].
    rewrite Hx in Hy. injection Hy as <-. apply lt_not_le in Hpos. congruence.
  - intros Hpages. apply length_filter_partition.
    eapply Forall_impl; [exact Hpages|]. intros p [[x Hx] Hcmp].
    rewrite !and_then_true, !field_positive_true, !field_nonpositive_true.
    split; [tauto|]. split; [tauto|]. split.
    + intros [[_ (x1 & Hx1 & Hpos)] [_ (y & Hy & Hneg)]].
      rewrite Hx1 in Hy. injection Hy as <-. apply lt_not_le in Hpos. congruence.
    + intros Hfield. destruct (Hcmp x Hx) as [Hpos|Hneg].
      * left. split; [done|]. by exists x.
      * right. split; [done|]. by exists x.
Qed.
End QualityFacts.

Module QualityExample.
#[local] Open Scope float_scope.

Definition searched : pydict float :=
  <["url" := VStr "/a"]> (<["gsc_impressions" := VNum 120]> ∅).
Definition visited : pydict float :=
  <["url" := VStr "/b"]> (<["ga4_sessions" := VNum 30]> ∅).
Definition matched : pydict float :=
  <["url" := VStr "/c"]>
  (<["gsc_impressions" := VNum 80]> (<["ga4_sessions" := VNum 4]> ∅)).

Definition pages : list (pydict float) := [searched; visited; matched].

Definition report : DataQualityReport float :=
  {| total_merged_pages := 3; pages_with_gsc := 2; pages_with_ga4 := 2;
     pages_with_both := 1; gsc_only_pages := 1; ga4_only_pages := 1;
     top_gsc_only_pages :=
       [ <["gsc_clicks" := VNum 0]>
         (<["gsc_impressions" := VNum 120]> {[ "url" := VStr "/a" ]}) ];
     top_ga4_only_pages :=
       [ <["ga4_conversions" := VNum 0]>
         (<["ga4_sessions" := VNum 30]> {[ "url" := VStr "/b" ]}) ] |}.

Lemma quality_report_ok : build_data_quality_report pages 20 = Some report.
Proof. vm_compute. reflexivity. Qed.
End QualityExample.

(** X4: in the counts of [build_data_quality_report], the pages with both
    sources and the pages of one source only are disjoint parts of the pages
    with that source, and they make up all of them when the metric of the
    other source is comparable with zero on every page (any number but
    [nan]); no count exceeds the number of merged pages, and each list of
    unmatched pages holds the first [top_n_unmatched] of its count. *)
Theorem data_quality_counts {F : Type} `{NumericLaws F}
    (merged_pages : list (pydict F)) (top_n_unmatched : Z)
    (report : DataQualityReport F) :
  build_data_quality_report merged_pages top_n_unmatched = Some report →
  total_merged_pages report = length merged_pages
  ∧ pages_with_both report + gsc_only_pages report ≤ pages_with_gsc report
  ∧ pages_with_both report + ga4_only_pages report ≤ pages_with_ga4 report
  ∧ pages_with_gsc report ≤ length merged_pages
  ∧ pages_with_ga4 report ≤ length merged_pages
  ∧ (Forall (compared_with_zero "ga4_sessions") merged_pages →
     pages_with_gsc report = pages_with_both report + gsc_only_pages report)
  ∧ (Forall (compared_with_zero "gsc_impressions") merged_pages →
     pages_with_ga4 report = pages_with_both report + ga4_only_pages report)
  ∧ length (top_gsc_only_pages report)
    = (if (0 <=? top_n_unmatched)%Z then Z.to_nat top_n_unmatched `min` gsc_only_pages report
       else gsc_only_pages report - Z.to_nat (- top_n_unmatched))%nat
  ∧ length (top_ga4_only_pages report)
    = (if (0 <=? top_n_unmatched)%Z then Z.to_nat top_n_unmatched `min` ga4_only_pages report
       else ga4_only_pages report - Z.to_nat (- top_n_unmatched))%nat.
Proof.
  unfold build_data_quality_report. intros Hrep.
  apply bind_Some in Hrep as (with_gsc & Hgsc & Hrep).
  apply bind_Some in Hrep as (with_ga4 & Hga4 & Hrep).
  apply bind_Some in Hrep as (with_both & Hboth & Hrep).
  apply bind_Some in Hrep as (gsc_only & Hgo & Hrep).
  apply bind_Some in Hrep as (ga4_only & Hao & Hrep).
  apply bind_Some in Hrep as (gsc_top & Hgt & Hrep).
  apply bind_Some in Hrep as (ga4_top & Hat & Hrep).
  apply bind_Some in Hrep as (top_gsc & Htg & Hrep).
  apply bind_Some in Hrep as (top_ga4 & Hta & [= <-]). simpl.
  assert (Forall (λ p, is_Some (get_float p "gsc_impressions")) merged_pages) as Himp.
  { apply mk_is_Some, filterM_is_Some in Hgsc.
    eapply Forall_impl; [exact Hgsc|]. intros p [b (x & Hx & _)%bind_Some]. by eexists. }
  assert (Forall (λ p, is_Some (get_float p "ga4_sessions")) merged_pages) as Hses.
  { apply mk_is_Some, filterM_is_Some in Hga4.
    eapply Forall_impl; [exact Hga4|]. intros p [b (x & Hx & _)%bind_Some]. by eexists. }
  apply filterM_filter in Hgsc, Hga4, Hboth, Hgo, Hao.
  assert (with_both
          = filter (λ p, and_then (field_positive "ga4_sessions" p)
                                  (field_positive "gsc_impressions" p) = Some true)
                   merged_pages) as Hboth'.
  { rewrite Hboth. apply list_filter_iff. intros p. rewrite !and_then_true. tauto. }
  destruct (source_counts "gsc_impressions" "ga4_sessions" merged_pages) as [Hle1 Heq1].
  destruct (source_counts "ga4_sessions" "gsc_impressions" merged_pages) as [Hle2 Heq2].
  cbv zeta in *. rewrite <- Hgsc, <- Hboth, <- Hgo in Hle1, Heq1.
  rewrite <- Hga4, <- Hboth', <- Hao in Hle2, Heq2.
  split; [done|]. split; [done|]. split; [done|].
  split; [rewrite Hgsc; apply length_filter_le|].
  split; [rewrite Hga4; apply length_filter_le|].
  split.
  { intros Hcmp. apply Heq1. apply Forall_and. done. }
  split.
  { intros Hcmp. apply Heq2. apply Forall_and. done. }
  apply length_mapM in Htg, Hta. rewrite <- Htg, <- Hta.
  rewrite !py_slice_to_length.
  by rewrite (Permutation_length (sorted_by_field_perm _ _ _ _ Hgt)),
             (Permutation_length (sorted_by_field_perm _ _ _ _ Hat)).
Qed.

Lemma data_quality_counts_witness :
  let report := QualityExample.report in
  let merged_pages := QualityExample.pages in
  total_merged_pages report = length merged_pages
  ∧ pages_with_both report + gsc_only_pages report ≤ pages_with_gsc report
  ∧ pages_with_both report + ga4_only_pages report ≤ pages_with_ga4 report
  ∧ pages_with_gsc report ≤ length merged_pages
  ∧ pages_with_ga4 report ≤ length merged_pages
  ∧ (Forall (compared_with_zero "ga4_sessions") merged_pages →
     pages_with_gsc report = pages_with_both report + gsc_only_pages report)
  ∧ (Forall (compared_with_zero "gsc_impressions") merged_pages →
     pages_with_ga4 report = pages_with_both report + ga4_only_pages report)
  ∧ length (top_gsc_only_pages report)
    = (if (0 <=? 20)%Z then Z.to_nat 20 `min` gsc_only_pages report
       else gsc_only_pages report - Z.to_nat (- 20))%nat
  ∧ length (top_ga4_only_pages report)
    = (if (0 <=? 20)%Z then Z.to_nat 20 `min` ga4_only_pages report
       else ga4_only_pages report - Z.to_nat (- 20))%nat.
Proof.
  apply (data_quality_counts QualityExample.pages 20 QualityExample.report).
  apply QualityExample.quality_report_ok.
Defined.

(** ** The scorer never raises on numbers (score_page) *)

(** The metrics [score_page] reads with [float(page.get(..., 0.0))]. *)
Definition scoring_fields : list string :=
  ["gsc_impressions"; "gsc_clicks"; "gsc_ctr"; "gsc_position"; "ga4_sessions";
   "ga4_conversion_rate"; "ga4_engagement_rate"].

Section ScorerTotal.
Context {F : Type} `{NumericLaws F} `{!Log10 F}.
(** The floor [1e-6] of the two divisors is positive. *)
Hypothesis micro_positive : (f0 <? lit 1 1000000)%num = true.

Lemma py_max_floor_nonzero (target : F) :
  (py_max target (lit 1 1000000) ==? f0)%num = false.
Proof.
  unfold py_max. destruct (target <? lit 1 1000000)%num eqn:E.
  - by apply gt_not_zero.
  - destruct (target ==? f0)%num eqn:E0; [|done].
    apply eq_le in E0. pose proof (le_lt_trans _ _ _ E0 micro_positive). congruence.
Qed.

Lemma ctr_score_total (settings : Settings F) (ctr impressions : F) :
  is_Some (ctr_score settings ctr impressions).
Proof. unfold ctr_score, py_div. rewrite py_max_floor_nonzero. by eexists. Qed.

Lemma cr_score_total (settings : Settings F) (conversion_rate sessions : F) :
  is_Some (cr_score settings conversion_rate sessions).
Proof. unfold cr_score, py_div. rewrite py_max_floor_nonzero. by eexists. Qed.

Lemma accumulate_is_Some (settings : Settings F)
    (impressions clicks ctr position sessions conversion_rate : F)
    (clicks_delta sessions_delta : option (pyval F)) :
  is_Some (accumulate settings impressions clicks ctr position sessions
             conversion_rate clicks_delta sessions_delta).
Proof.
  unfold accumulate.
  destruct (ctr_score_total settings ctr impressions) as [s1 ->].
  destruct (cr_score_total settings conversion_rate sessions) as [s2 ->].
  destruct (ctr_rule _ _ _); cbn [mbind option_bind];
    (destruct (cr_rule _ _ _); cbn [mbind option_bind]); by eexists.
Qed.

Lemma score_page_is_Some (page : pydict F) (settings : Settings F) :
  (∀ k, k ∈ scoring_fields → is_Some (get_float page k)) →
  is_Some (score_page page settings).
Proof.
  intros Hnum. unfold score_page.
  repeat match goal with
  | |- context [get_float page ?k] =>
      destruct (Hnum k ltac:(unfold scoring_fields; set_solver)) as [? ->];
      cbn [mbind option_bind]
  end.
  match goal with
  | |- context [accumulate ?s ?i ?c ?t ?p ?ss ?cr ?cd ?sd] =>
      destruct (accumulate_is_Some s i c t p ss cr cd sd) as [a ->]
  end.
  by eexists.
Qed.

Lemma evidence_of_is_Some (page : pydict F) :
  (∀ k, k ∈ scoring_fields → is_Some (get_float page k)) →
  is_Some (evidence_of page).
Proof.
  intros Hnum. unfold evidence_of.
  repeat match goal with
  | |- context [get_float page ?k] =>
      destruct (Hnum k ltac:(unfold scoring_fields; set_solver)) as [? ->];
      cbn [mbind option_bind]
  end.
  by eexists.
Qed.

Lemma collect_items_is_Some (merged_pages : list (pydict F)) (settings : Settings F) :
  Forall (λ page, is_Some (page !! "url")
                  ∧ ∀ k, k ∈ scoring_fields → is_Some (get_float page k))
         merged_pages →
  is_Some (collect_items merged_pages settings).
Proof.
  induction 1 as [|page pages [[url Hurl] Hnum] _ [items IH]]; simpl; [by eexists|].
  destruct (score_page_is_Some page settings Hnum) as [result ->]. simpl.
  destruct (score result <=? f0)%num; [rewrite IH; by eexists|].
  unfold action_item. rewrite Hurl. simpl.
  destruct (evidence_of_is_Some page Hnum) as [ev ->]. simpl.
  rewrite IH. by eexists.
Qed.
End ScorerTotal.

Lemma score_page_reads {F : Type} `{Numeric F} `{!Log10 F}
    (page : pydict F) (settings : Settings F) :
  is_Some (score_page page settings) →
  ∀ k, k ∈ scoring_fields → is_Some (get_float page k).
Proof.
  intros [result Hres] k Hk. unfold score_page in Hres.
  apply bind_Some in Hres as (x1 & H1 & Hres).
  apply bind_Some in Hres as (x2 & H2 & Hres).
  apply bind_Some in Hres as (x3 & H3 & Hres).
  apply bind_Some in Hres as (x4 & H4 & Hres).
  apply bind_Some in Hres as (x5 & H5 & Hres).
  apply bind_Some in Hres as (x6 & H6 & Hres).
  apply bind_Some in Hres as (x7 & H7 & Hres).
  unfold scoring_fields in Hk.
  repeat (apply elem_of_cons in Hk as [->|Hk]; [by eexists|]).
  by apply elem_of_nil in Hk.
Qed.

(** X5: in every arithmetic obeying the order laws in which [1e-6] is
    positive (binary64 and exact), [score_page] raises exactly when
    [float(page.get(metric, 0.0))] raises for one of the seven metrics it
    reads; the two gap divisions never fail, whatever the targets of the settings are
    (zero and negative ones included), and a delta that is [None] or
    missing is accepted. *)
Theorem score_page_never_divides_by_zero {F : Type} `{NumericLaws F} `{!Log10 F}
    (page : pydict F) (settings : Settings F) :
  (f0 <? lit 1 1000000)%num = true →
  is_Some (score_page page settings)
  ↔ ∀ k, k ∈ scoring_fields → is_Some (get_float page k).
Proof.
  intros Hmicro. split; [apply score_page_reads|by apply score_page_is_Some].
Qed.

Module ScorerExample.
#[local] Open Scope float_scope.
Definition page : pydict float :=
  <["url" := VStr "/a"]>
  (<["gsc_impressions" := VNum 900]>
  (<["gsc_ctr" := VNum 0.01]>
  (<["gsc_clicks_delta_pct" := VNone]> ∅))).

(** Targets of zero: the divisors fall back on [1e-6]. *)
Definition settings : Settings float :=
  {| min_impressions_for_ctr_action := 200;
     min_sessions_for_conversion_action := 50;
     target_ctr := 0; target_conversion_rate := 0;
     default_max_action_items := 30 |}.
End ScorerExample.

Lemma score_page_never_divides_by_zero_witness :
  is_Some (@score_page float binary64 (λ x, x)
             ScorerExample.page ScorerExample.settings)
  ↔ ∀ k, k ∈ scoring_fields → is_Some (get_float ScorerExample.page k).
Proof.
  apply (@score_page_never_divides_by_zero float binary64 binary64_laws (λ x, x)
           ScorerExample.page ScorerExample.settings).
  vm_compute. reflexivity.
Defined.

(** ** The merged records feed every report *)

Section Pipeline.
Context {F : Type} `{NumericLaws F}.

(** A record as the merger leaves it: a URL, and numbers under every name
    but the four deltas, which may be [None]. *)
Definition merged_page (p : pydict F) : Prop :=
  is_Some (p !! "url")
  ∧ ∀ k, k ≠ "url" → k ∉ delta_names → is_Some (get_float p k).

Lemma merge_row_merged_page (gc ac gp ap : gmap string (pydict F)) url row :
  metric_aggregate gc → metric_aggregate ac →
  metric_aggregate gp → metric_aggregate ap →
  merge_row gc ac gp ap url = Some row → merged_page row.
Proof.
  intros Hgc Hac Hgp Hap Hrow. split.
  - destruct (merge_row_record gc ac gp ap url row Hgc Hac Hrow) as [Hurl _].
    by eexists.
  - intros k Hk Hdelta.
    destruct (merge_row_inv _ _ _ _ _ _ Hrow) as (r1 & r2 & H1 & H2 & Hsame).
    assert (numeric_metrics r2) as Hnum.
    { eapply add_previous_ga4_numeric; [done|].
      eapply add_previous_gsc_numeric; [done|].
      apply current_row_numeric; by apply metric_aggregate_entry. }
    unfold get_float. rewrite (Hsame k Hdelta).
    by apply (numeric_metrics_get_float r2 k Hnum).
Qed.

Lemma merged_pages_ok (gc ac gp ap : option (gmap string (pydict F))) rows :
  metric_aggregate (default ∅ gc) → metric_aggregate (default ∅ ac) →
  metric_aggregate (default ∅ gp) → metric_aggregate (default ∅ ap) →
  merge_page_metrics gc ac gp ap = Some rows → Forall merged_page rows.
Proof.
  intros Hgc Hac Hgp Hap Hrows%merge_page_metrics_rows.
  induction Hrows as [|url row urls rows Hrow _ IH]; constructor; [|done].
  exact (merge_row_merged_page _ _ _ _ _ _ Hgc Hac Hgp Hap Hrow).
Qed.

Lemma merged_page_fields (fields : list string) (p : pydict F) :
  merged_page p → "url" ∉ fields → (∀ k, k ∈ fields → k ∉ delta_names) →
  ∀ k, k ∈ fields → is_Some (get_float p k).
Proof. intros [_ Hp] Hurl Hdelta k Hk. apply Hp; [set_solver|by apply Hdelta]. Qed.

Lemma merged_page_field (p : pydict F) (k : string) :
  merged_page p → k ≠ "url" → k ∉ delta_names → is_Some (get_float p k).
Proof. intros [_ Hp]. apply Hp. Qed.

Lemma Forall_py_slice_to {A} (P : A → Prop) (n : Z) (l : list A) :
  Forall P l → Forall P (py_slice_to n l).
Proof.
  intros Hl. destruct (py_slice_to_prefix n l) as [k Hk].
  rewrite Hk in Hl. by apply Forall_app in Hl as [? _].
Qed.

Lemma sorted_rows_is_Some (field : string) (reverse : bool) (P : pydict F → Prop)
    (pages : list (pydict F)) :
  Forall P pages → Forall (λ p, is_Some (get_float p field)) pages →
  ∃ rows, sorted_by_field field reverse pages = Some rows ∧ Forall P rows.
Proof.
  intros HP Hfield.
  destruct (proj2 (sorted_by_field_is_Some field reverse pages) Hfield) as [rows Hrows].
  exists rows. split; [done|].
  by rewrite (sorted_by_field_perm _ _ _ _ Hrows).
Qed.

Lemma _top_is_Some (pages : list (pydict F)) (field : string) (top_n : Z) :
  Forall merged_page pages → field ≠ "url" → field ∉ delta_names →
  is_Some (_top pages field top_n).
Proof.
  intros Hpages Hurl Hdelta. unfold _top.
  destruct (sorted_rows_is_Some field true merged_page pages Hpages)
    as (rows & -> & Hrows).
  { eapply Forall_impl; [exact Hpages|]. intros p Hp. by apply merged_page_field. }
  cbn [mbind option_bind]. apply mapM_is_Some_2.
  apply Forall_py_slice_to. eapply Forall_impl; [exact Hrows|].
  intros p [[url Hu] Hp]. unfold compose, top_entry. rewrite Hu. cbn [mbind option_bind].
  destruct (Hp field Hurl Hdelta) as [x1 ->].
  destruct (Hp "gsc_clicks" ltac:(done) ltac:(unfold delta_names; set_solver)) as [x2 ->].
  destruct (Hp "ga4_sessions" ltac:(done) ltac:(unfold delta_names; set_solver))
    as [x3 ->].
  destruct (Hp "ga4_conversions" ltac:(done) ltac:(unfold delta_names; set_solver))
    as [x4 ->].
  by eexists.
Qed.

Lemma build_popularity_snapshot_is_Some (pages : list (pydict F)) (top_n : Z) :
  Forall merged_page pages → is_Some (build_popularity_snapshot pages top_n).
Proof.
  intros Hpages. unfold build_popularity_snapshot.
  destruct (_top_is_Some pages "gsc_clicks" top_n Hpages) as [r1 ->];
    [done|unfold delta_names; set_solver|].
  destruct (_top_is_Some pages "gsc_impressions" top_n Hpages) as [r2 ->];
    [done|unfold delta_names; set_solver|].
  destruct (_top_is_Some pages "ga4_sessions" top_n Hpages) as [r3 ->];
    [done|unfold delta_names; set_solver|].
  destruct (_top_is_Some pages "ga4_conversions" top_n Hpages) as [r4 ->];
    [done|unfold delta_names; set_solver|].
  by eexists.
Qed.

Lemma has_number_get_float (field : string) (p : pydict F) :
  has_number field p = true → is_Some (get_float p field).
Proof.
  unfold has_number, get_float. intros [x Hx]%bool_decide_eq_true.
  destruct (p !! field) as [[]|]; simpl in *; (done || by eexists).
Qed.

Lemma movers_pack_is_Some (field : string) (reverse : bool) (top_n : Z)
    (pages : list (pydict F)) :
  Forall merged_page pages → field ≠ "url" →
  ∃ rows, movers field reverse top_n pages = Some rows
          ∧ is_Some (_pack rows field).
Proof.
  intros Hpages Hurl. unfold movers.
  set (eligible := filter (λ p, has_number field p) pages).
  assert (Forall (λ p, merged_page p ∧ is_Some (get_float p field)) eligible) as Hel.
  { apply Forall_forall. intros p [Hnum Hin]%list_elem_of_filter.
    rewrite Forall_forall in Hpages. split; [by apply Hpages|].
    apply has_number_get_float. by apply Is_true_true. }
  destruct (sorted_rows_is_Some field reverse _ eligible Hel) as (rows & -> & Hrows).
  { eapply Forall_impl; [exact Hel|]. by intros p [_ ?]. }
  cbn [mbind option_bind]. eexists. split; [done|].
  unfold _pack. apply mapM_is_Some_2. apply Forall_py_slice_to.
  eapply Forall_impl; [exact Hrows|].
  intros p [[[url Hu] Hp] [x1 Hx1]]. unfold compose, pack_entry.
  rewrite Hu, Hx1. cbn [mbind option_bind].
  destruct (Hp "gsc_clicks" ltac:(done) ltac:(unfold delta_names; set_solver)) as [x2 ->].
  destruct (Hp "ga4_sessions" ltac:(done) ltac:(unfold delta_names; set_solver))
    as [x3 ->].
  by eexists.
Qed.

Lemma build_trend_report_is_Some (pages : list (pydict F)) (top_n : Z) :
  Forall merged_page pages → is_Some (build_trend_report pages top_n).
Proof.
  intros Hpages. unfold build_trend_report.
  destruct (movers_pack_is_Some "gsc_clicks_delta_pct" true top_n pages Hpages)
    as (r1 & -> & [p1 Hp1]); [done|].
  destruct (movers_pack_is_Some "gsc_clicks_delta_pct" false top_n pages Hpages)
    as (r2 & -> & [p2 Hp2]); [done|].
  destruct (movers_pack_is_Some "ga4_sessions_delta_pct" true top_n pages Hpages)
    as (r3 & -> & [p3 Hp3]); [done|].
  destruct (movers_pack_is_Some "ga4_sessions_delta_pct" false top_n pages Hpages)
    as (r4 & -> & [p4 Hp4]); [done|].
  cbn [mbind option_bind]. rewrite Hp1, Hp2, Hp3, Hp4. by eexists.
Qed.

Lemma filterM_Some_filter {A} (cond : A → option bool) (l : list A) :
  Forall (λ x, is_Some (cond x)) l →
  filterM cond l = Some (filter (λ x, cond x = Some true) l).
Proof.
  intros [r Hr]%filterM_is_Some. rewrite Hr. f_equal. by apply filterM_filter.
Qed.

Lemma build_data_quality_report_is_Some (pages : list (pydict F)) (top_n : Z) :
  Forall merged_page pages → is_Some (build_data_quality_report pages top_n).
Proof.
  intros Hpages. unfold build_data_quality_report.
  assert (∀ p, merged_page p →
               is_Some (field_positive "gsc_impressions" p)
               ∧ is_Some (field_positive "ga4_sessions" p)
               ∧ is_Some (field_nonpositive "gsc_impressions" p)
               ∧ is_Some (field_nonpositive "ga4_sessions" p)) as Hcond.
  { intros p [_ Hp]. unfold field_positive, field_nonpositive.
    destruct (Hp "gsc_impressions" ltac:(done) ltac:(unfold delta_names; set_solver))
      as [x1 ->].
    destruct (Hp "ga4_sessions" ltac:(done) ltac:(unfold delta_names; set_solver))
      as [x2 ->].
    simpl. repeat split; by eexists. }
  assert (∀ a b : option bool, is_Some a → is_Some b → is_Some (and_then a b)) as Hand.
  { intros a b [[] ->] [y ->]; simpl; by eexists. }
  rewrite (filterM_Some_filter (field_positive "gsc_impressions"))
    by (eapply Forall_impl; [exact Hpages|]; intros p Hp; by apply Hcond).
  rewrite (filterM_Some_filter (field_positive "ga4_sessions"))
    by (eapply Forall_impl; [exact Hpages|]; intros p Hp; by apply Hcond).
  cbn [mbind option_bind].
  do 3 (rewrite filterM_Some_filter
          by (eapply Forall_impl; [exact Hpages|]; intros p Hp; simpl;
              apply Hand; by apply Hcond);
        cbn [mbind option_bind]).
  match goal with
  | |- context [sorted_by_field "gsc_impressions" true ?l] =>
      destruct (sorted_rows_is_Some "gsc_impressions" true merged_page l)
        as (r1 & -> & Hr1)
  end.
  { apply Forall_forall. intros p [_ Hin]%list_elem_of_filter.
    rewrite Forall_forall in Hpages. by apply Hpages. }
  { apply Forall_forall. intros p [_ Hin]%list_elem_of_filter.
    rewrite Forall_forall in Hpages. apply merged_page_field;
      [by apply Hpages|done|unfold delta_names; set_solver]. }
  cbn [mbind option_bind].
  match goal with
  | |- context [sorted_by_field "ga4_sessions" true ?l] =>
      destruct (sorted_rows_is_Some "ga4_sessions" true merged_page l)
        as (r2 & -> & Hr2)
  end.
  { apply Forall_forall. intros p [_ Hin]%list_elem_of_filter.
    rewrite Forall_forall in Hpages. by apply Hpages. }
  { apply Forall_forall. intros p [_ Hin]%list_elem_of_filter.
    rewrite Forall_forall in Hpages. apply merged_page_field;
      [by apply Hpages|done|unfold delta_names; set_solver]. }
  cbn [mbind option_bind].
  assert (is_Some (mapM gsc_only_entry (py_slice_to top_n r1))) as [t1 ->].
  { apply mapM_is_Some_2, Forall_py_slice_to.
    eapply Forall_impl; [exact Hr1|]. intros p [[url Hu] Hp].
    unfold compose, gsc_only_entry. rewrite Hu. cbn [mbind option_bind].
    destruct (Hp "gsc_impressions" ltac:(done) ltac:(unfold delta_names; set_solver))
      as [x1 ->].
    destruct (Hp "gsc_clicks" ltac:(done) ltac:(unfold delta_names; set_solver))
      as [x2 ->].
    by eexists. }
  assert (is_Some (mapM ga4_only_entry (py_slice_to top_n r2))) as [t2 ->].
  { apply mapM_is_Some_2, Forall_py_slice_to.
    eapply Forall_impl; [exact Hr2|]. intros p [[url Hu] Hp].
    unfold compose, ga4_only_entry. rewrite Hu. cbn [mbind option_bind].
    destruct (Hp "ga4_sessions" ltac:(done) ltac:(unfold delta_names; set_solver))
      as [x1 ->].
    destruct (Hp "ga4_conversions" ltac:(done) ltac:(unfold delta_names; set_solver))
      as [x2 ->].
    by eexists. }
  by eexists.
Qed.
End Pipeline.

Module PipelineExample.
#[local] Open Scope float_scope.
Definition gsc_current : gmap string (pydict float) :=
  {[ "https://ex.com/a" := {[ "gsc_clicks" := VNum 10; "gsc_impressions" := VNum 400;
                              "gsc_ctr" := VNum 0.025; "gsc_position" := VNum 9 ]} ]}.
Definition ga4_current : gmap string (pydict float) :=
  {[ "https://ex.com/b" := {[ "ga4_sessions" := VNum 5 ]} ]}.

Lemma aggregates_ok :
  metric_aggregate gsc_current ∧ metric_aggregate ga4_current
  ∧ metric_aggregate (∅ : gmap string (pydict float)).
Proof.
  split; [|split].
  - unfold gsc_current. intros url d [<- <-]%lookup_singleton_Some. split.
    + intros k v Hv. repeat (apply lookup_insert_Some in Hv as [[_ <-]|[_ Hv]];
                             [by eexists|]).
      apply lookup_singleton_Some in Hv as [_ <-]. by eexists.
    + intros k Hk. unfold reserved_names in Hk.
      repeat (apply elem_of_cons in Hk as [->|Hk]; [done|]).
      by apply elem_of_nil in Hk.
  - unfold ga4_current. intros url d [<- <-]%lookup_singleton_Some. split.
    + intros k v [<- <-]%lookup_singleton_Some. by eexists.
    + intros k Hk. unfold reserved_names in Hk.
      repeat (apply elem_of_cons in Hk as [->|Hk]; [done|]).
      by apply elem_of_nil in Hk.
  - intros url d Hd. by rewrite lookup_empty in Hd.
Qed.
End PipelineExample.

(** X6: for aggregates holding numbers under metric names (as the two
    aggregators return them), the records of [merge_page_metrics] are
    accepted by every consumer of the pipeline: [summarize_portfolio],
    [build_popularity_snapshot], [build_trend_report],
    [build_data_quality_report] and [generate_action_items] all return on
    them, for every [top_n], limit and settings, although the delta fields of
    the records may hold [None]; in every arithmetic obeying the order laws
    in which [1e-6] is positive. *)
Theorem reports_accept_merged {F : Type} `{NumericLaws F} `{!Log10 F}
    (gsc_current ga4_current gsc_previous ga4_previous
       : option (gmap string (pydict F)))
    (top_n : Z) (settings : Settings F) (max_items : option Z) :
  (f0 <? lit 1 1000000)%num = true →
  metric_aggregate (default ∅ gsc_current) →
  metric_aggregate (default ∅ ga4_current) →
  metric_aggregate (default ∅ gsc_previous) →
  metric_aggregate (default ∅ ga4_previous) →
  ∃ rows,
    merge_page_metrics gsc_current ga4_current gsc_previous ga4_previous = Some rows
    ∧ is_Some (summarize_portfolio rows)
    ∧ is_Some (build_popularity_snapshot rows top_n)
    ∧ is_Some (build_trend_report rows top_n)
    ∧ is_Some (build_data_quality_report rows top_n)
    ∧ is_Some (generate_action_items rows settings max_items).
Proof.
  intros Hmicro Hgc Hac Hgp Hap.
  assert (is_Some (merge_page_metrics gsc_current ga4_current gsc_previous ga4_previous))
    as [rows Hrows].
  { unfold merge_page_metrics. apply mapM_is_Some, Forall_forall. intros url _.
    apply merge_row_total; by apply metric_aggregate_entry. }
  exists rows. split; [done|].
  pose proof (merged_pages_ok _ _ _ _ _ Hgc Hac Hgp Hap Hrows) as Hpages.
  split.
  { apply summarize_portfolio_is_Some. eapply Forall_impl; [exact Hpages|].
    intros p Hp k Hk. apply merged_page_field; [done|..];
      unfold summary_fields, delta_names in *; set_solver. }
  split; [by apply build_popularity_snapshot_is_Some|].
  split; [by apply build_trend_report_is_Some|].
  split; [by apply build_data_quality_report_is_Some|].
  unfold generate_action_items.
  destruct (collect_items_is_Some Hmicro rows settings) as [items ->]; [|by eexists].
  eapply Forall_impl; [exact Hpages|]. intros p [Hurl Hp]. split; [done|].
  intros k Hk. apply Hp; unfold scoring_fields, delta_names in *; set_solver.
Qed.

Lemma reports_accept_merged_witness :
  ∃ rows,
    merge_page_metrics (Some PipelineExample.gsc_current)
      (Some PipelineExample.ga4_current) None None = Some rows
    ∧ is_Some (summarize_portfolio rows)
    ∧ is_Some (build_popularity_snapshot rows 20)
    ∧ is_Some (build_trend_report rows 20)
    ∧ is_Some (build_data_quality_report rows 20)
    ∧ is_Some (@generate_action_items float binary64 (λ x, x) rows
                 ScorerExample.settings None).
Proof.
  apply (@reports_accept_merged float binary64 binary64_laws (λ x, x)).
  - vm_compute. reflexivity.
  - apply PipelineExample.aggregates_ok.
  - apply PipelineExample.aggregates_ok.
  - apply PipelineExample.aggregates_ok.
  - apply PipelineExample.aggregates_ok.
Defined.

(** ** The categories of a score (score_page) *)

(** The categories the five rules append. *)
Definition known_categories : list string :=
  ["content_refresh"; "conversion_optimization"; "ctr_optimization"; "scale_winner"].

Section CategoryFacts.
Context {F : Type} `{Numeric F} `{!Log10 F}.

(** The categories in the order the rules append them. *)
Definition appended_categories (settings : Settings F)
    (impressions ctr sessions conversion_rate : F)
    (clicks_delta sessions_delta : option (pyval F)) : list string :=
  (if ctr_rule settings impressions ctr then ["ctr_optimization"] else [])
  ++ (if cr_rule settings sessions conversion_rate
      then ["conversion_optimization"] else [])
  ++ match decline_rule (as_number clicks_delta) with
     | Some _ => ["content_refresh"]
     | None => []
     end
  ++ match decline_rule (as_number sessions_delta) with
     | Some _ => ["content_refresh"]
     | None => []
     end
  ++ (if winner_rule settings impressions sessions ctr conversion_rate
      then ["scale_winner"] else []).

Lemma accumulate_categories (settings : Settings F)
    (impressions clicks ctr position sessions conversion_rate : F)
    (clicks_delta sessions_delta : option (pyval F)) a :
  accumulate settings impressions clicks ctr position sessions conversion_rate
    clicks_delta sessions_delta = Some a →
  acc_categories a
  = appended_categories settings impressions ctr sessions conversion_rate
      clicks_delta sessions_delta.
Proof.
  unfold accumulate, appended_categories. intros Ha.
  apply bind_Some in Ha as (a1 & H1 & Ha).
  apply bind_Some in Ha as (a2 & H2 & Ha).
  injection Ha as <-.
  assert (acc_categories a1
          = if ctr_rule settings impressions ctr then ["ctr_optimization"] else [])
    as E1.
  { destruct (ctr_rule _ _ _); [|by injection H1 as <-].
    apply bind_Some in H1 as (s & _ & [= <-]). done. }
  assert (acc_categories a2
          = acc_categories a1
            ++ if cr_rule settings sessions conversion_rate
               then ["conversion_optimization"] else []) as E2.
  { destruct (cr_rule _ _ _); [|injection H2 as <-; by rewrite app_nil_r].
    apply bind_Some in H2 as (s & _ & [= <-]). done. }
  destruct (decline_rule (as_number clicks_delta)),
           (decline_rule (as_number sessions_delta)),
           (winner_rule _ _ _ _ _), (position_rule _ _);
    cbn [bump acc_categories]; rewrite E2, E1, ?app_nil_r, <- ?app_assoc; done.
Qed.

Lemma appended_categories_known settings impressions ctr sessions conversion_rate
    clicks_delta sessions_delta c :
  c ∈ appended_categories settings impressions ctr sessions conversion_rate
        clicks_delta sessions_delta →
  c ∈ known_categories.
Proof.
  unfold appended_categories, known_categories.
  destruct (ctr_rule _ _ _), (cr_rule _ _ _), (decline_rule (as_number clicks_delta)),
           (decline_rule (as_number sessions_delta)), (winner_rule _ _ _ _ _);
    set_solver.
Qed.

Lemma score_page_categories (page : pydict F) (settings : Settings F) result :
  score_page page settings = Some result →
  ∃ impressions ctr sessions conversion_rate,
    get_float page "gsc_impressions" = Some impressions
    ∧ get_float page "gsc_ctr" = Some ctr
    ∧ get_float page "ga4_sessions" = Some sessions
    ∧ get_float page "ga4_conversion_rate" = Some conversion_rate
    ∧ categories result
      = sorted_strings
          (remove_dups
             (appended_categories settings impressions ctr sessions conversion_rate
                (page !! "gsc_clicks_delta_pct") (page !! "ga4_sessions_delta_pct"))).
Proof.
  intros (i & c & ctr & p & s & cr & a & Hi & _ & Hctr & _ & Hs & Hcr & Ha & ->)
    %score_page_inv.
  exists i, ctr, s, cr. do 4 (split; [done|]).
  rewrite <- (accumulate_categories _ _ _ _ _ _ _ _ _ _ Ha).
  destruct (finish_cases a i s) as [(Hnil & _ & ->)|(_ & _ & -> & _)]; [|done].
  by rewrite Hnil.
Qed.
End CategoryFacts.

(** X7: the categories of every result of [score_page] are in ascending
    lexicographic order without duplicates, and each is one of the four the
    rules know (two declines give ["content_refresh"] once); so the primary
    category of an action item, the first of the list, is the
    alphabetically smallest. *)
Theorem score_categories_sorted {F : Type} `{Numeric F} `{!Log10 F}
    (page : pydict F) (settings : Settings F) (result : ScoreResult F) :
  score_page page settings = Some result →
  StronglySorted str_le (categories result)
  ∧ NoDup (categories result)
  ∧ (∀ c, c ∈ categories result → c ∈ known_categories)
  ∧ (∀ c, c ∈ categories result →
          str_le (default "" (head (categories result))) c).
Proof.
  intros (i & ctr & s & cr & _ & _ & _ & _ & Hcat)%score_page_categories.
  assert (StronglySorted str_le (categories result)) as Hsorted
    by (rewrite Hcat; apply sorted_strings_sorted).
  split; [done|]. split.
  { rewrite Hcat, sorted_strings_perm. apply NoDup_remove_dups. }
  split.
  { intros c. rewrite Hcat, sorted_strings_perm, elem_of_remove_dups.
    apply appended_categories_known. }
  intros c Hc. destruct (categories result) as [|c0 cs]; [by apply elem_of_nil in Hc|].
  simpl. apply StronglySorted_inv in Hsorted as [_ Hall].
  apply elem_of_cons in Hc as [->|Hc]; [by destruct (str_le_total c0 c0)|].
  rewrite Forall_forall in Hall. by apply Hall.
Qed.

Module CategoryExample.
#[local] Open Scope float_scope.
(** Few clicks on many impressions, and both traffic figures falling. *)
Definition page : pydict float :=
  <["gsc_impressions" := VNum 900]>
  (<["gsc_ctr" := VNum 0.01]>
  (<["gsc_clicks_delta_pct" := VNum (-0.5)]>
  (<["ga4_sessions_delta_pct" := VNum (-0.3)]> ∅))).

Definition settings : Settings float :=
  {| min_impressions_for_ctr_action := 200;
     min_sessions_for_conversion_action := 50;
     target_ctr := 0.03; target_conversion_rate := 0.02;
     default_max_action_items := 30 |}.

Definition result : ScoreResult float :=
  {| score := 91.5;
     categories := ["content_refresh"; "ctr_optimization"];
     reasons :=
       ["High impressions with below-target CTR indicate snippet/title opportunity.";
        "Organic clicks are declining versus the previous period.";
        "On-site sessions are declining versus the previous period."];
     recommendations :=
       ["Rewrite title and meta description to better match dominant queries.";
        "Test stronger value proposition in the first 60 title characters.";
        "Refresh outdated sections and compare SERP competitors for intent drift.";
        "Audit UX changes, page speed, and content relevance for recent traffic loss."];
     priority := "high"; expected_impact := "high"; effort := "low";
     confidence := 0.8 |}.

(** [log10] at the one argument the page needs: [log10(901)]. *)
Definition log10_901 : Log10 float := λ _, 2.9547247909790628.

Lemma category_result_ok : @score_page float binary64 log10_901 page settings = Some result.
Proof. vm_compute. reflexivity. Qed.
End CategoryExample.

Lemma score_categories_sorted_witness :
  StronglySorted str_le (categories CategoryExample.result)
  ∧ NoDup (categories CategoryExample.result)
  ∧ (∀ c, c ∈ categories CategoryExample.result → c ∈ known_categories)
  ∧ (∀ c, c ∈ categories CategoryExample.result →
          str_le (default "" (head (categories CategoryExample.result))) c).
Proof.
  apply (@score_categories_sorted float binary64 CategoryExample.log10_901
           CategoryExample.page CategoryExample.settings).
  apply CategoryExample.category_result_ok.
Defined.

(** ** Rules that exclude one another (score_page) *)

Section ExclusiveRules.
Context {F : Type} `{NumericLaws F} `{!Log10 F}.

Lemma ctr_rule_not_winner (settings : Settings F)
    (impressions sessions ctr conversion_rate : F) :
  ctr_rule settings impressions ctr = true →
  winner_rule settings impressions sessions ctr conversion_rate = false.
Proof.
  unfold ctr_rule, winner_rule. intros [_ Hlt%lt_not_le]%andb_true_iff.
  rewrite Hlt. by rewrite andb_false_r.
Qed.

Lemma cr_rule_not_winner (settings : Settings F)
    (impressions sessions ctr conversion_rate : F) :
  cr_rule settings sessions conversion_rate = true →
  winner_rule settings impressions sessions ctr conversion_rate = false.
Proof.
  unfold cr_rule, winner_rule. intros [_ Hlt%lt_not_le]%andb_true_iff.
  rewrite Hlt. by rewrite andb_false_r.
Qed.
End ExclusiveRules.

(** X8: a result of [score_page] never combines ["scale_winner"] with
    ["ctr_optimization"] or ["conversion_optimization"]: the winner rule asks
    for a CTR and a conversion rate at or above their targets, the two
    optimization rules for one below; in every arithmetic obeying the order
    laws. *)
Theorem scale_winner_exclusive {F : Type} `{NumericLaws F} `{!Log10 F}
    (page : pydict F) (settings : Settings F) (result : ScoreResult F) :
  score_page page settings = Some result →
  "scale_winner" ∈ categories result →
  ("ctr_optimization" ∉ categories result)
  ∧ ("conversion_optimization" ∉ categories result).
Proof.
  intros (i & ctr & s & cr & _ & _ & _ & _ & ->)%score_page_categories.
  rewrite !sorted_strings_perm, !elem_of_remove_dups.
  unfold appended_categories. intros Hwin.
  destruct (winner_rule settings i s ctr cr) eqn:Ew.
  - destruct (ctr_rule settings i ctr) eqn:E1.
    { apply ctr_rule_not_winner with (sessions := s) (conversion_rate := cr) in E1.
      congruence. }
    destruct (cr_rule settings s cr) eqn:E2.
    { apply cr_rule_not_winner with (impressions := i) (ctr := ctr) in E2.
      congruence. }
    destruct (decline_rule (as_number (page !! "gsc_clicks_delta_pct"))),
             (decline_rule (as_number (page !! "ga4_sessions_delta_pct")));
      set_solver.
  - destruct (ctr_rule settings i ctr), (cr_rule settings s cr),
             (decline_rule (as_number (page !! "gsc_clicks_delta_pct"))),
             (decline_rule (as_number (page !! "ga4_sessions_delta_pct")));
      set_solver.
Qed.

Module WinnerExample.
#[local] Open Scope float_scope.
Definition page : pydict float :=
  <["gsc_impressions" := VNum 900]>
  (<["gsc_clicks" := VNum 45]>
  (<["gsc_ctr" := VNum 0.05]>
  (<["ga4_sessions" := VNum 54]>
  (<["ga4_conversion_rate" := VNum 0.04]> ∅)))).

Definition result : ScoreResult float :=
  {| score := 24;
     categories := ["scale_winner"];
     reasons := ["Page performs well in both acquisition and conversion."];
     recommendations :=
       ["Expand topic cluster around this page's highest-performing query themes.";
        "Promote this page via internal links from adjacent intent pages."];
     priority := "low"; expected_impact := "low"; effort := "low";
     confidence := 1 |}.

(** [log10] at the arguments the page needs: 100, 901 and 55. *)
Definition log10_table : Log10 float :=
  λ x, if (x =? 100) then 2
       else if (x =? 901) then 2.9547247909790628 else 1.7403626894942439.

Lemma winner_result_ok :
  @score_page float binary64 log10_table page CategoryExample.settings = Some result.
Proof. vm_compute. reflexivity. Qed.
End WinnerExample.

Lemma scale_winner_exclusive_witness :
  ("ctr_optimization" ∉ categories WinnerExample.result)
  ∧ ("conversion_optimization" ∉ categories WinnerExample.result).
Proof.
  apply (@scale_winner_exclusive float binary64 binary64_laws WinnerExample.log10_table
           WinnerExample.page CategoryExample.settings).
  - apply WinnerExample.winner_result_ok.
  - simpl. set_solver.
Defined.

(** ** The engagement rate is read but not used (score_page) *)

(** X9: [score_page] reads [ga4_engagement_rate], so that a value that is
    not a number raises, but no field of the result depends on it: two
    pages that differ only in a numeric engagement rate get the same
    result. *)
Theorem engagement_rate_unused {F : Type} `{Numeric F} `{!Log10 F}
    (page : pydict F) (settings : Settings F) (rate rate' : F) :
  score_page (<["ga4_engagement_rate" := VNum rate]> page) settings
  = score_page (<["ga4_engagement_rate" := VNum rate']> page) settings.
Proof.
  unfold score_page, get_float.
  rewrite !lookup_insert_eq, !lookup_insert_ne by done.
  cbn [py_float mbind option_bind]. reflexivity.
Qed.

(** ** The range of the score (score_page) *)

Lemma log_scale_bounds (value multiplier : R) :
  (0 <= multiplier)%R → (0 <= _log_scale value multiplier <= 20)%R.
Proof.
  intros Hm. rewrite log_scale_exact. destruct (Rle_dec value 0) as [Hv|Hv]; [lra|].
  pose proof (log10_pos (value + 1)%R ltac:(lra)) as Hlog.
  split; [|apply Rmin_l].
  apply Rmin_glb; [lra|]. apply Rmult_le_pos; lra.
Qed.

Lemma gap_term_nonneg (target value weight : R) :
  (value < target)%R → (0 <= weight)%R →
  (0 <= (target - value) / Rmax target (1 / 1000000) * weight)%R.
Proof.
  intros Hv Hw. apply Rmult_le_pos; [|done].
  apply Rlt_le, Rdiv_lt_0_compat; [lra|].
  apply Rlt_le_trans with (1 / 1000000)%R; [lra|apply Rmax_r].
Qed.

Lemma Rround_2_le (x : R) (n : Z) : (x <= IZR n)%R → (0 <= x)%R → (Rround 2 x <= IZR n)%R.
Proof.
  intros Hx H0. rewrite Rround_2.
  destruct (round_half_even_range (x * 100) 0 (n * 100)) as [_ Hhi].
  { rewrite mult_IZR. lra. }
  apply IZR_le in Hhi. rewrite mult_IZR in Hhi. lra.
Qed.

(** The score accumulated by the rules, before rounding. *)
Lemma accumulate_score_bounds (settings : Settings R)
    (impressions clicks ctr position sessions conversion_rate : R)
    (clicks_delta sessions_delta : option (pyval R)) a :
  accumulate settings impressions clicks ctr position sessions conversion_rate
    clicks_delta sessions_delta = Some a →
  (0 <= acc_score a <= 162)%R.
Proof.
  unfold accumulate. rewrite ctr_score_exact, cr_score_exact.
  rewrite !py_min_exact, !lit_int, !lit_exact.
  cbn [fadd fsub fmul fabs exact].
  pose proof (log_scale_bounds impressions 6%R ltac:(lra)) as Hl1.
  pose proof (log_scale_bounds sessions 6%R ltac:(lra)) as Hl2.
  pose proof (log_scale_bounds (clicks + sessions)%R 7%R ltac:(lra)) as Hl3.
  assert (ctr_rule settings impressions ctr = true →
          0 <= Rmin 45 ((target_ctr settings - ctr)
                        / Rmax (target_ctr settings) (1 / 1000000) * 45
                        + _log_scale impressions 6))%R as H1.
  { intros [_ Hlt%Rltb_true]%andb_true_iff.
    pose proof (gap_term_nonneg (target_ctr settings) ctr 45%R Hlt ltac:(lra)).
    apply Rmin_glb; lra. }
  assert (cr_rule settings sessions conversion_rate = true →
          0 <= Rmin 45 ((target_conversion_rate settings - conversion_rate)
                        / Rmax (target_conversion_rate settings) (1 / 1000000) * 42
                        + _log_scale sessions 6))%R as H2.
  { intros [_ Hlt%Rltb_true]%andb_true_iff.
    pose proof (gap_term_nonneg (target_conversion_rate settings) conversion_rate 42%R
                  Hlt ltac:(lra)).
    apply Rmin_glb; lra. }
  assert (position_rule position impressions = true →
          0 <= Rmin 12 ((position - 8) * (15 / 10)))%R as H6.
  { unfold position_rule. rewrite lit_int.
    intros [Hp%Rltb_true _]%andb_true_iff. apply Rmin_glb; nra. }
  pose proof (ctr_rule_not_winner settings impressions sessions ctr conversion_rate)
    as Hx1.
  pose proof (cr_rule_not_winner settings impressions sessions ctr conversion_rate)
    as Hx2.
  pose proof (Rmin_l 45 ((target_ctr settings - ctr)
                         / Rmax (target_ctr settings) (1 / 1000000) * 45
                         + _log_scale impressions 6)%R) as U1.
  pose proof (Rmin_l 45 ((target_conversion_rate settings - conversion_rate)
                         / Rmax (target_conversion_rate settings) (1 / 1000000) * 42
                         + _log_scale sessions 6)%R) as U2.
  pose proof (Rmin_l 35 (_log_scale (clicks + sessions)%R 7 + 10)%R) as U5.
  assert (0 <= Rmin 35 (_log_scale (clicks + sessions)%R 7 + 10))%R as H5
    by (apply Rmin_glb; lra).
  pose proof (Rmin_l 12 ((position - 8) * (15 / 10))%R) as U6.
  assert (∀ d k : R, (0 <= k)%R → (0 <= Rmin 30 (Rabs d * k) <= 30)%R) as Hdrop.
  { intros d k Hk. split; [|apply Rmin_l].
    apply Rmin_glb; [lra|]. apply Rmult_le_pos; [apply Rabs_pos|done]. }
  destruct (ctr_rule settings impressions ctr) eqn:E1;
    destruct (cr_rule settings sessions conversion_rate) eqn:E2;
    destruct (winner_rule settings impressions sessions ctr conversion_rate) eqn:E5;
    try (specialize (Hx1 eq_refl); discriminate);
    try (specialize (Hx2 eq_refl); discriminate);
    clear Hx1 Hx2;
    cbn [mbind option_bind];
    (destruct (decline_rule (as_number clicks_delta)) as [d3|];
       [pose proof (Hdrop d3 60%R ltac:(lra))|]);
    (destruct (decline_rule (as_number sessions_delta)) as [d4|];
       [pose proof (Hdrop d4 55%R ltac:(lra))|]);
    destruct (position_rule position impressions) eqn:E6;
    intros [= <-]; cbn [bump acc_score fadd fabs fmul exact f0 of_Z];
    rewrite ?py_min_exact;
    try specialize (H1 eq_refl); try specialize (H2 eq_refl);
    try specialize (H6 eq_refl); lra.
Qed.

Module ScoreRangeExample.
Definition page : pydict R :=
  <["gsc_impressions" := VNum 1%R]> (<["gsc_position" := VNum 15%R]> ∅).

Definition settings : Settings R :=
  {| min_impressions_for_ctr_action := 200;
     min_sessions_for_conversion_action := 50;
     target_ctr := (3/100)%R; target_conversion_rate := (2/100)%R;
     default_max_action_items := 30 |}.

Lemma scored : is_Some (score_page page settings).
Proof.
  apply score_page_is_Some.
  - cbn [fltb exact]. apply Rltb_true. rewrite lit_exact. unfold f0. simpl. lra.
  - intros k _. unfold get_float, page.
    destruct (decide (k = "gsc_impressions")) as [->|?];
      [rewrite lookup_insert_eq; by eexists|rewrite lookup_insert_ne by done].
    destruct (decide (k = "gsc_position")) as [->|?];
      [rewrite lookup_insert_eq; by eexists|rewrite lookup_insert_ne by done].
    rewrite lookup_empty. by eexists.
Qed.
End ScoreRangeExample.

(** X10: over exact arithmetic, every score [score_page] returns lies
    between 0 and 162: each rule adds a capped, non-negative amount (45, 45,
    30, 30, 35 and 12 at most), and the winner rule, which excludes the two
    optimization rules, cannot add its 35 to their 90. *)
Theorem score_range (page : pydict R) (settings : Settings R) (result : ScoreResult R) :
  score_page page settings = Some result → (0 <= score result <= 162)%R.
Proof.
  intros (i & c & ctr & p & s & cr & a & _ & _ & _ & _ & _ & _ & Ha & ->)%score_page_inv.
  apply accumulate_score_bounds in Ha as [Hlo Hhi].
  destruct (finish_cases a i s) as [(_ & _ & ->)|(_ & -> & _)].
  - simpl. unfold f0. simpl. lra.
  - split; [by apply Rround_2_nonneg|by apply (Rround_2_le _ 162)].
Qed.

Lemma score_range_witness :
  ∃ result, score_page ScoreRangeExample.page ScoreRangeExample.settings = Some result
            ∧ (0 <= score result <= 162)%R.
Proof.
  destruct ScoreRangeExample.scored as [result Hres]. exists result.
  split; [done|].
  exact (score_range ScoreRangeExample.page ScoreRangeExample.settings result Hres).
Defined.

(** ** More on normalize_url *)

Section StripFacts.
Implicit Types (p q : ascii → bool) (s : string).

Lemma has_char_lstrip_by p q s :
  has_char q s = false → has_char q (lstrip_by p s) = false.
Proof.
  induction s as [|c s IH]; simpl; [done|].
  intros [Hc Hs]%orb_false_iff. destruct (p c); [by apply IH|].
  simpl. by rewrite Hc, Hs.
Qed.

Lemma has_char_rstrip_by p q s :
  has_char q s = false → has_char q (rstrip_by p s) = false.
Proof.
  induction s as [|c s IH]; simpl; [done|].
  intros [Hc Hs]%orb_false_iff. specialize (IH Hs).
  destruct (rstrip_by p s) as [|d r]; [destruct (p c); simpl; by rewrite ?Hc|].
  simpl in *. by rewrite Hc, IH.
Qed.

Lemma has_char_other_removed p q s :
  has_char q s = false → has_char q (remove_chars p s) = false.
Proof.
  induction s as [|c s IH]; simpl; [done|].
  intros [Hc Hs]%orb_false_iff. destruct (p c); [by apply IH|].
  simpl. by rewrite Hc, IH.
Qed.

(** What is left of a string stripped on the left starts with a character
    that stays. *)
Lemma lstrip_by_head p s :
  lstrip_by p s = "" ∨ ∃ c r, lstrip_by p s = String c r ∧ p c = false.
Proof.
  induction s as [|c s IH]; simpl; [by left|].
  destruct (p c) eqn:Hc; [done|]. right. by exists c, s.
Qed.

Lemma rstrip_by_cons p c s :
  p c = false → ∃ r, rstrip_by p (String c s) = String c r.
Proof.
  intros Hc. simpl. destruct (rstrip_by p s) as [|d r]; [|by eexists].
  rewrite Hc. by eexists.
Qed.

Lemma rstrip_by_idem p s : rstrip_by p (rstrip_by p s) = rstrip_by p s.
Proof.
  induction s as [|c s IH]; simpl; [done|].
  destruct (rstrip_by p s) as [|d r] eqn:Hr.
  - destruct (p c) eqn:Hc; [done|]. simpl. by rewrite Hc.
  - change (rstrip_by p (String c (String d r)))
      with (match rstrip_by p (String d r) with
            | "" => if p c then "" else String c ""
            | r' => String c r'
            end).
    by rewrite IH.
Qed.

Lemma strip_idem s : strip (strip s) = strip s.
Proof.
  unfold strip.
  destruct (lstrip_by_head is_space s) as [->|(c & r & -> & Hc)]; [done|].
  destruct (rstrip_by_cons is_space c r Hc) as [r' Hr]. rewrite Hr.
  rewrite lstrip_by_id by done. rewrite <- Hr. apply rstrip_by_idem.
Qed.
End StripFacts.

(** X11: [normalize_url] sees its argument only through [value.strip()]:
    whitespace around the URL never changes the result, for any flags and
    base. *)
Theorem normalize_url_ignores_outer_whitespace
    (valid_bracketed_host : string → bool) (urljoin : string → string → string)
    (value : string) (base_url : option string)
    (drop_query drop_fragment remove_www : bool) :
  normalize_url valid_bracketed_host urljoin (strip value) base_url
    drop_query drop_fragment remove_www
  = normalize_url valid_bracketed_host urljoin value base_url
      drop_query drop_fragment remove_www.
Proof. unfold normalize_url. by rewrite strip_idem. Qed.

Section CharFacts2.
Lemma scheme_char_not_question c : is_scheme_char c = true → is_char "?" c = false.
Proof. destruct c as [[] [] [] [] [] [] [] []]; simpl; done. Qed.
Lemma scheme_char_not_hash c : is_scheme_char c = true → is_char "#" c = false.
Proof. destruct c as [[] [] [] [] [] [] [] []]; simpl; done. Qed.
Lemma question_is_delim c : is_char "?" c = true → is_netloc_delim c = true.
Proof. destruct c as [[] [] [] [] [] [] [] []]; simpl; done. Qed.
Lemma hash_is_delim c : is_char "#" c = true → is_netloc_delim c = true.
Proof. destruct c as [[] [] [] [] [] [] [] []]; simpl; done. Qed.
End CharFacts2.

(** The URL built for a host when query and fragment are dropped. *)
Lemma urlunsplit_bare (c : SplitResult) :
  netloc c ≠ "" → scheme c ≠ "" → query c = "" → fragment c = "" →
  urlunsplit c
  = scheme c +:+ ":" +:+ "//" +:+ netloc c
      +:+ (if negb (bool_decide (path c = "")) && negb (startswith "/" (path c))
           then "/" +:+ path c else path c).
Proof.
  intros Hn Hs Hq Hf. unfold urlunsplit.
  rewrite (bool_decide_false (netloc c = "")) by done.
  rewrite (bool_decide_false (scheme c = "")) by done.
  rewrite (bool_decide_true (query c = "")) by done.
  rewrite (bool_decide_true (fragment c = "")) by done.
  simpl negb. simpl orb. cbv iota. done.
Qed.

Lemma render_without p (parts : SplitResult) (remove_www : bool) :
  split_ok parts →
  (∀ c, is_scheme_char c = true → p c = false) →
  (∀ c, p c = true → is_netloc_delim c = true) →
  p ":"%char = false → p "/"%char = false →
  has_char p (path parts) = false →
  has_char p (render (canonical_parts parts true true remove_www)) = false.
Proof.
  intros Hok Hscheme Hdelim Hcolon Hslash Hpath. unfold render.
  set (c := canonical_parts parts true true remove_www).
  assert (has_char p (path c) = false) as Hp by by apply canonical_path_char.
  case_bool_decide as Hn; [done|].
  pose proof (canonical_scheme parts true true remove_www Hok) as Hs. fold c in Hs.
  rewrite urlunsplit_bare; [|done|by apply valid_scheme_nonempty|done..].
  repeat (apply has_char_false_app; split).
  - destruct Hs as (c0 & r & _ & _ & Hall & _).
    by apply all_chars_has_char with (p := is_scheme_char).
  - simpl. by rewrite Hcolon.
  - simpl. by rewrite Hslash.
  - apply has_char_weaken with (p := is_netloc_delim); [done|].
    apply canonical_netloc_char; [apply is_netloc_delim_lower|].
    apply (so_netloc_delim _ Hok).
  - destruct (_ && _); [|done]. apply has_char_false_app. split; [|done].
    simpl. by rewrite Hslash.
Qed.

(** X12: with [drop_query] and [drop_fragment] set, as the aggregators call
    it, the URL [normalize_url] returns contains neither [?] nor [#],
    whatever the input, the base and [remove_www]. *)
Theorem normalize_url_drops_query_and_fragment
    (valid_bracketed_host : string → bool) (urljoin : string → string → string)
    (value : string) (base_url : option string) (remove_www : bool) (out : string) :
  normalize_url valid_bracketed_host urljoin value base_url true true remove_www
  = Some out →
  has_char (is_char "?") out = false ∧ has_char (is_char "#") out = false.
Proof.
  intros Hout. destruct (decide (strip value = "")) as [Hv|Hv].
  { destruct (normalize_url_empty valid_bracketed_host urljoin value base_url
                true true remove_www Hv) as [Hempty _].
    rewrite Hempty in Hout. by injection Hout as <-. }
  destruct (normalized_parts valid_bracketed_host urljoin value base_url
              true true remove_www) as [c|] eqn:Hc.
  - rewrite (normalize_url_parts _ _ _ _ _ _ _ _ Hv Hc) in Hout. injection Hout as <-.
    apply normalized_parts_ok in Hc as (parts & Hok & ->).
    split; apply render_without; try done.
    + apply scheme_char_not_question.
    + apply question_is_delim.
    + apply (so_path_query _ Hok).
    + apply scheme_char_not_hash.
    + apply hash_is_delim.
    + apply (so_path_fragment _ Hok).
  - unfold normalized_parts in Hc. unfold normalize_url in Hout.
    rewrite (bool_decide_false (strip value = "")) in Hout by done.
    destruct (urlsplit _ _); done.
Qed.

Lemma normalize_url_drops_query_and_fragment_witness :
  has_char (is_char "?") "https://ex.com/a" = false
  ∧ has_char (is_char "#") "https://ex.com/a" = false.
Proof.
  apply (normalize_url_drops_query_and_fragment (λ _, true) (λ _ text, text)
           "https://Ex.com/a/?utm=1#top" None false).
  vm_compute. reflexivity.
Defined.

(** X13: without a base, [normalize_url] raises on an ASCII value only
    through the bracket check of [urlsplit]: an ASCII value without [[] and
    []] always has a normal form.  (On a value that is not ASCII the
    library's [_checknetloc] can raise as well; the strings of this
    development are ASCII, for which it returns at once.) *)
Theorem normalize_url_total_without_brackets
    (valid_bracketed_host : string → bool) (urljoin : string → string → string)
    (value : string) (drop_query drop_fragment remove_www : bool) :
  isascii value = true →
  has_char (is_char "[") value = false →
  has_char (is_char "]") value = false →
  is_Some (normalize_url valid_bracketed_host urljoin value None
             drop_query drop_fragment remove_www).
Proof.
  intros _ Hl Hr. unfold normalize_url. case_bool_decide; [by eexists|].
  cbn [resolve].
  assert (∀ q, has_char q value = false → has_char q (strip value) = false) as Hstrip.
  { intros q Hq. unfold strip. by apply has_char_rstrip_by, has_char_lstrip_by. }
  assert (is_Some (urlsplit valid_bracketed_host (strip value))) as [parts ->];
    [|simpl; case_bool_decide; by eexists].
  unfold urlsplit.
  set (u0 := remove_chars is_unsafe (lstrip_by is_c0_or_space (strip value))).
  assert (∀ q, has_char q value = false → has_char q u0 = false) as Hu0.
  { intros q Hq. by apply has_char_other_removed, has_char_lstrip_by, Hstrip. }
  destruct (split_scheme_spec u0) as [_ Hrest1].
  destruct (split_scheme u0) as [s u1]. simpl in Hrest1.
  destruct (split_netloc_spec u1) as (_ & _ & Hrest2).
  destruct (split_netloc u1) as [n u2]. simpl in Hrest2.
  destruct (Hrest2 _ (Hrest1 _ (Hu0 _ Hl))) as [-> _].
  destruct (Hrest2 _ (Hrest1 _ (Hu0 _ Hr))) as [-> _].
  simpl. destruct (split_first _ u2) as [u3 f]. destruct (split_first _ u3).
  by eexists.
Qed.

Lemma normalize_url_total_without_brackets_witness :
  is_Some (normalize_url (λ _, false) (λ _ text, text) "ex.com:80/a b" None
             true true false).
Proof.
  apply (normalize_url_total_without_brackets (λ _, false) (λ _ text, text)
           "ex.com:80/a b" true true false); reflexivity.
Defined.

(** ** Rows the aggregators skip *)

Section BucketSkip.
Context {Row Item : Type}.
Variable key : Row → option (option string).
Variable add : Item → Row → Item.
Variable dflt : Item.

Lemma bucket_loop_skip (rows1 rows2 : list Row) (row : Row) (bucket : gmap string Item) :
  key row = Some None →
  bucket_loop key add dflt (rows1 ++ row :: rows2) bucket
  = bucket_loop key add dflt (rows1 ++ rows2) bucket.
Proof.
  intros Hrow. revert bucket. induction rows1 as [|r rows1 IH]; intros bucket; simpl.
  - by rewrite Hrow.
  - destruct (key r) as [[url|]|]; [apply IH|apply IH|done].
Qed.

Lemma bucket_loop_urls (rows : list Row) (bucket : gmap string Item) url :
  bucket_loop key add dflt rows ∅ = Some bucket →
  is_Some (bucket !! url) ↔ rows_of key url rows ≠ [].
Proof.
  intros Hloop. rewrite (bucket_loop_lookup _ _ _ _ _ _ url Hloop), lookup_empty.
  unfold entry_after. destruct (rows_of key url rows); split; try done.
  all: (by intros [? ?]) || by eexists.
Qed.
End BucketSkip.

Section SkippedRows.
Context {F : Type} `{Numeric F}.
Variable valid_bracketed_host : string → bool.
Variable urljoin : string → string → string.

Lemma gsc_key_skip (page_index : nat) (base_url : option string) (row : gsc_row F) :
  keys row !! page_index = None
  ∨ (∃ raw, keys row !! page_index = Some raw ∧ strip raw = "") →
  gsc_key valid_bracketed_host urljoin page_index base_url row = Some None.
Proof.
  unfold gsc_key. intros [->|(raw & -> & Hraw)]; [done|].
  destruct (normalize_url_empty valid_bracketed_host urljoin raw base_url
              true true false Hraw) as [-> _].
  done.
Qed.

Lemma ga4_raw_None (candidates : list string) (row : ga4_row F) :
  (∀ dim, dim ∈ candidates → dims row !! dim = None ∨ dims row !! dim = Some "") →
  ga4_raw candidates row = None.
Proof.
  induction candidates as [|dim candidates IH]; intros Hrow; simpl; [done|].
  destruct (Hrow dim) as [-> | ->]; [set_solver| |]; apply IH; set_solver.
Qed.

Lemma ga4_key_skip (candidates : list string) (base_url : option string)
    (row : ga4_row F) :
  (∀ dim, dim ∈ candidates → dims row !! dim = None ∨ dims row !! dim = Some "") →
  ga4_key valid_bracketed_host urljoin candidates base_url row = Some None.
Proof. intros Hrow. unfold ga4_key. by rewrite ga4_raw_None. Qed.
End SkippedRows.

(** X14: a row without a page leaves no trace in the aggregate, wherever it
    stands in the input: for the search aggregator a row whose keys are
    missing, empty or too short for the page dimension, or whose page is
    blank; for the traffic aggregator a row in which every candidate
    dimension is missing or empty.  The result is the one of the input
    without the row, its exception included. *)
Theorem rows_without_page_skipped {F : Type} `{Numeric F}
    (valid_bracketed_host : string → bool) (urljoin : string → string → string)
    (base_url : option string) :
  (∀ (rows1 rows2 : list (gsc_row F)) (row : gsc_row F) dimensions,
     keys row !! gsc_page_index dimensions = None
     ∨ (∃ raw, keys row !! gsc_page_index dimensions = Some raw ∧ strip raw = "") →
     normalize_gsc_rows_by_page valid_bracketed_host urljoin
       (rows1 ++ row :: rows2) dimensions base_url
     = normalize_gsc_rows_by_page valid_bracketed_host urljoin
         (rows1 ++ rows2) dimensions base_url)
  ∧ (∀ (rows1 rows2 : list (ga4_row F)) (row : ga4_row F) candidates,
       (∀ dim, dim ∈ ga4_candidates candidates →
               dims row !! dim = None ∨ dims row !! dim = Some "") →
       normalize_ga4_rows_by_page valid_bracketed_host urljoin
         (rows1 ++ row :: rows2) base_url candidates
       = normalize_ga4_rows_by_page valid_bracketed_host urljoin
           (rows1 ++ rows2) base_url candidates).
Proof.
  split.
  - intros rows1 rows2 row dimensions Hrow. unfold normalize_gsc_rows_by_page.
    rewrite !gsc_loop_bucket_loop. rewrite bucket_loop_skip; [done|].
    by apply gsc_key_skip.
  - intros rows1 rows2 row candidates Hrow. rewrite !normalize_ga4_bucket_loop.
    rewrite bucket_loop_skip; [done|]. by apply ga4_key_skip.
Qed.

(** ** The fields of an aggregate *)

Section GscFields.
Context {F : Type} `{Numeric F}.

Definition row_clicks (row : gsc_row F) : F := to_float (clicks row) f0.

Lemma foldl_gsc_add_clicks (item : gsc_item F) rs :
  gsc_clicks (foldl gsc_add item rs)
  = foldl (λ acc row, acc + row_clicks row)%num (gsc_clicks item) rs.
Proof. revert item. induction rs as [|row rs IH]; intros item; simpl; [done|]. apply IH. Qed.

Lemma gsc_finish_fields (item : gsc_item F) agg :
  gsc_finish item = Some agg →
  dom agg = ({[ "gsc_clicks"; "gsc_impressions"; "gsc_rows"; "gsc_ctr";
               "gsc_position" ]} : gset string)
  ∧ agg !! "gsc_clicks" = Some (VNum (gsc_clicks item))
  ∧ agg !! "gsc_impressions" = Some (VNum (gsc_impressions item)).
Proof.
  unfold gsc_finish. intros Hagg.
  apply bind_Some in Hagg as (c & _ & Hagg).
  apply bind_Some in Hagg as (p & _ & [= <-]).
  split; [|done]. rewrite !dom_insert_L, dom_empty_L. set_solver.
Qed.

End GscFields.

Section Ga4Fields.
Context {F : Type} `{NumericLaws F}.

(** The rate stored for a page: the quotient when there are sessions. *)
Definition rate_or_zero (part sessions : F) : F :=
  if (sessions >? f0)%num then fdiv part sessions else f0.

Lemma ga4_finish_total (item : ga4_item F) : is_Some (ga4_finish item).
Proof.
  unfold ga4_finish. destruct (ga4_sessions item >? f0)%num eqn:Hs; [|by eexists].
  unfold py_div. rewrite gt_not_zero by done. by eexists.
Qed.

Lemma ga4_finish_fields (item : ga4_item F) agg :
  ga4_finish item = Some agg →
  agg !! "ga4_sessions" = Some (VNum (ga4_sessions item))
  ∧ agg !! "ga4_engaged_sessions" = Some (VNum (ga4_engaged_sessions item))
  ∧ agg !! "ga4_conversions" = Some (VNum (ga4_conversions item))
  ∧ agg !! "ga4_engagement_rate"
    = Some (VNum (rate_or_zero (ga4_engaged_sessions item) (ga4_sessions item)))
  ∧ agg !! "ga4_conversion_rate"
    = Some (VNum (rate_or_zero (ga4_conversions item) (ga4_sessions item))).
Proof.
  unfold ga4_finish, rate_or_zero.
  destruct (ga4_sessions item >? f0)%num eqn:Hs.
  - unfold py_div. rewrite gt_not_zero by done. by intros [= <-].
  - by intros [= <-].
Qed.
End Ga4Fields.

Module Ga4Example.
#[local] Open Scope float_scope.
Definition rows : list (ga4_row float) :=
  [ {| dims := {[ "pagePath" := "/a/" ]}; sessions := Some 40;
       engagedSessions := Some 30; conversions := Some 2; totalUsers := None;
       screenPageViews := None; userEngagementDuration := None |};
    {| dims := {[ "landingPage" := "/a"; "pagePath" := "/other" ]};
       sessions := Some 10; engagedSessions := Some 5; conversions := None;
       totalUsers := None; screenPageViews := None;
       userEngagementDuration := None |};
    {| dims := {[ "pagePath" := "/idle" ]}; sessions := None;
       engagedSessions := None; conversions := None; totalUsers := None;
       screenPageViews := None; userEngagementDuration := None |} ].

Definition result : gmap string (pydict float) :=
  {[ "/a" := {[ "ga4_sessions" := VNum 50; "ga4_engaged_sessions" := VNum 35;
                "ga4_conversions" := VNum 2; "ga4_total_users" := VNum 0;
                "ga4_screen_page_views" := VNum 0;
                "ga4_user_engagement_duration" := VNum 0; "ga4_rows" := VInt 2;
                "ga4_engagement_rate" := VNum 0.7;
                "ga4_conversion_rate" := VNum 0.04 ]};
     "/idle" := {[ "ga4_sessions" := VNum 0; "ga4_engaged_sessions" := VNum 0;
                   "ga4_conversions" := VNum 0; "ga4_total_users" := VNum 0;
                   "ga4_screen_page_views" := VNum 0;
                   "ga4_user_engagement_duration" := VNum 0; "ga4_rows" := VInt 1;
                   "ga4_engagement_rate" := VNum 0;
                   "ga4_conversion_rate" := VNum 0 ]} ]}.

Lemma ga4_result_ok :
  normalize_ga4_rows_by_page (λ _, true) (λ _ text, text) rows None None = Some result.
Proof. vm_compute. reflexivity. Qed.
End Ga4Example.

(** X15: in every aggregate of [normalize_ga4_rows_by_page] the two rates
    are consistent with the totals stored beside them: the engagement rate
    is [ga4_engaged_sessions / ga4_sessions] and the conversion rate
    [ga4_conversions / ga4_sessions] when [ga4_sessions > 0], and both are
    0.0 otherwise; the division never raises, so that the aggregator raises
    only when the URL of a row cannot be normalized.  In every arithmetic
    obeying the order laws. *)
Theorem ga4_rates_guarded {F : Type} `{NumericLaws F}
    (valid_bracketed_host : string → bool) (urljoin : string → string → string)
    (rows : list (ga4_row F)) (base_url : option string)
    (candidates : option (list string)) :
  (is_Some (normalize_ga4_rows_by_page valid_bracketed_host urljoin rows base_url
              candidates)
   ↔ Forall (λ row, is_Some (ga4_key valid_bracketed_host urljoin
                               (ga4_candidates candidates) base_url row)) rows)
  ∧ ∀ result url agg,
      normalize_ga4_rows_by_page valid_bracketed_host urljoin rows base_url candidates
      = Some result →
      result !! url = Some agg →
      ∃ sessions engaged conversions,
        agg !! "ga4_sessions" = Some (VNum sessions)
        ∧ agg !! "ga4_engaged_sessions" = Some (VNum engaged)
        ∧ agg !! "ga4_conversions" = Some (VNum conversions)
        ∧ agg !! "ga4_engagement_rate" = Some (VNum (rate_or_zero engaged sessions))
        ∧ agg !! "ga4_conversion_rate" = Some (VNum (rate_or_zero conversions sessions)).
Proof.
  rewrite normalize_ga4_bucket_loop. split.
  - rewrite <- (bucket_loop_is_Some _ ga4_add ga4_default rows ∅). split.
    + intros [result (bucket & -> & _)%bind_Some]. by eexists.
    + intros [bucket ->]. simpl. apply map_mapM_is_Some.
      intros. apply ga4_finish_total.
  - intros result url agg (bucket & _ & Hres)%bind_Some Hagg.
    rewrite (map_mapM_Some _ _ _ Hres url) in Hagg.
    apply bind_Some in Hagg as (item & _ & Hagg).
    apply ga4_finish_fields in Hagg.
    by exists (ga4_sessions item), (ga4_engaged_sessions item), (ga4_conversions item).
Qed.
Lemma ga4_rates_guarded_witness :
  ∃ sessions engaged conversions,
    (Ga4Example.result !!! "/a") !! "ga4_sessions" = Some (VNum sessions)
    ∧ (Ga4Example.result !!! "/a") !! "ga4_engaged_sessions" = Some (VNum engaged)
    ∧ (Ga4Example.result !!! "/a") !! "ga4_conversions" = Some (VNum conversions)
    ∧ (Ga4Example.result !!! "/a") !! "ga4_engagement_rate"
      = Some (VNum (rate_or_zero engaged sessions))
    ∧ (Ga4Example.result !!! "/a") !! "ga4_conversion_rate"
      = Some (VNum (rate_or_zero conversions sessions)).
Proof.
  apply (proj2 (ga4_rates_guarded (λ _, true) (λ _ text, text) Ga4Example.rows
                  None None) Ga4Example.result "/a").
  - apply Ga4Example.ga4_result_ok.
  - vm_compute. reflexivity.
Defined.

(** X16: the mapping [normalize_gsc_rows_by_page] returns has an entry for
    exactly the URLs that some row normalizes to, and each entry holds the
    five fields [gsc_clicks], [gsc_impressions], [gsc_rows], [gsc_ctr] and
    [gsc_position] and nothing else (the weighted sums of the loop are
    removed): [gsc_rows] is the number of rows of the URL, at least one, and
    the clicks and the impressions are their sums, taken from 0.0 in input
    order, a missing or non-numeric metric counting as 0. *)
Theorem gsc_aggregate_fields {F : Type} `{Numeric F}
    (valid_bracketed_host : string → bool) (urljoin : string → string → string)
    (rows : list (gsc_row F)) (dimensions : option (list string))
    (base_url : option string) (result : gmap string (pydict F)) (url : string) :
  normalize_gsc_rows_by_page valid_bracketed_host urljoin rows dimensions base_url
  = Some result →
  let rs := rows_of (gsc_key valid_bracketed_host urljoin
                       (gsc_page_index dimensions) base_url) url rows in
  (url ∈ dom result ↔ rs ≠ [])
  ∧ ∀ agg, result !! url = Some agg →
      dom agg = ({[ "gsc_clicks"; "gsc_impressions"; "gsc_rows"; "gsc_ctr";
                   "gsc_position" ]} : gset string)
      ∧ agg !! "gsc_rows" = Some (VInt (Z.of_nat (length rs)))
      ∧ (1 ≤ length rs)%nat
      ∧ agg !! "gsc_clicks" = Some (VNum (total row_clicks rs))
      ∧ agg !! "gsc_impressions" = Some (VNum (total row_impressions rs)).
Proof.
  unfold normalize_gsc_rows_by_page. intros (bucket & Hloop & Hres)%bind_Some.
  rewrite gsc_loop_bucket_loop in Hloop. cbv zeta. split.
  - rewrite (map_mapM_dom _ _ _ Hres), elem_of_dom.
    by apply bucket_loop_urls with (add := gsc_add) (dflt := gsc_default).
  - intros agg Hagg. rewrite (map_mapM_Some _ _ _ Hres url) in Hagg.
    apply bind_Some in Hagg as (item & Hitem & Hagg).
    rewrite (bucket_loop_lookup _ _ _ _ _ _ url Hloop), lookup_empty in Hitem.
    unfold entry_after in Hitem.
    destruct (rows_of _ url rows) as [|r rs] eqn:Hrs; [done|].
    injection Hitem as <-.
    change (foldl gsc_add (gsc_add (default gsc_default None) r) rs)
      with (foldl gsc_add gsc_default (r :: rs)) in Hagg.
    destruct (gsc_finish_fields _ _ Hagg) as (Hdom & Hclicks & Himp).
    split; [done|]. split.
    { rewrite (gsc_finish_rows _ _ Hagg), foldl_gsc_add_rows.
      do 2 f_equal. cbn [gsc_rows gsc_add gsc_default length]. lia. }
    split; [simpl; lia|].
    destruct (foldl_gsc_add gsc_default (r :: rs)) as (E1 & _ & _).
    split.
    + rewrite Hclicks. do 2 f_equal. exact (foldl_gsc_add_clicks gsc_default (r :: rs)).
    + rewrite Himp. do 2 f_equal. exact E1.
Qed.

Lemma gsc_aggregate_fields_witness :
  let rs := rows_of (gsc_key (λ _, true) (λ _ text, text) (gsc_page_index None) None)
                    "https://ex.com/a" WeightedExample.rows in
  ("https://ex.com/a" ∈ dom ({[ "https://ex.com/a" := WeightedExample.aggregate ]}
                               : gmap string (pydict float))
   ↔ rs ≠ [])
  ∧ ∀ agg, ({[ "https://ex.com/a" := WeightedExample.aggregate ]}
              : gmap string (pydict float)) !! "https://ex.com/a" = Some agg →
      dom agg = ({[ "gsc_clicks"; "gsc_impressions"; "gsc_rows"; "gsc_ctr";
                   "gsc_position" ]} : gset string)
      ∧ agg !! "gsc_rows" = Some (VInt (Z.of_nat (length rs)))
      ∧ (1 ≤ length rs)%nat
      ∧ agg !! "gsc_clicks" = Some (VNum (total row_clicks rs))
      ∧ agg !! "gsc_impressions" = Some (VNum (total row_impressions rs)).
Proof.
  apply (gsc_aggregate_fields (λ _, true) (λ _ text, text) WeightedExample.rows
           None None).
  apply WeightedExample.aggregate_ok.
Defined.

(** ** The sign and the range of a delta (compute_delta_pct) *)

(** X17: over exact arithmetic, a delta that is a number was computed
    against a positive previous value; it is negative, zero or positive as
    the current value is below, equal to or above the previous one, and a
    current value that is not negative cannot fall by more than 100%. *)
Theorem delta_pct_sign (current previous delta : R) :
  compute_delta_pct current previous = Some (VNum delta) →
  (0 < previous)%R
  ∧ (delta < 0 ↔ current < previous)%R
  ∧ (delta = 0 ↔ current = previous)%R
  ∧ (0 <= current → -1 <= delta)%R.
Proof.
  unfold compute_delta_pct. cbn [fleb fsub exact].
  destruct (Rleb previous f0) eqn:Hp; [done|].
  apply Rleb_false in Hp. rewrite f0_exact in Hp.
  rewrite py_div_exact by lra. intros [= <-].
  assert (0 < / previous)%R as Hinv by by apply Rinv_0_lt_compat.
  assert ((current - previous) / previous = current * / previous - 1)%R as ->
    by (field; lra).
  assert (current = (current * / previous) * previous)%R as Hc by (field; lra).
  split; [done|]. split; [|split].
  - split; intros Hlt; nra.
  - split; intros Heq; nra.
  - intros Hcur. assert (0 <= current * / previous)%R by (apply Rmult_le_pos; lra). lra.
Qed.

Lemma delta_pct_sign_witness :
  (0 < 4)%R
  ∧ ((3 - 4) / 4 < 0 ↔ 3 < 4)%R
  ∧ ((3 - 4) / 4 = 0 ↔ 3 = 4)%R
  ∧ (0 <= 3 → -1 <= (3 - 4) / 4)%R.
Proof.
  apply (delta_pct_sign 3 4 ((3 - 4) / 4)).
  unfold compute_delta_pct. cbn [fleb fsub exact].
  rewrite (proj2 (Rleb_false 4 f0)) by (rewrite f0_exact; lra).
  by rewrite py_div_exact by lra.
Defined.

(** ** config.py: the two date ranges (current_and_previous_ranges) *)

Section DateFacts.
Variable parse_date : string → option Z.
Variable isoformat : Z → string.

Lemma date_minus_days_Some (d days d' : Z) :
  date_minus_days d days = Some d' →
  d' = (d - days)%Z ∧ (1 ≤ d' ≤ date_max)%Z.
Proof.
  unfold date_minus_days, timedelta, check_date.
  case_bool_decide; [|done]. cbn [mbind option_bind].
  case_bool_decide; [|done]. by intros [= <-].
Qed.

Lemma ranges_as_dates_inv (today : Z) (start_date end_date : option string)
    (lookback_days start end_ prev_start prev_end : Z) :
  ranges_as_dates parse_date today start_date end_date lookback_days
  = Some ((start, end_), (prev_start, prev_end)) →
  prev_end = (start - 1)%Z
  ∧ (prev_end - prev_start = end_ - start)%Z
  ∧ (start_date = None ∨ start_date = Some "" →
     (end_ - start = lookback_days - 1)%Z)
  ∧ (end_date = None ∨ end_date = Some "" → end_ = (today - 1)%Z)
  ∧ (1 ≤ prev_start ≤ date_max)%Z ∧ (1 ≤ prev_end ≤ date_max)%Z.
Proof.
  unfold ranges_as_dates. intros Hr.
  apply bind_Some in Hr as (yesterday & [-> _]%date_minus_days_Some & Hr).
  apply bind_Some in Hr as (e & He & Hr).
  apply bind_Some in Hr as (s & Hs & Hr).
  apply bind_Some in Hr as (pe & [-> Hpe]%date_minus_days_Some & Hr).
  apply bind_Some in Hr as (ps & [-> Hps]%date_minus_days_Some & Hr).
  injection Hr as <- <- <- <-.
  split; [done|]. split; [lia|]. split; [|split; [|done]].
  - intros [-> | ->].
    + apply date_minus_days_Some in Hs as [-> _]. lia.
    + rewrite bool_decide_true in Hs by done.
      apply date_minus_days_Some in Hs as [-> _]. lia.
  - intros [-> | ->]; simpl in He; by injection He as <-.
Qed.
End DateFacts.

Module RangeExample.
(** 2024-03-01 is day 738946 and 2024-03-10 day 738955. *)
Definition parse_date (value : string) : option Z :=
  if bool_decide (value = "2024-03-01") then Some 738946%Z
  else if bool_decide (value = "2024-03-10") then Some 738955%Z
  else None.

Definition isoformat (d : Z) : string :=
  if bool_decide (d = 738946%Z) then "2024-03-01"
  else if bool_decide (d = 738955%Z) then "2024-03-10"
  else if bool_decide (d = 738936%Z) then "2024-02-20"
  else if bool_decide (d = 738945%Z) then "2024-02-29"
  else "".
End RangeExample.

(** X18: whenever [current_and_previous_ranges] returns, its two ranges are
    the ISO forms of dates such that the previous range ends on the day
    before the current one starts and spans as many days; without a start
    date the current range spans [lookback_days] days, and without an end
    date it ends yesterday.  Nothing orders the dates: a start after the end
    gives a previous range that is inverted as well. *)
Theorem previous_range_mirrors_current (parse_date : string → option Z)
    (isoformat : Z → string) (today : Z) (start_date end_date : option string)
    (lookback_days : Z) (ranges : (string * string) * (string * string)) :
  current_and_previous_ranges parse_date isoformat today start_date end_date
    lookback_days = Some ranges →
  ∃ start end_ prev_start prev_end : Z,
    ranges = ((isoformat start, isoformat end_),
              (isoformat prev_start, isoformat prev_end))
    ∧ prev_end = (start - 1)%Z
    ∧ (prev_end - prev_start = end_ - start)%Z
    ∧ (start_date = None ∨ start_date = Some "" →
       (end_ - start + 1 = lookback_days)%Z)
    ∧ (end_date = None ∨ end_date = Some "" → end_ = (today - 1)%Z)
    ∧ (end_ < start → prev_end < prev_start)%Z.
Proof.
  unfold current_and_previous_ranges.
  intros ([[s e] [ps pe]] & Hr & [= <-])%bind_Some.
  apply ranges_as_dates_inv in Hr as (Hpe & Hspan & Hstart & Hend & _).
  exists s, e, ps, pe. split; [done|]. split; [done|]. split; [done|].
  split; [intros Hs; specialize (Hstart Hs); lia|]. split; [done|lia].
Qed.

Lemma previous_range_mirrors_current_witness :
  ∃ start end_ prev_start prev_end : Z,
    (("2024-03-01", "2024-03-10"), ("2024-02-20", "2024-02-29"))
    = ((RangeExample.isoformat start, RangeExample.isoformat end_),
       (RangeExample.isoformat prev_start, RangeExample.isoformat prev_end))
    ∧ prev_end = (start - 1)%Z
    ∧ (prev_end - prev_start = end_ - start)%Z
    ∧ (@None string = None ∨ None = Some "" → (end_ - start + 1 = 10)%Z)
    ∧ (Some "2024-03-10" = None ∨ Some "2024-03-10" = Some "" →
       end_ = (739000 - 1)%Z)
    ∧ (end_ < start → prev_end < prev_start)%Z.
Proof.
  apply (previous_range_mirrors_current RangeExample.parse_date RangeExample.isoformat
           739000 None (Some "2024-03-10") 10).
  vm_compute. reflexivity.
Defined.

(** ** config.py: boolean settings (_parse_bool) *)

Section LowerStrip.
Lemma lstrip_by_lower (s : string) :
  lstrip_by is_space (lower s) = lower (lstrip_by is_space s).
Proof.
  induction s as [|c s IH]; simpl; [done|].
  rewrite is_space_lower. by destruct (is_space c).
Qed.

Lemma rstrip_by_lower (s : string) :
  rstrip_by is_space (lower s) = lower (rstrip_by is_space s).
Proof.
  induction s as [|c s IH]; simpl; [done|].
  rewrite IH, is_space_lower.
  destruct (rstrip_by is_space s); simpl; [by destruct (is_space c)|done].
Qed.

Lemma strip_lower (s : string) : strip (lower s) = lower (strip s).
Proof. unfold strip. by rewrite lstrip_by_lower, rstrip_by_lower. Qed.
End LowerStrip.

(** X19: [_parse_bool] uses its default only for an unset variable: a
    value that is set decides alone, so that an empty or unrecognised value
    reads as [False] even where the default is [True]; and the value is read
    without regard to letter case and surrounding whitespace. *)
Theorem parse_bool_reads_value_only (value : string) (default default' : bool) :
  _parse_bool (Some value) default = _parse_bool (Some value) default'
  ∧ _parse_bool (Some (strip value)) default = _parse_bool (Some value) default
  ∧ _parse_bool (Some (lower value)) default = _parse_bool (Some value) default
  ∧ (strip value = "" → _parse_bool (Some value) true = false)
  ∧ _parse_bool None default = default.
Proof.
  unfold _parse_bool. split; [done|]. split; [by rewrite strip_idem|].
  split; [by rewrite strip_lower, lower_idem|]. split; [|done].
  intros ->. reflexivity.
Qed.

(** ** Pages without previous data (merge_page_metrics, build_trend_report) *)

Section NoPrevious.
Context {F : Type} `{NumericLaws F}.
Hypothesis zero_le_zero : (f0 <=? f0)%num = true.

Lemma merge_row_no_previous_gsc (gc ac gp ap : gmap string (pydict F)) url row :
  metric_aggregate gc → metric_aggregate ac →
  merge_row gc ac gp ap url = Some row →
  default ∅ (gp !! url) = ∅ →
  row !! "gsc_clicks_delta_pct" = Some VNone
  ∧ row !! "gsc_impressions_delta_pct" = Some VNone.
Proof.
  intros Hgc Hac Hrow Hprev.
  destruct (merge_row_record gc ac gp ap url row Hgc Hac Hrow)
    as (_ & _ & _ & Hg & _).
  cbv zeta in Hg. rewrite decide_True in Hg by done. destruct Hg as [Hc Hi].
  pose proof (merge_row_deltas gc ac gp ap url row Hrow) as Hdelta.
  split.
  - destruct (Hdelta "gsc_clicks_delta_pct" "gsc_clicks" "gsc_prev_clicks")
      as (c & p & _ & Hp & ->); [unfold delta_fields; set_solver|].
    rewrite (get_float_absent _ _ Hc) in Hp. injection Hp as <-.
    unfold compute_delta_pct. by rewrite zero_le_zero.
  - destruct (Hdelta "gsc_impressions_delta_pct" "gsc_impressions"
                "gsc_prev_impressions")
      as (c & p & _ & Hp & ->); [unfold delta_fields; set_solver|].
    rewrite (get_float_absent _ _ Hi) in Hp. injection Hp as <-.
    unfold compute_delta_pct. by rewrite zero_le_zero.
Qed.

Lemma merge_row_no_previous_ga4 (gc ac gp ap : gmap string (pydict F)) url row :
  metric_aggregate gc → metric_aggregate ac →
  merge_row gc ac gp ap url = Some row →
  default ∅ (ap !! url) = ∅ →
  row !! "ga4_sessions_delta_pct" = Some VNone
  ∧ row !! "ga4_conversions_delta_pct" = Some VNone.
Proof.
  intros Hgc Hac Hrow Hprev.
  destruct (merge_row_record gc ac gp ap url row Hgc Hac Hrow)
    as (_ & _ & _ & _ & Ha).
  cbv zeta in Ha. rewrite decide_True in Ha by done. destruct Ha as [Hs Hc].
  pose proof (merge_row_deltas gc ac gp ap url row Hrow) as Hdelta.
  split.
  - destruct (Hdelta "ga4_sessions_delta_pct" "ga4_sessions" "ga4_prev_sessions")
      as (c & p & _ & Hp & ->); [unfold delta_fields; set_solver|].
    rewrite (get_float_absent _ _ Hs) in Hp. injection Hp as <-.
    unfold compute_delta_pct. by rewrite zero_le_zero.
  - destruct (Hdelta "ga4_conversions_delta_pct" "ga4_conversions"
                "ga4_prev_conversions")
      as (c & p & _ & Hp & ->); [unfold delta_fields; set_solver|].
    rewrite (get_float_absent _ _ Hc) in Hp. injection Hp as <-.
    unfold compute_delta_pct. by rewrite zero_le_zero.
Qed.

Lemma movers_nothing (field : string) (reverse : bool) (top_n : Z)
    (pages : list (pydict F)) :
  Forall (λ p, p !! field = Some VNone) pages →
  movers field reverse top_n pages = Some [].
Proof.
  intros Hpages. unfold movers.
  assert (filter (λ p, has_number field p) pages = []) as ->.
  { induction Hpages as [|p pages Hp _ IH]; [done|]. rewrite filter_cons, IH.
    rewrite decide_False; [done|]. unfold has_number. rewrite Hp.
    intros Hnum%Is_true_true%bool_decide_eq_true. by destruct Hnum. }
  destruct reverse; simpl; unfold py_slice_to;
    destruct (0 <=? top_n)%Z; by rewrite take_nil.
Qed.
End NoPrevious.

Module NoPreviousExample.
#[local] Open Scope float_scope.
Definition gsc_current : gmap string (pydict float) :=
  {[ "https://ex.com/a" := {[ "gsc_clicks" := VNum 10 ]} ]}.

Lemma gsc_current_ok : metric_aggregate gsc_current.
Proof.
  unfold gsc_current. intros url d [<- <-]%lookup_singleton_Some. split.
  - intros k v [<- <-]%lookup_singleton_Some. by eexists.
  - intros k Hk. unfold reserved_names in Hk.
    repeat (apply elem_of_cons in Hk as [->|Hk]; [done|]).
    by apply elem_of_nil in Hk.
Qed.

Lemma empty_ok : metric_aggregate (∅ : gmap string (pydict float)).
Proof. intros url d Hd. by rewrite lookup_empty in Hd. Qed.

Definition row : pydict float :=
  {[ "url" := VStr "https://ex.com/a"; "gsc_clicks" := VNum 10;
     "gsc_clicks_delta_pct" := VNone; "gsc_impressions_delta_pct" := VNone;
     "ga4_sessions_delta_pct" := VNone; "ga4_conversions_delta_pct" := VNone ]}.

Lemma merged : merge_page_metrics (Some gsc_current) None None None = Some [row].
Proof. vm_compute. reflexivity. Qed.
End NoPreviousExample.

(** X20: in every arithmetic obeying the order laws in which [0.0 <= 0.0],
    a page for which a source has no previous entry (or an empty one) gets
    [None] as both deltas of that source, whatever its current values; and
    when no page has previous data, as when the previous period is not
    fetched, all four lists of [build_trend_report] are empty. *)
Theorem deltas_need_previous_data {F : Type} `{NumericLaws F}
    (gsc_current ga4_current gsc_previous ga4_previous
       : option (gmap string (pydict F))) (rows : list (pydict F)) :
  let gc := default ∅ gsc_current in
  let ac := default ∅ ga4_current in
  let gp := default ∅ gsc_previous in
  let ap := default ∅ ga4_previous in
  (f0 <=? f0)%num = true →
  metric_aggregate gc → metric_aggregate ac →
  merge_page_metrics gsc_current ga4_current gsc_previous ga4_previous = Some rows →
  Forall2 (λ url row,
             (default ∅ (gp !! url) = ∅ →
              row !! "gsc_clicks_delta_pct" = Some VNone
              ∧ row !! "gsc_impressions_delta_pct" = Some VNone)
             ∧ (default ∅ (ap !! url) = ∅ →
                row !! "ga4_sessions_delta_pct" = Some VNone
                ∧ row !! "ga4_conversions_delta_pct" = Some VNone))
          (merge_urls gc ac gp ap) rows
  ∧ (gp = ∅ → ap = ∅ →
     ∀ top_n, build_trend_report rows top_n
              = Some {| click_gainers := []; click_decliners := [];
                        session_gainers := []; session_decliners := [] |}).
Proof.
  intros gc ac gp ap Hzero Hgc Hac Hrows.
  pose proof (merge_page_metrics_rows _ _ _ _ _ Hrows) as Hall.
  fold gc ac gp ap in Hall.
  assert (Forall2 (λ url row,
             (default ∅ (gp !! url) = ∅ →
              row !! "gsc_clicks_delta_pct" = Some VNone
              ∧ row !! "gsc_impressions_delta_pct" = Some VNone)
             ∧ (default ∅ (ap !! url) = ∅ →
                row !! "ga4_sessions_delta_pct" = Some VNone
                ∧ row !! "ga4_conversions_delta_pct" = Some VNone))
          (merge_urls gc ac gp ap) rows) as Hdeltas.
  { eapply Forall2_impl; [exact Hall|]. intros url row Hrow. split; intros Hprev.
    - exact (merge_row_no_previous_gsc Hzero gc ac gp ap url row Hgc Hac Hrow Hprev).
    - exact (merge_row_no_previous_ga4 Hzero gc ac gp ap url row Hgc Hac Hrow Hprev). }
  split; [done|]. intros Hgp Hap top_n.
  assert (Forall (λ row, row !! "gsc_clicks_delta_pct" = Some VNone
                         ∧ row !! "ga4_sessions_delta_pct" = Some VNone) rows)
    as Hnone.
  { apply Forall2_Forall_r with (1 := Hdeltas). apply Forall_forall.
    intros url _ row [Hg Ha]. rewrite Hgp, Hap, lookup_empty in *.
    split; [by apply Hg|by apply Ha]. }
  unfold build_trend_report.
  rewrite !(movers_nothing "gsc_clicks_delta_pct")
    by (eapply Forall_impl; [exact Hnone|]; by intros p [? _]).
  rewrite !(movers_nothing "ga4_sessions_delta_pct")
    by (eapply Forall_impl; [exact Hnone|]; by intros p [_ ?]).
  done.
Qed.

Lemma deltas_need_previous_data_witness :
  Forall2 (λ url row,
             (default ∅ ((∅ : gmap string (pydict float)) !! url) = ∅ →
              row !! "gsc_clicks_delta_pct" = Some VNone
              ∧ row !! "gsc_impressions_delta_pct" = Some VNone)
             ∧ (default ∅ ((∅ : gmap string (pydict float)) !! url) = ∅ →
                row !! "ga4_sessions_delta_pct" = Some VNone
                ∧ row !! "ga4_conversions_delta_pct" = Some VNone))
          (merge_urls NoPreviousExample.gsc_current ∅ ∅ ∅) [NoPreviousExample.row]
  ∧ ((∅ : gmap string (pydict float)) = ∅ → (∅ : gmap string (pydict float)) = ∅ →
     ∀ top_n, build_trend_report [NoPreviousExample.row] top_n
              = Some {| click_gainers := []; click_decliners := [];
                        session_gainers := []; session_decliners := [] |}).
Proof.
  apply (@deltas_need_previous_data float binary64 binary64_laws
           (Some NoPreviousExample.gsc_current) None None None
           [NoPreviousExample.row]).
  - vm_compute. reflexivity.
  - apply NoPreviousExample.gsc_current_ok.
  - apply NoPreviousExample.empty_ok.
  - apply NoPreviousExample.merged.
Defined.

(** ** Paging terminates and respects the cap (connectors) *)

Section PagingFacts.
Context {Row : Type}.

Lemma search_analytics_loop_spec (query : nat → Z → Z → list Row)
    (page_size max_rows : Z) (fuel : nat) :
  ∀ (call : nat) (start_row : Z) (all_rows : list Row),
    (0 ≤ start_row)%Z → (Z.to_nat (max_rows - start_row) < fuel)%nat →
    ∃ rows,
      (∀ fuel', (fuel ≤ fuel')%nat →
         search_analytics_loop query fuel' call page_size max_rows start_row all_rows
         = Some rows)
      ∧ ((∀ i s l, (length (query i s l) ≤ Z.to_nat l)%nat) →
         (start_row ≤ max_rows ∨ start_row = 0)%Z →
         length all_rows = Z.to_nat start_row →
         (length rows ≤ Z.to_nat max_rows)%nat).
Proof.
  induction fuel as [|fuel IH]; intros call start_row all_rows Hstart Hfuel; [lia|].
  destruct (start_row <? max_rows)%Z eqn:Hlt.
  - apply Z.ltb_lt in Hlt.
    set (limit := Z.min page_size (max_rows - start_row)).
    destruct (query call start_row limit) as [|row rows'] eqn:Hq.
    { exists all_rows. split.
      - intros [|fuel'] Hle; [lia|]. simpl.
        rewrite (proj2 (Z.ltb_lt _ _) Hlt). fold limit. by rewrite Hq.
      - intros _ _ Hlen. lia. }
    set (rows := row :: rows') in *.
    destruct (Z.of_nat (length rows) <? page_size)%Z eqn:Hshort.
    { exists (all_rows ++ rows). split.
      - intros [|fuel'] Hle; [lia|]. simpl.
        rewrite (proj2 (Z.ltb_lt _ _) Hlt). fold limit. rewrite Hq. fold rows.
        by rewrite Hshort.
      - intros Hhonest _ Hlen. rewrite length_app, Hlen.
        pose proof (Hhonest call start_row limit) as Hl. rewrite Hq in Hl.
        fold rows in Hl. lia. }
    destruct (IH (S call) (start_row + Z.of_nat (length rows))%Z (all_rows ++ rows))
      as (result & Hres & Hbound); [lia|simpl; lia|].
    exists result. split.
    + intros [|fuel'] Hle; [lia|]. simpl.
      rewrite (proj2 (Z.ltb_lt _ _) Hlt). fold limit. rewrite Hq. fold rows.
      rewrite Hshort. apply Hres. lia.
    + intros Hhonest _ Hlen. apply Hbound; [done| |].
      * pose proof (Hhonest call start_row limit) as Hl. rewrite Hq in Hl.
        fold rows in Hl. lia.
      * rewrite length_app, Hlen. lia.
  - apply Z.ltb_ge in Hlt. exists all_rows. split.
    + intros [|fuel'] Hle; [lia|]. simpl. by rewrite (proj2 (Z.ltb_ge _ _) Hlt).
    + intros _ Hinv Hlen. lia.
Qed.

Lemma run_report_loop_spec (report : nat → Z → Z → list Row * option Z)
    (page_size max_rows : Z) (fuel : nat) :
  ∀ (call : nat) (offset : Z) (all_rows : list Row),
    (0 ≤ offset)%Z → (Z.to_nat (max_rows - offset) < fuel)%nat →
    ∃ rows,
      (∀ fuel', (fuel ≤ fuel')%nat →
         run_report_loop report fuel' call page_size max_rows offset all_rows
         = Some rows)
      ∧ ((∀ i s l, (length (report i s l).1 ≤ Z.to_nat l)%nat) →
         (offset ≤ max_rows ∨ offset = 0)%Z →
         length all_rows = Z.to_nat offset →
         (length rows ≤ Z.to_nat max_rows)%nat).
Proof.
  induction fuel as [|fuel IH]; intros call offset all_rows Hstart Hfuel; [lia|].
  destruct (offset <? max_rows)%Z eqn:Hlt.
  - apply Z.ltb_lt in Hlt.
    set (limit := Z.min page_size (max_rows - offset)).
    destruct (report call offset limit) as [[|row rows'] row_count] eqn:Hq.
    { exists all_rows. split.
      - intros [|fuel'] Hle; [lia|]. simpl.
        rewrite (proj2 (Z.ltb_lt _ _) Hlt). fold limit. by rewrite Hq.
      - intros _ _ Hlen. lia. }
    set (rows := row :: rows') in *.
    assert ((∀ i s l, (length (report i s l).1 ≤ Z.to_nat l)%nat) →
            (length rows ≤ Z.to_nat limit)%nat) as Hpage.
    { intros Hhonest. pose proof (Hhonest call offset limit) as Hl.
      by rewrite Hq in Hl. }
    destruct (Z.of_nat (length rows) <? page_size)%Z eqn:Hshort.
    { exists (all_rows ++ rows). split.
      - intros [|fuel'] Hle; [lia|]. simpl.
        rewrite (proj2 (Z.ltb_lt _ _) Hlt). fold limit. rewrite Hq. fold rows.
        by rewrite Hshort.
      - intros Hhonest _ Hlen. rewrite length_app, Hlen.
        specialize (Hpage Hhonest). lia. }
    destruct (match row_count with
              | Some n => (n <=? Z.of_nat (length (all_rows ++ rows)))%Z
              | None => false
              end) eqn:Hcount.
    { exists (all_rows ++ rows). split.
      - intros [|fuel'] Hle; [lia|]. simpl.
        rewrite (proj2 (Z.ltb_lt _ _) Hlt). fold limit. rewrite Hq. fold rows.
        by rewrite Hshort, Hcount.
      - intros Hhonest _ Hlen. rewrite length_app, Hlen.
        specialize (Hpage Hhonest). lia. }
    destruct (IH (S call) (offset + Z.of_nat (length rows))%Z (all_rows ++ rows))
      as (result & Hres & Hbound); [lia|simpl; lia|].
    exists result. split.
    + intros [|fuel'] Hle; [lia|]. simpl.
      rewrite (proj2 (Z.ltb_lt _ _) Hlt). fold limit. rewrite Hq. fold rows.
      rewrite Hshort, Hcount. apply Hres. lia.
    + intros Hhonest _ Hlen. apply Hbound; [done| |].
      * specialize (Hpage Hhonest). lia.
      * rewrite length_app, Hlen. lia.
  - apply Z.ltb_ge in Hlt. exists all_rows. split.
    + intros [|fuel'] Hle; [lia|]. simpl. by rewrite (proj2 (Z.ltb_ge _ _) Hlt).
    + intros _ Hinv Hlen. lia.
Qed.
End PagingFacts.

(** X21: whatever the service answers, both paging loops stop after at most
    [max_rows + 1] requests (with that much fuel and with any more they
    return the same rows), because a request is repeated only after a page
    that was not empty; and when the service never returns more rows than
    the limit of the request, the rows collected are at most [max_rows]
    (none for a [max_rows] of zero or less). *)
Theorem paging_stops_within_cap {Row : Type} (page_size max_rows : Z) :
  (∀ query : nat → Z → Z → list Row,
     ∃ rows,
       (∀ fuel, (Z.to_nat max_rows < fuel)%nat →
                search_analytics_all query fuel page_size max_rows = Some rows)
       ∧ ((∀ i s l, (length (query i s l) ≤ Z.to_nat l)%nat) →
          (length rows ≤ Z.to_nat max_rows)%nat))
  ∧ (∀ report : nat → Z → Z → list Row * option Z,
       ∃ rows,
         (∀ fuel, (Z.to_nat max_rows < fuel)%nat →
                  run_report_all report fuel page_size max_rows = Some rows)
         ∧ ((∀ i s l, (length (report i s l).1 ≤ Z.to_nat l)%nat) →
            (length rows ≤ Z.to_nat max_rows)%nat)).
Proof.
  split.
  - intros query.
    destruct (search_analytics_loop_spec query page_size max_rows
                (S (Z.to_nat max_rows)) 0 0 [])
      as (rows & Hrows & Hbound); [lia|rewrite Z.sub_0_r; lia|].
    exists rows. split.
    + intros fuel Hfuel. apply Hrows. lia.
    + intros Hhonest. apply Hbound; [done|by right|done].
  - intros report.
    destruct (run_report_loop_spec report page_size max_rows
                (S (Z.to_nat max_rows)) 0 0 [])
      as (rows & Hrows & Hbound); [lia|rewrite Z.sub_0_r; lia|].
    exists rows. split.
    + intros fuel Hfuel. apply Hrows. lia.
    + intros Hhonest. apply Hbound; [done|by right|done].
Qed.

(** ** Query/page opportunities (analytics_query_page_opportunities) *)

Lemma sorted_take {A} (rel : relation A) (n : nat) (l : list A) :
  StronglySorted rel l → StronglySorted rel (take n l).
Proof.
  intros Hl. revert n. induction Hl as [|x l Hl IH Hx]; intros [|n]; simpl;
    try constructor; [apply IH|by apply Forall_take].
Qed.

Section SortByKey.
Context {A : Type} (f : A → R).

Lemma zip_keys (l : list A) : Forall (λ kp : R * A, kp.1 = f kp.2) (zip (f <$> l) l).
Proof. induction l as [|x l IH]; simpl; by constructor. Qed.

Lemma sort_by_key_desc (l : list A) :
  let sorted := (sort_by_desc (zip (f <$> l) l)).*2 in
  sorted ≡ₚ l ∧ StronglySorted (λ a b, (f b <= f a)%R) sorted.
Proof.
  cbv zeta. split.
  - rewrite sort_by_desc_perm. rewrite snd_zip; [done|]. by rewrite length_fmap.
  - pose proof (sort_by_desc_sorted (zip (f <$> l) l)) as Hsorted.
    assert (Forall (λ kp : R * A, kp.1 = f kp.2) (sort_by_desc (zip (f <$> l) l)))
      as Hkeys by (rewrite sort_by_desc_perm; apply zip_keys).
    induction Hsorted as [|kp keyed Hs IH Hkp]; simpl; [constructor|].
    apply Forall_cons in Hkeys as [Hk Hkeys]. constructor; [by apply IH|].
    rewrite Forall_fmap. rewrite Forall_forall in *. intros kq Hq. simpl.
    rewrite <- Hk, <- (Hkeys kq Hq). by apply Hkp.
Qed.
End SortByKey.

Lemma Rround_2_upper (x : R) (n : Z) : (x <= IZR n)%R → (Rround 2 x <= IZR n)%R.
Proof.
  intros Hx. rewrite Rround_2.
  pose proof (round_half_even_near (x * 100)) as [Hlo _].
  assert (round_half_even (x * 100) ≤ n * 100)%Z as Hr.
  { apply Z.lt_succ_r, lt_IZR. unfold Z.succ. rewrite plus_IZR, mult_IZR. lra. }
  apply IZR_le in Hr. rewrite mult_IZR in Hr. lra.
Qed.

Lemma opportunity_score_bounds (target_ctr target_conversion_rate : R)
    (impressions ctr sessions conversion_rate score : R) :
  opportunity_score target_ctr target_conversion_rate impressions ctr sessions
    conversion_rate = Some score →
  (score <= 115)%R ∧ ((0 <= impressions)%R → (0 <= score)%R).
Proof.
  unfold opportunity_score.
  rewrite py_div_exact by (pose proof (py_max_target_pos target_ctr); lra).
  cbn [mbind option_bind]. rewrite !py_max_exact, py_min_exact, lit_int, lit_exact.
  cbn [fadd fsub fmul fdiv of_Z exact]. rewrite f0_exact.
  set (gap := (Rmax 0 (target_ctr - ctr) / Rmax target_ctr (1 / 1000000))%R).
  assert (0 <= gap)%R as Hgap.
  { unfold gap. apply Rmult_le_pos; [apply Rmax_l|].
    apply Rlt_le, Rinv_0_lt_compat.
    apply Rlt_le_trans with (1 / 1000000)%R; [lra|apply Rmax_r]. }
  pose proof (Rmin_l 100 (gap * 60 + impressions / 1000 * 4)) as Hcap.
  assert ((0 <= impressions)%R → (0 <= Rmin 100 (gap * 60 + impressions / 1000 * 4))%R)
    as Hpos by (intros Hi; apply Rmin_glb; lra).
  destruct (_ && _); intros [= <-]; split; try lra; intros Hi; specialize (Hpos Hi); lra.
Qed.

Section OpportunityFacts.
Variable valid_bracketed_host : string → bool.
Variable urljoin : string → string → string.

(** What holds of every opportunity listed. *)
Definition opportunity_ok (min_impressions : Z) (o : Opportunity R) : Prop :=
  (opp_score o <= 115)%R ∧ ((0 ≤ min_impressions)%Z → (0 <= opp_score o)%R).

Lemma opportunity_of_ok settings base_url min_impressions ga4_pages row
    (o : Opportunity R) :
  opportunity_of valid_bracketed_host urljoin settings base_url min_impressions
    ga4_pages row = Some (Some o) →
  opportunity_ok min_impressions o.
Proof.
  unfold opportunity_of. destruct (keys row) as [|query [|page ?]]; [done..|].
  intros (normalized & _ & Ho)%bind_Some.
  cbn [fltb fleb exact of_Z] in Ho.
  destruct (Rltb _ (IZR min_impressions)) eqn:Himp; [done|].
  destruct (Rleb (target_ctr settings) _); [done|].
  apply bind_Some in Ho as (score & Hscore & [= <-]).
  apply opportunity_score_bounds in Hscore as [Hhi Hlo].
  apply Rltb_false in Himp. unfold opportunity_ok. cbn [opp_score].
  assert ((0 ≤ min_impressions)%Z → (0 <= score)%R) as Hlo'.
  { intros Hmin%IZR_le. apply Hlo. lra. }
  split; [by apply (Rround_2_upper _ 115)|].
  intros Hmin. apply Rround_2_nonneg. by apply Hlo'.
Qed.

Lemma opportunities_ok settings base_url min_impressions ga4_pages rows
    (found : list (Opportunity R)) :
  opportunities valid_bracketed_host urljoin settings base_url min_impressions
    ga4_pages rows = Some found →
  Forall (opportunity_ok min_impressions) found ∧ (length found ≤ length rows)%nat.
Proof.
  revert found. induction rows as [|row rows IH]; intros found; simpl.
  { intros [= <-]. split; [constructor|done]. }
  intros (o & Ho & (rest & Hrest & [= <-])%bind_Some)%bind_Some.
  destruct (IH rest Hrest) as [Hok Hlen]. destruct o as [o|]; [|split; [done|lia]].
  split; [|simpl; lia]. constructor; [|done]. by eapply opportunity_of_ok.
Qed.
End OpportunityFacts.

Module OpportunityExample.
Definition settings : Settings R :=
  {| min_impressions_for_ctr_action := 200;
     min_sessions_for_conversion_action := 50;
     target_ctr := (3/100)%R; target_conversion_rate := (2/100)%R;
     default_max_action_items := 30 |}.

(** A query/page pair with a CTR of 1% on 2000 impressions, and a row
    without a page. *)
Definition rows : list (gsc_row R) :=
  [ {| keys := ["shoes"; "https://ex.com/a"]; clicks := Some 20%R;
       impressions := Some 2000%R; ctr := Some (1/100)%R; position := Some 9%R |};
    {| keys := ["boots"]; clicks := None; impressions := None; ctr := None;
       position := None |} ].

Definition raw_score : R :=
  py_min (lit 100 1)
    (fdiv (py_max f0 (3/100 - 1/100)%R) (py_max (3/100)%R (lit 1 1000000)) * of_Z 60
     + fdiv 2000%R (of_Z 1000) * of_Z 4)%num.

Definition listed : Opportunity R :=
  {| opp_query := "shoes"; opp_page := "https://ex.com/a";
     opp_score := fround 2 raw_score;
     opp_clicks := fround 2 20%R; opp_impressions := fround 2 2000%R;
     opp_ctr := fround 4 (1/100)%R; opp_position := fround 2 9%R;
     opp_ga4_sessions := fround 2 f0; opp_ga4_conversion_rate := fround 4 f0;
     opp_recommended_actions :=
       ["Align title/H1 with the query intent and expected SERP promise.";
        "Add/strengthen content section directly answering this query.";
        "Improve internal links from related pages using intent-matching anchor text."]
  |}.

Lemma ranked :
  ranked_opportunities (λ _, true) (λ _ text, text) settings None 100 50 ∅ rows
  = Some (1%nat, [listed]).
Proof.
  unfold ranked_opportunities, opportunities, rows, opportunity_of.
  cbn [keys impressions ctr clicks position to_float].
  assert (normalize_url (λ _, true) (λ _ text, text) "https://ex.com/a" None
            true true false = Some "https://ex.com/a") as -> by (vm_compute; reflexivity).
  cbn [mbind option_bind fltb fleb exact of_Z target_ctr target_conversion_rate
       settings].
  rewrite (proj2 (Rltb_false 2000 100)) by lra.
  rewrite (proj2 (Rleb_false (3/100) (1/100))) by lra.
  unfold get_or. rewrite !lookup_empty. cbn [metric_or_zero].
  unfold opportunity_score.
  rewrite py_div_exact by (pose proof (py_max_target_pos (3/100)); lra).
  cbn [mbind option_bind fltb exact].
  rewrite (proj2 (Rltb_false f0 f0)) by (rewrite f0_exact; lra).
  reflexivity.
Qed.
End OpportunityExample.

(** X22: over exact arithmetic, every opportunity that
    [analytics_query_page_opportunities] lists has a score of at most 115
    (the capped 100 plus the 15 of a weak conversion rate), and of at least
    0 when [min_impressions] is not negative; the list is in descending
    order of the score, holds the first [max(1, top_n)] of the opportunities
    found, and the total counts at most one opportunity per row. *)
Theorem opportunity_scores_bounded (valid_bracketed_host : string → bool)
    (urljoin : string → string → string) (settings : Settings R)
    (base_url : option string) (min_impressions top_n : Z)
    (ga4_pages : gmap string (pydict R)) (rows : list (gsc_row R))
    (total : nat) (listed : list (Opportunity R)) :
  ranked_opportunities valid_bracketed_host urljoin settings base_url
    min_impressions top_n ga4_pages rows = Some (total, listed) →
  Forall (λ o, (opp_score o <= 115)%R
               ∧ ((0 ≤ min_impressions)%Z → (0 <= opp_score o)%R)) listed
  ∧ StronglySorted (λ a b, (opp_score b <= opp_score a)%R) listed
  ∧ length listed = (Z.to_nat (Z.max 1 top_n) `min` total)%nat
  ∧ (total ≤ length rows)%nat.
Proof.
  unfold ranked_opportunities. intros (found & Hfound & [= <- <-])%bind_Some.
  destruct (opportunities_ok _ _ _ _ _ _ _ _ Hfound) as [Hok Hlen].
  destruct (sort_by_key_desc opp_score found) as [Hperm Hsorted].
  cbv zeta in Hperm, Hsorted.
  set (sorted := (sort_by_desc (zip (opp_score <$> found) found)).*2) in *.
  assert (py_slice_to (Z.max 1 top_n) sorted
          = take (Z.to_nat (Z.max 1 top_n)) sorted) as ->.
  { unfold py_slice_to. rewrite (proj2 (Z.leb_le _ _)); [done|lia]. }
  split; [|split; [|split; [|done]]].
  - apply Forall_take. by rewrite Hperm.
  - by apply sorted_take.
  - rewrite length_take. by rewrite (Permutation_length Hperm).
Qed.

Lemma opportunity_scores_bounded_witness :
  Forall (λ o : Opportunity R,
            (opp_score o <= 115)%R ∧ ((0 ≤ 100)%Z → (0 <= opp_score o)%R))
         [OpportunityExample.listed]
  ∧ StronglySorted (λ a b : Opportunity R, (opp_score b <= opp_score a)%R)
                   [OpportunityExample.listed]
  ∧ length [OpportunityExample.listed] = (Z.to_nat (Z.max 1 50) `min` 1)%nat
  ∧ (1 ≤ length OpportunityExample.rows)%nat.
Proof.
  apply (opportunity_scores_bounded (λ _, true) (λ _ text, text)
           OpportunityExample.settings None 100 50 ∅ OpportunityExample.rows).
  apply OpportunityExample.ranked.
Defined.

(** * The scorer and the action items on merged records *)

(** ** What the merger guarantees of a record *)

Section MergedRecords.
Context {F : Type} `{NumericLaws F}.

(** Every record of the merger has a URL and holds numbers under the seven
    names the scorer reads, whatever its deltas are. *)
Lemma merged_page_scored (p : pydict F) :
  merged_page p →
  is_Some (p !! "url") ∧ ∀ k, k ∈ scoring_fields → is_Some (get_float p k).
Proof.
  intros Hp. split; [apply Hp|].
  apply (merged_page_fields scoring_fields p Hp).
  - unfold scoring_fields. set_solver.
  - intros k Hk. unfold scoring_fields, delta_names in *. set_solver.
Qed.

Lemma merged_pages_scored (gc ac gp ap : option (gmap string (pydict F))) rows :
  metric_aggregate (default ∅ gc) → metric_aggregate (default ∅ ac) →
  metric_aggregate (default ∅ gp) → metric_aggregate (default ∅ ap) →
  merge_page_metrics gc ac gp ap = Some rows →
  Forall (λ page, is_Some (page !! "url")
                  ∧ ∀ k, k ∈ scoring_fields → is_Some (get_float page k)) rows.
Proof.
  intros Hgc Hac Hgp Hap Hrows.
  eapply Forall_impl; [exact (merged_pages_ok gc ac gp ap rows Hgc Hac Hgp Hap Hrows)|].
  apply merged_page_scored.
Qed.
End MergedRecords.

(** ** Action items (generate_action_items) *)


(** A dataset merged without a previous period: every delta is [None]. *)
Module RankingExample.
Definition gsc_current : gmap string (pydict R) :=
  {[ "https://ex.com/a" :=
       {[ "gsc_impressions" := VNum 1000%R; "gsc_ctr" := VNum (1/100)%R ]} ]}.

Definition page : pydict R :=
  {[ "url" := VStr "https://ex.com/a";
     "gsc_impressions" := VNum 1000%R; "gsc_ctr" := VNum (1/100)%R;
     "gsc_clicks_delta_pct" := VNone; "gsc_impressions_delta_pct" := VNone;
     "ga4_sessions_delta_pct" := VNone; "ga4_conversions_delta_pct" := VNone ]}.

Definition settings : Settings R :=
  {| min_impressions_for_ctr_action := 200;
     min_sessions_for_conversion_action := 50;
     target_ctr := (3/100)%R; target_conversion_rate := (2/100)%R;
     default_max_action_items := 0 |}.


End RankingExample.


(** ** Confidence (score_page, lines 158-170) *)




(** ** The position bonus without a category *)

(** C10 (amended): over exact arithmetic, for a record with position above
    8 and positive impressions on which none of the five rules fires (its
    deltas may be [None], as the merger leaves them without previous data),
    [score_page] returns an empty category list and the score
    [round(min(12, (position - 8) * 1.5), 2)]; when the bonus exceeds 0.005
    this score is positive and [generate_action_items] emits the item with
    primary category "opportunity"; when it does not, the score is 0 and the
    record is dropped.  The record is asked for a URL and for numbers under
    the seven names the scorer reads, nothing else. *)
Theorem position_bonus_opportunity (page : pydict R) (settings : Settings R)
    (max_items : option Z)
    (impressions clicks ctr position sessions conversion_rate : R) :
  is_Some (page !! "url") →
  get_float page "gsc_impressions" = Some impressions →
  get_float page "gsc_clicks" = Some clicks →
  get_float page "gsc_ctr" = Some ctr →
  get_float page "gsc_position" = Some position →
  get_float page "ga4_sessions" = Some sessions →
  get_float page "ga4_conversion_rate" = Some conversion_rate →
  is_Some (get_float page "ga4_engagement_rate") →
  (8 < position)%R → (0 < impressions)%R →
  ctr_rule settings impressions ctr = false →
  cr_rule settings sessions conversion_rate = false →
  decline_rule (as_number (page !! "gsc_clicks_delta_pct")) = None →
  decline_rule (as_number (page !! "ga4_sessions_delta_pct")) = None →
  winner_rule settings impressions sessions ctr conversion_rate = false →
  let bonus := Rmin 12 ((position - 8) * (15 / 10)) in
  ∃ result,
    score_page page settings = Some result
    ∧ categories result = []
    ∧ score result = Rround 2 bonus
    ∧ ((5 / 1000 < bonus)%R →
         (0 < score result)%R
         ∧ ∃ item, generate_action_items [page] settings max_items = Some [item]
                   ∧ item_category item = "opportunity"
                   ∧ item_categories item = []
                   ∧ item_score item = score result)
    ∧ ((bonus <= 5 / 1000)%R →
         score result = 0%R
         ∧ generate_action_items [page] settings max_items = Some []).
Proof.
  intros [url Hurl] Hi Hc Hctr Hp Hs Hcr [er Her] Hpos Himp R1 R2 R3 R4 R5 bonus.
  assert (∀ k, k ∈ scoring_fields → is_Some (get_float page k)) as Hnum.
  { intros k Hk. unfold scoring_fields in Hk.
    repeat (apply elem_of_cons in Hk as [->|Hk]; [by eexists|]).
    by apply elem_of_nil in Hk. }
  assert (position_rule position impressions = true) as R6.
  { unfold position_rule. cbn [fltb exact]. rewrite lit_int.
    apply andb_true_intro. split; by apply Rltb_true. }
  assert (0 < bonus)%R as Hbonus.
  { unfold bonus. apply Rmin_glb_lt; lra. }
  pose proof (accumulate_position_only settings impressions clicks ctr position
                sessions conversion_rate _ _ R1 R2 R3 R4 R5 R6) as Hacc.
  rewrite py_min_exact, !lit_int, lit_exact in Hacc.
  cbn [fadd fsub fmul exact] in Hacc. unfold f0 in Hacc. cbn [of_Z exact] in Hacc.
  replace (0 + Rmin 12 ((position - 8) * (15 / 10)))%R with bonus in Hacc
    by (unfold bonus; lra).
  assert (score_page page settings
          = Some (finish {| acc_score := bonus; acc_categories := [];
                            acc_reasons :=
                              ["Average position indicates page may be near page-one threshold."];
                            acc_recommendations := [] |} impressions sessions))
    as Hres.
  { unfold score_page. rewrite Hi, Hc, Hctr, Hp, Hs, Hcr, Her.
    cbn [mbind option_bind]. by rewrite Hacc. }
  set (result := finish _ impressions sessions) in Hres.
  assert (score result = Rround 2 bonus ∧ categories result = []) as [Hscore Hcats].
  { unfold result, finish. cbn [acc_categories acc_score].
    rewrite bool_decide_true by done. cbn [fleb exact andb]. unfold f0. cbn [of_Z exact].
    replace (Rleb bonus 0) with false by (symmetry; apply Rleb_false; lra). done. }
  exists result. split; [done|split; [done|split; [done|split]]].
  - intros Hbig. pose proof (Rround_2_pos bonus Hbig) as Hgt.
    split; [by rewrite Hscore|].
    destruct (evidence_of_is_Some micro_positive_exact page Hnum) as [ev Hev].
    eexists. split.
    + unfold generate_action_items. cbn [collect_items]. rewrite Hres.
      cbn [mbind option_bind fleb exact]. unfold f0. cbn [of_Z exact].
      replace (Rleb (score result) 0) with false
        by (symmetry; apply Rleb_false; lra).
      unfold action_item. rewrite Hurl, Hev. cbn [mbind option_bind].
      rewrite Hcats. cbn [sort_desc insert_desc].
      replace (Z.to_nat (Z.max 1 _)) with (S (Z.to_nat (Z.max 1
        (default (default_max_action_items settings) max_items) - 1))) by lia.
      cbn [take firstn]. rewrite take_nil. reflexivity.
    + done.
  - intros Hsmall. pose proof (Rround_2_zero bonus ltac:(lra)) as Hz.
    split; [by rewrite Hscore|].
    unfold generate_action_items. cbn [collect_items]. rewrite Hres.
    cbn [mbind option_bind fleb exact]. unfold f0. cbn [of_Z exact].
    replace (Rleb (score result) 0) with true
      by (symmetry; apply Rleb_true; lra).
    cbn [mbind option_bind sort_desc]. by rewrite take_nil.
Qed.

Lemma position_bonus_opportunity_witness :
  merge_page_metrics (Some PositionExample.gsc_current) None None None
  = Some [PositionExample.page]
  ∧ PositionExample.page !! "gsc_clicks_delta_pct" = Some VNone
  ∧ PositionExample.page !! "ga4_sessions_delta_pct" = Some VNone
  ∧ ∃ result,
    score_page PositionExample.page PositionExample.settings = Some result
    ∧ categories result = []
    ∧ score result = Rround 2 (Rmin 12 ((15 - 8) * (15 / 10)))
    ∧ ((5 / 1000 < Rmin 12 ((15 - 8) * (15 / 10)))%R →
         (0 < score result)%R
         ∧ ∃ item,
             generate_action_items [PositionExample.page] PositionExample.settings None
             = Some [item]
             ∧ item_category item = "opportunity"
             ∧ item_categories item = []
             ∧ item_score item = score result)
    ∧ ((Rmin 12 ((15 - 8) * (15 / 10)) <= 5 / 1000)%R →
         score result = 0%R
         ∧ generate_action_items [PositionExample.page] PositionExample.settings None
           = Some []).
Proof.
  split; [apply PositionExample.position_merged|]. split; [reflexivity|]. split; [reflexivity|].
  apply (position_bonus_opportunity PositionExample.page PositionExample.settings None
           1%R 0%R 0%R 15%R 0%R 0%R).
  - by eexists.
  - reflexivity.
  - reflexivity.
  - reflexivity.
  - reflexivity.
  - reflexivity.
  - reflexivity.
  - by eexists.
  - lra.
  - lra.
  - apply PositionExample.below_minimum. simpl. lra.
  - apply PositionExample.below_minimum. simpl. lra.
  - reflexivity.
  - reflexivity.
  - unfold winner_rule. cbn [fleb of_Z exact].
    rewrite (proj2 (Rleb_false _ _)); [done|simpl; lra].
Defined.

(** C10, as stated, fails: with position 8.002 and one impression the bonus
    0.003 rounds to the score 0.0, and the record is dropped (binary64, any
    [log10]). *)
Lemma position_bonus_rounds_to_zero :
  ∃ (page : pydict float) (settings : Settings float),
    get_float page "gsc_position" = Some 8.002%float
    ∧ get_float page "gsc_impressions" = Some 1%float
    ∧ position_rule 8.002%float 1%float = true
    ∧ ctr_rule settings 1%float 0%float = false
    ∧ cr_rule settings 0%float 0%float = false
    ∧ winner_rule settings 1%float 0%float 0%float 0%float = false
    ∧ page !! "gsc_clicks_delta_pct" = Some VNone
    ∧ page !! "ga4_sessions_delta_pct" = Some VNone
    ∧ ∀ l : Log10 float,
        score <$> score_page (H0:=l) page settings = Some 0%float
        ∧ generate_action_items (H0:=l) [page] settings None = Some [].
Proof.
  exists (<["url" := VStr "https://ex.com/a"]>
          (<["gsc_impressions" := VNum 1%float]>
          (<["gsc_position" := VNum 8.002%float]>
          (<["gsc_clicks_delta_pct" := VNone]>
          (<["ga4_sessions_delta_pct" := VNone]> ∅))))),
    {| min_impressions_for_ctr_action := 200;
       min_sessions_for_conversion_action := 50;
       target_ctr := 0.03%float; target_conversion_rate := 0.02%float;
       default_max_action_items := 30 |}.
  do 8 (split; [vm_compute; reflexivity|]).
  intros l. split; vm_compute; reflexivity.
Qed.

(** ** The tiers beside the rounded score *)




(** A record merged with a previous period in which clicks and sessions
    fell to zero (both deltas are -1), at position 14.664. *)
Module TierExample.
#[local] Open Scope float_scope.

Definition gsc_current : gmap string (pydict float) :=
  {[ "https://ex.com/a" :=
       {[ "gsc_clicks" := VNum 0; "gsc_impressions" := VNum 10;
          "gsc_ctr" := VNum 0; "gsc_position" := VNum 14.664 ]} ]}.
Definition gsc_previous : gmap string (pydict float) :=
  {[ "https://ex.com/a" :=
       {[ "gsc_clicks" := VNum 10; "gsc_impressions" := VNum 10 ]} ]}.
Definition ga4_previous : gmap string (pydict float) :=
  {[ "https://ex.com/a" :=
       {[ "ga4_sessions" := VNum 10; "ga4_conversions" := VNum 0 ]} ]}.

Definition page : pydict float :=
  {[ "url" := VStr "https://ex.com/a";
     "gsc_clicks" := VNum 0; "gsc_impressions" := VNum 10; "gsc_ctr" := VNum 0;
     "gsc_position" := VNum 14.664;
     "gsc_prev_clicks" := VNum 10; "gsc_prev_impressions" := VNum 10;
     "ga4_prev_sessions" := VNum 10; "ga4_prev_conversions" := VNum 0;
     "gsc_clicks_delta_pct" := VNum (-1); "gsc_impressions_delta_pct" := VNum 0;
     "ga4_sessions_delta_pct" := VNum (-1); "ga4_conversions_delta_pct" := VNone ]}.

Definition settings : Settings float :=
  {| min_impressions_for_ctr_action := 200;
     min_sessions_for_conversion_action := 50;
     target_ctr := 0.03; target_conversion_rate := 0.02;
     default_max_action_items := 30 |}.

End TierExample.


